(* ===== verification/_CoqProject ===== *)
-Q . S2P
Prelude.v
Json.v
Transport.v
Browser.v
Api.v
Forms.v
View.v
OpSpec.v
Runtime.v
ApplyJob.v
UpdateProfile.v
GenerateDocuments.v
Settings.v
Routing.v
Screens.v
App.v
