(* ===== verification/Prelude.v ===== *)
(** * AI-Job-flow client: a verification development

    The repository ([src/ai-job-flow-25-main/src]) is a React single-page
    client of a remote document-generation service.  Its parts, and how
    they interact:
    - [services/api.ts]: one axios instance with base URL
      [http://localhost:8080] and a JSON content type, and four async
      operations ([generateDocuments], [applyJob], [updateProfile],
      [downloadFile]), each sending one request and returning
      [response.data] undecoded;
    - three form pages ([pages/ApplyJob.tsx], [pages/UpdateProfile.tsx],
      [pages/GenerateDocuments.tsx]) with React state, input handlers and
      an async [handleSubmit] that sets [loading], awaits one operation,
      stores the answer, shows one toast and clears [loading];
      [GenerateDocuments] also has [handleDownload], which turns the blob
      of [downloadFile] into a saved file through an object URL and an
      anchor; [UpdateProfile] has [handleCopy] (clipboard);
    - [pages/Settings.tsx]: a theme switch, four inputs and a Save button;
    - [App.tsx], [components/Navbar.tsx], [components/AppSidebar.tsx]:
      the route table, the layout choice, the navbar and the sidebar;
    - [pages/Dashboard.tsx], [pages/Landing.tsx], [components/GlassCard.tsx]:
      static pages (constant data arrays and links) and a card wrapper.
    Every page and component renders JSX: the tree of elements React
    builds from the state, with the labels, controls, links and click
    handlers through which the handlers above are reached.

    ** Files, in dependency order
    - [Prelude] (this file): the [result] error monad (JavaScript
      exceptions and promise rejections as values) with stdpp's monad
      notation, string lemmas, the [jobflow] hint databases, the
      [jobflow_scope] notation [throw] and the tactic [elem_cases].
    - [Json]: JavaScript values ([jsval]), property access [js_get] with
      its [TypeError] on [null]/[undefined], truthiness, [String(v)].
    - [Transport] (Module [Axios]): the axios instance of [api.ts]
      ([API_BASE_URL], [api]) and what axios does with a request
      ([buildFullPath], [combineURLs], [isAbsoluteURL], headers), how the
      network's outcome becomes the operation's result ([settle]:
      [validateStatus], [response_data]); axios itself is library code,
      modelled from the spec (4.1) and its documented defaults.
    - [Browser]: the host environment as one [world] record passed
      explicitly: requests sent, the toasts received by the notification
      sink, live object URLs, DOM nodes and body, saved files, clipboard.
    - [Api] (Module [Api]): the four operations as the requests they send
      ([generateDocuments], [applyJob], [updateProfile], [downloadFile]),
      the response interfaces, and the service's reading of a download
      URL ([path_param], from spec section 6).
    - [Forms]: the HTML constraint checks the pages rely on ([required],
      [type="email"]).
    - [View]: rendered JSX as a tree ([node]: text, boxes, labels,
      inputs, switches, buttons, links, forms) with the actions a click
      reaches, the ids, labels and links it holds ([collect] over the
      nested tree, a hand-written induction principle [node_ind'] and
      [node_map] to relabel actions), HTML's constraint validation and
      implicit submission, and React's rendering of a value as a child,
      which throws on objects ([render_value], [child], [js_and]).
    - [OpSpec]: the spec's abstract operation state machine (4.3):
      idle/pending/success/failure, [AlreadyInFlightError].
    - [Runtime]: the interface [Page] every page implements (state,
      input, synchronous and async handlers split at their [await],
      continuations) with its laws [PageLaws], and one executable runtime
      for all pages ([step], [run]) over events: input, synchronous click,
      dispatched click (only when the control is enabled) and settlement
      of any one in-flight await, so that interleavings are explicit.
    - [ApplyJob], [UpdateProfile], [GenerateDocuments], [Settings]: one
      Module per page, its state record and setters ([useState]), each
      handler as a function on state and world, the [Page] instance, and
      a lemma [..._page_laws] discharging [PageLaws] from the code, and
      the page's JSX as a [view] of its state.
    - [Routing]: [AppContent], the route tables, react-router's matcher
      (modelled from its documented behaviour) and every link target.
    - [Screens]: the Navbar, AppSidebar, Dashboard and Landing trees and
      [screen pathname st], the whole tree [AppContent] renders: navbar,
      sidebar layout with the [SidebarTrigger], and the routed page with
      its actions embedded by [node_map].
    - [App] (Module [AppMachine]): the application as one machine: the
      path, the theme context, the sidebar state, the one mounted page
      (its instance number and state) and every await in flight tagged
      with the instance that started it.  A link to a path with another
      element remounts the page with its initial state; an await of an
      unmounted instance settles with its state updates dropped and its
      toast and DOM effects kept.  The sidebar state is reset to expanded
      when the layout changes ([SidebarProvider] is unmounted on the
      landing page).  Page events go through [Runtime] on the page's
      [Page] instance.

    ** What the theorems show (claim ids C1-C33 in doc comments)
    - Invariants of every run of a page, by induction on the event list
      with the runtime's lemmas: single flight (one request in flight
      exactly while [loading]; [Runtime.run_single_flight] proved once
      against [PageLaws]), one request per dispatched click and one toast
      per settlement, and for the download handler that no object URL
      and no anchor survive a download.
    - Liveness: from any reachable configuration, settling the awaits in
      flight with any outcomes is always possible and leaves the page
      idle ([Runtime.run_drain], [GenerateDocuments.generate_settles_to_idle]):
      an existence statement, not a conditional one.
    - Refinement: every step of the ApplyJob and UpdateProfile pages is
      a step of [OpSpec] with the same requests sent and notifications
      delivered ([ApplyJob.apply_refines], [UpdateProfile.profile_refines]).
    - Safety: every request of the generation page goes to the origin of
      [API_BASE_URL], also downloads named by the service's answer.
    - The application ([App]): single flight holds for the mounted page
      in every reachable configuration (proved once, in a Section over the
      page's [PageLaws]), but not across a remount: leaving the generation
      page and coming back lets a second generation be sent while the
      first is in flight.
    - Bounds: the apply page sends exactly one request per dispatched
      submit, at most one more than it has settled.
    - Views: what a page's JSX offers (an enabled submit button in a
      valid form, a Download or Copy button) is exactly what its model
      dispatches; every screen is well formed (each label names a control,
      ids are unique, [Screens.screens_well_formed]); the links a screen
      renders are the list the routing theorems are about
      ([Screens.screen_links]).
    - Functional behaviour of each handler on every branch (success,
      network failure, non-2xx status, unreadable body), the requests of
      the endpoint table, the download round trip, the Settings page,
      routing (no dead link, unambiguous routes, case and trailing
      slashes, sidebar highlighting).
    - Findings as theorems: no DecodeFailure, stale results after a
      failed generation, [/download/undefined], the
      unconditional "Copied!" toast, Settings' Save ignoring the inputs,
      NotFound shown with a highlighted sidebar item on [/settings/x], an
      object [message] crashing the render of the apply page.

    ** Bounds and fuel
    No definition needs fuel: runs are over finite event lists, every
    recursion is structural, and integers (HTTP statuses) are unbounded
    [Z] as no arithmetic is done on them.  Witnesses evaluate the
    definitions on concrete inputs by [reflexivity] or [vm_compute].

    ** Not modelled
    JSON serialisation of request bodies (a request carries the JS value
    it would serialise), timeouts and cancellation (the code sets none),
    typing a URL into the address bar (a reload: nothing survives it),
    the browser's back and forward buttons (a [popstate] navigation to
    any path of the history; the app machine navigates by the rendered
    links only), the clipboard's absence outside a secure context
    ([handleCopy] assumes [navigator.clipboard] exists; without it line
    43 of UpdateProfile.tsx throws before the toast),
    the providers without state ([QueryClientProvider],
    [TooltipProvider], [Sonner]), the toast hook's
    rendering and dismissal (the sink is the list of toasts), animations,
    icons and class names (the trees keep elements, texts and handlers),
    the theme provider's persistence ([contexts/ThemeContext] is not among
    the sources), the UI library under [components/ui] (not among the
    sources; its [Button], [Input], [Switch] are the host elements of
    [View]), and [pages/NotFound] (imported by App.tsx but absent from the
    sources; rendered as an empty box). *)

From stdpp Require Export base list strings gmap pretty.
From Stdlib Require Export ZArith Lia Ascii.

Declare Scope jobflow_scope.
Delimit Scope jobflow_scope with jf.
Open Scope string_scope.
Open Scope list_scope.
#[export] Set Warnings "-clear-no-such-hyp".

Create HintDb jobflow.
Create Rewrite HintDb jobflow_rw.

(** ** The error monad

    A computation that either returns a value ([Ok]) or raises an error
    ([Err]): JavaScript code that throws, and promises that reject, are
    modelled as values of this type. *)
Inductive result (E A : Type) : Type :=
| Ok (a : A)
| Err (e : E).
Arguments Ok {E A} a.
Arguments Err {E A} e.

(** [throw e] *)
Notation "'throw' e" := (Err e) (at level 10, e at level 9) : jobflow_scope.

#[export] Instance result_ret E : MRet (result E) := λ A a, Ok a.
#[export] Instance result_bind E : MBind (result E) :=
  λ A B f m, match m with Ok a => f a | Err e => Err e end.

(** [catch]: the [try { ... } catch (e) { ... }] of the sources. *)
Definition result_catch {E A} (m : result E A) (h : E → A) : A :=
  match m with Ok a => a | Err e => h e end.

Definition is_ok {E A} (m : result E A) : bool :=
  match m with Ok _ => true | Err _ => false end.

Lemma result_bind_Ok {E A B} (a : A) (f : A → result E B) :
  (Ok a ≫= f) = f a.
Proof. reflexivity. Qed.

Lemma result_bind_Err {E A B} (e : E) (f : A → result E B) :
  (Err e ≫= f) = Err e.
Proof. reflexivity. Qed.

Lemma Ok_inj {E A} (a b : A) : @Ok E A a = Ok b → a = b.
Proof. by intros [=]. Qed.

Lemma result_bind_eq_Ok {E A B} (m : result E A) (f : A → result E B) b :
  (m ≫= f) = Ok b → ∃ a, m = Ok a ∧ f a = Ok b.
Proof. destruct m; simpl; [eauto | discriminate]. Qed.

#[export] Hint Rewrite @result_bind_Ok @result_bind_Err : jobflow_rw.

(** ** Strings *)

(** The double-quote character, for texts of the sources that contain it. *)
Definition dq : string := String (ascii_of_nat 34) EmptyString.

Lemma string_app_assoc (s1 s2 s3 : string) : s1 +:+ (s2 +:+ s3) = (s1 +:+ s2) +:+ s3.
Proof. induction s1 as [|c s1 IH]; [done|]. exact (f_equal (String c) IH). Qed.

Lemma string_app_nil_r (s : string) : s +:+ "" = s.
Proof. induction s as [|c s IH]; [done|]. exact (f_equal (String c) IH). Qed.

Lemma string_prefix_app (s1 s2 : string) : String.prefix s1 (s1 +:+ s2) = true.
Proof.
  induction s1 as [|c s1 IH]; simpl; [by destruct s2|].
  destruct (Ascii.ascii_dec c c); [exact IH|contradiction].
Qed.

(** ** Lists *)

(** Counting the elements of a mapped list that satisfy a predicate. *)
Lemma length_filter_fmap {A B} (f : A → B) (P : B → Prop) (Q : A → Prop)
    `{∀ x, Decision (P x)} `{∀ x, Decision (Q x)} (l : list A) :
  (∀ x, x ∈ l → P (f x) ↔ Q x) → length (filter P (f <$> l)) = length (filter Q l).
Proof.
  induction l as [|x l IH]; intros Hx; [done|].
  assert (P (f x) ↔ Q x) by (apply Hx; left).
  specialize (IH ltac:(set_solver)). rewrite fmap_cons, !filter_cons.
  repeat case_decide; simpl; rewrite ?IH; naive_solver.
Qed.

Lemma length_filter_none {A} (P : A → Prop) `{∀ x, Decision (P x)} (l : list A) :
  (∀ x, x ∈ l → ¬ P x) → length (filter P l) = 0.
Proof.
  induction l as [|x l IH]; intros Hx; [done|].
  rewrite filter_cons, decide_False by (apply Hx; left). apply IH. set_solver.
Qed.

(** Membership in the image of an injective function. *)
Lemma elem_of_map_inj {A B} (f : A → B) `{!Inj (=) (=) f} (l : list A) x :
  f x ∈ List.map f l ↔ x ∈ l.
Proof.
  induction l as [|y l IH]; simpl; [set_solver|].
  rewrite !elem_of_cons, IH. split; [intros [?%(inj f)|]|intros [->|]]; auto.
Qed.

(** A list permuted by taking one element out: the count drops by that one. *)
Lemma length_filter_perm {A} (P : A → Prop) `{∀ x, Decision (P x)} (l rest : list A) x :
  l ≡ₚ x :: rest →
  length (filter P l) = ((if decide (P x) then 1 else 0) + length (filter P rest))%nat.
Proof. intros ->. rewrite filter_cons. by case_decide. Qed.

(** ** Shared tactics *)
(** Split [H : x ∈ [a; b; ...]] into one goal per element, with [x]
    replaced by it. *)
Ltac elem_cases H :=
  repeat (apply elem_of_cons in H as [->|H] || apply elem_of_nil in H as []).
