(* ===== verification/Json.v ===== *)
(** * JavaScript values as the client handles them

    The sources never decode a response: [api.ts] returns [response.data]
    as it is, typed only by a TypeScript interface that is erased at run
    time, and the pages read fields of it ([response.message],
    [response.profile_suggestions], [results.cv_path]).  This file models
    the values such code can meet ([jsval]), property access with its
    [TypeError] on [null]/[undefined], truthiness (the [&&] and [?:] of the
    JSX) and [String(v)] (template literals). *)

From S2P Require Import Prelude.
Local Open Scope jobflow_scope.

#[local] Set Warnings "-register-all".

Inductive jsval : Type :=
| JUndefined
| JNull
| JBool (b : bool)
| JNum (n : Z)
| JStr (s : string)
| JArr (l : list jsval)
| JObj (fields : list (string * jsval))
| JBlob (bytes : string).

(** The errors that plain JavaScript code of the client can raise. *)
Inductive js_error : Type :=
| TypeError (what : string).

(** Own property of an object: the last binding of the key wins, as for
    object literals and [JSON.parse]. *)
Fixpoint obj_lookup (fs : list (string * jsval)) (k : string) : option jsval :=
  match fs with
  | [] => None
  | (k', v) :: fs' =>
      match obj_lookup fs' k with
      | Some w => Some w
      | None => if decide (k' = k) then Some v else None
      end
  end.

Definition obj_get (fs : list (string * jsval)) (k : string) : jsval :=
  default JUndefined (obj_lookup fs k).

(** [v.k]: property access.  Reading a property of [null] or [undefined]
    throws a [TypeError]; strings, arrays and blobs have a [length] /
    [size]; every other property is [undefined]. *)
Definition js_get (v : jsval) (k : string) : result js_error jsval :=
  match v with
  | JUndefined | JNull => throw (TypeError ("Cannot read properties of null/undefined (reading '" +:+ k +:+ "')"))
  | JObj fs => Ok (obj_get fs k)
  | JStr s => Ok (if decide (k = "length") then JNum (Z.of_nat (String.length s)) else JUndefined)
  | JArr l => Ok (if decide (k = "length") then JNum (Z.of_nat (length l)) else JUndefined)
  | JBlob b => Ok (if decide (k = "size") then JNum (Z.of_nat (String.length b)) else JUndefined)
  | JBool _ | JNum _ => Ok JUndefined
  end.

(** JavaScript truthiness ([NaN] and [-0] are not in the model). *)
Definition truthy (v : jsval) : bool :=
  match v with
  | JUndefined | JNull => false
  | JBool b => b
  | JNum n => negb (Z.eqb n 0)
  | JStr s => negb (String.eqb s "")
  | JArr _ | JObj _ | JBlob _ => true
  end.

(** [String(v)], which a template literal applies to each [${...}];
    [Array.prototype.join] writes [null] and [undefined] elements as the
    empty string. *)
Fixpoint to_js_string (v : jsval) : string :=
  match v with
  | JUndefined => "undefined"
  | JNull => "null"
  | JBool b => if b then "true" else "false"
  | JNum n => pretty n
  | JStr s => s
  | JArr l =>
      (fix join (l : list jsval) : string :=
         let elem (x : jsval) :=
           match x with JUndefined | JNull => "" | _ => to_js_string x end in
         match l with
         | [] => ""
         | [x] => elem x
         | x :: l' => elem x +:+ "," +:+ join l'
         end) l
  | JObj _ => "[object Object]"
  | JBlob _ => "[object Blob]"
  end.

(** ** Lemmas *)

Lemma js_get_obj fs k : js_get (JObj fs) k = Ok (obj_get fs k).
Proof. reflexivity. Qed.

Lemma obj_get_cons_ne k k' v fs :
  k' ≠ k → obj_get ((k', v) :: fs) k = obj_get fs k.
Proof.
  intros Hne. unfold obj_get. simpl.
  destruct (obj_lookup fs k); [done|]. by rewrite decide_False.
Qed.

Lemma obj_get_single k v : obj_get [(k, v)] k = v.
Proof. unfold obj_get. simpl. by rewrite decide_True. Qed.

Lemma js_get_nullish v k :
  v = JUndefined ∨ v = JNull → ∃ msg, js_get v k = Err (TypeError msg).
Proof. intros [-> | ->]; eexists; reflexivity. Qed.

(** Reading a property of a truthy value never throws. *)
Lemma js_get_truthy v k : truthy v = true → ∃ x, js_get v k = Ok x.
Proof. destruct v; simpl; try discriminate; eauto. Qed.

Lemma truthy_str s : truthy (JStr s) = true ↔ s ≠ "".
Proof.
  simpl. destruct (String.eqb_spec s ""); simpl; split; congruence.
Qed.

#[export] Hint Rewrite js_get_obj obj_get_single : jobflow_rw.
