(* ===== verification/Transport.v ===== *)
(** * Transport adapter: the axios instance of [src/services/api.ts]

    [api.ts] creates one axios instance with a fixed [baseURL]
    ([API_BASE_URL = 'http://localhost:8080']) and a JSON content-type
    header, and every operation goes through it.  What axios itself does
    with a request (joining the base URL and the path, dropping the
    content type of a request without body, classifying the status,
    turning the body into [response.data]) is library code that is not in
    the repository: it is modelled from the spec (section 4.1) and axios's
    documented defaults ([validateStatus], [transitional.silentJSONParsing],
    [allowAbsoluteUrls]).

    The network is not modelled as a function: a request that has been
    sent stays in flight until the environment settles it with a
    [net_outcome] (no response, or a reply with a status and a body).
    There is no timeout (axios's default [timeout: 0]) and no retry. *)

From S2P Require Import Prelude Json.

Module Axios.

(** ** Configuration *)

Record axios_config : Type := {
  baseURL : string;
  cfg_headers : list (string * string)
}.

Definition API_BASE_URL : string := "http://localhost:8080".

(** [const api = axios.create({ baseURL: API_BASE_URL, headers: {...} })] *)
Definition api : axios_config := {|
  baseURL := API_BASE_URL;
  cfg_headers := [("Content-Type", "application/json")]
|}.

(** ** Requests *)

Inductive method : Type := GET | POST.

Inductive response_type : Type := RTJson | RTBlob.

Record request : Type := {
  req_method : method;
  req_url : string;
  req_headers : list (string * string);
  req_data : option jsval;
  req_responseType : response_type
}.

(** ** URL building ([buildFullPath], [combineURLs], [isAbsoluteURL]) *)

Definition slash : ascii := "/"%char.

(** [relativeURL.replace(/^\/+/, '')] *)
Fixpoint strip_leading_slashes (s : string) : string :=
  match s with
  | String c s' => if decide (c = slash) then strip_leading_slashes s' else s
  | EmptyString => EmptyString
  end.

(** [baseURL.replace(/\/?\/$/, '')]: at most two trailing slashes go. *)
Definition strip_trailing_slashes (s : string) : string :=
  match reverse (String.list_ascii_of_string s) with
  | c1 :: c2 :: r =>
      if decide (c1 = slash) then
        if decide (c2 = slash) then String.string_of_list_ascii (reverse r)
        else String.string_of_list_ascii (reverse (c2 :: r))
      else s
  | [c1] => if decide (c1 = slash) then "" else s
  | [] => s
  end.

Definition combineURLs (base rel : string) : string :=
  if decide (rel = "") then base
  else strip_trailing_slashes base +:+ "/" +:+ strip_leading_slashes rel.

Definition is_alpha (c : ascii) : bool :=
  let n := nat_of_ascii c in (Nat.leb 97 n && Nat.leb n 122) || (Nat.leb 65 n && Nat.leb n 90).

Definition is_digit (c : ascii) : bool :=
  let n := nat_of_ascii c in Nat.leb 48 n && Nat.leb n 57.

Definition is_scheme_char (c : ascii) : bool :=
  is_alpha c || is_digit c || bool_decide (c = "+"%char)
  || bool_decide (c = "-"%char) || bool_decide (c = "."%char).

(** After the first letter of a scheme: [[a-z\d+\-.]*:\/\/]. *)
Fixpoint scheme_rest (s : string) : bool :=
  match s with
  | String c s' =>
      if decide (c = ":"%char) then String.prefix "//" s'
      else is_scheme_char c && scheme_rest s'
  | EmptyString => false
  end.

(** [/^([a-z][a-z\d+\-.]*:)?\/\//i.test(url)] *)
Definition isAbsoluteURL (url : string) : bool :=
  String.prefix "//" url ||
  match url with
  | String c s' => is_alpha c && scheme_rest s'
  | EmptyString => false
  end.

(** [buildFullPath(baseURL, requestedURL, allowAbsoluteUrls = true)] *)
Definition buildFullPath (base url : string) : string :=
  if bool_decide (base ≠ "") && negb (isAbsoluteURL url) then combineURLs base url
  else url.

(** A request as axios sends it: the full URL, the instance's headers
    without the content type when there is no body (the XHR adapter's
    [requestData === undefined && setContentType(null)]). *)
Definition axios_request (cfg : axios_config) (m : method) (url : string)
    (data : option jsval) (rt : response_type) : request := {|
  req_method := m;
  req_url := buildFullPath (baseURL cfg) url;
  req_headers :=
    match data with
    | Some _ => cfg_headers cfg
    | None => filter (λ h, h.1 ≠ "Content-Type") (cfg_headers cfg)
    end;
  req_data := data;
  req_responseType := rt
|}.

(** [api.post(url, data)] and [api.get(url, { responseType })] *)
Definition post (cfg : axios_config) (url : string) (data : jsval) : request :=
  axios_request cfg POST url (Some data) RTJson.

Definition get (cfg : axios_config) (url : string) (rt : response_type) : request :=
  axios_request cfg GET url None rt.

(** ** Responses *)

(** A body as the server sent it: its bytes, and what [JSON.parse] makes
    of them ([None] when they are not JSON). *)
Record payload : Type := {
  raw : string;
  parsed : option jsval
}.

Inductive net_outcome : Type :=
| NoResponse
| Reply (status : Z) (body : payload).

(** The rejections of an axios promise.  Axios has no decode step: a
    body that is not JSON is handed over as a string, so the spec's
    [DecodeFailure] is never raised. *)
Inductive transport_error : Type :=
| NetworkFailure
| HttpFailure (status : Z) (data : jsval).

(** [validateStatus: status => status >= 200 && status < 300] *)
Definition validateStatus (status : Z) : bool := (200 <=? status)%Z && (status <? 300)%Z.

(** [response.data]: a blob for [responseType: 'blob]; otherwise the
    parsed JSON, or the raw text when it does not parse
    ([silentJSONParsing]). *)
Definition response_data (rt : response_type) (b : payload) : jsval :=
  match rt with
  | RTBlob => JBlob (raw b)
  | RTJson => match parsed b with Some v => v | None => JStr (raw b) end
  end.

(** How the promise of a request settles when the network answers. *)
Definition settle (r : request) (o : net_outcome) : result transport_error jsval :=
  match o with
  | NoResponse => Err NetworkFailure
  | Reply st b =>
      let d := response_data (req_responseType r) b in
      if validateStatus st then Ok d else Err (HttpFailure st d)
  end.

(** ** Lemmas *)

Lemma validateStatus_spec st :
  validateStatus st = true ↔ (200 <= st < 300)%Z.
Proof. unfold validateStatus. rewrite andb_true_iff, Z.leb_le, Z.ltb_lt. done. Qed.

Lemma settle_Ok r o d :
  settle r o = Ok d ↔
  ∃ st b, o = Reply st b ∧ (200 <= st < 300)%Z ∧ d = response_data (req_responseType r) b.
Proof.
  destruct o as [|st b]; simpl; [split; [discriminate | naive_solver]|].
  destruct (validateStatus st) eqn:V.
  - apply validateStatus_spec in V. naive_solver.
  - split; [discriminate|]. intros (st' & b' & [= <- <-] & Hr & _).
    apply validateStatus_spec in Hr. congruence.
Qed.

Lemma settle_Err r o e :
  settle r o = Err e ↔
  (o = NoResponse ∧ e = NetworkFailure) ∨
  (∃ st b, o = Reply st b ∧ ¬ (200 <= st < 300)%Z ∧
           e = HttpFailure st (response_data (req_responseType r) b)).
Proof.
  destruct o as [|st b]; simpl; [naive_solver|].
  destruct (validateStatus st) eqn:V.
  - apply validateStatus_spec in V. naive_solver.
  - assert (¬ (200 <= st < 300)%Z) by (rewrite <- validateStatus_spec; congruence).
    naive_solver.
Qed.

Lemma strip_leading_slashes_nonslash p :
  ¬ String.prefix "/" p = true → strip_leading_slashes p = p.
Proof.
  intros Hp. destruct p as [|c p]; [done|]. simpl. case_decide as Hc; [|done].
  subst. exfalso. apply Hp. by destruct p.
Qed.

Lemma isAbsoluteURL_slash p :
  ¬ String.prefix "/" p = true → isAbsoluteURL ("/" +:+ p) = false.
Proof.
  intros Hp. destruct p as [|c p]; [reflexivity|]. unfold isAbsoluteURL. simpl.
  destruct (ascii_dec c "/"%char) as [->|Hc].
  - exfalso. apply Hp. by destruct p.
  - destruct c as [[] [] [] [] [] [] [] []]; try reflexivity; congruence.
Qed.

(** A path made of one slash and a segment that does not start with a
    slash is joined to the base URL. *)
Lemma buildFullPath_rel base p :
  base ≠ "" → ¬ String.prefix "/" p = true →
  buildFullPath base ("/" +:+ p) = strip_trailing_slashes base +:+ "/" +:+ p.
Proof.
  intros Hb Hp. unfold buildFullPath.
  rewrite isAbsoluteURL_slash by done. rewrite bool_decide_true by done.
  unfold combineURLs. rewrite decide_False by done. simpl.
  by rewrite strip_leading_slashes_nonslash.
Qed.

Lemma api_full_url p :
  ¬ String.prefix "/" p = true →
  buildFullPath (baseURL api) ("/" +:+ p) = API_BASE_URL +:+ "/" +:+ p.
Proof. intros Hp. by rewrite buildFullPath_rel. Qed.

End Axios.
