(* ===== verification/Browser.v ===== *)
(** * The host environment the pages act on

    The pages reach outside of React state through a few browser and
    library APIs: the toast hook ([toast({...})], the notification sink),
    the axios instance (each call hands one request to the network), and,
    in [handleDownload] and [handleCopy],
    [window.URL.createObjectURL] / [revokeObjectURL],
    [document.createElement('a')], [document.body.appendChild] /
    [removeChild], [a.click()] and [navigator.clipboard.writeText].
    None of this is code of the repository: the operations are modelled
    from the spec (sections 4.4 and 6) and the DOM's documented behaviour,
    as explicit state passing on one [world] record. *)

From S2P Require Import Prelude Json Transport.
Import Axios.
Open Scope list_scope.
Local Open Scope jobflow_scope.

Inductive toast_variant : Type := VDefault | VDestructive.

(** [toast({ title, description, variant })] *)
Record toast : Type := {
  t_title : string;
  t_description : jsval;
  t_variant : toast_variant
}.

(** An [<a>] element created by [document.createElement('a')]. *)
Record anchor : Type := {
  a_href : string;
  a_download : string
}.

Record world : Type := {
  sent : list request;              (** requests handed to the network, oldest first *)
  toasts : list toast;              (** events received by the notification sink *)
  object_urls : gmap string string; (** live object URLs and the bytes of their blob *)
  next_url : nat;
  nodes : gmap nat anchor;          (** elements created so far *)
  next_node : nat;
  body : list nat;                  (** children of [document.body], in order *)
  saved : list (string * string);   (** files the browser saved: name and bytes *)
  clipboard : string
}.

Definition world0 : world := {|
  sent := []; toasts := []; object_urls := ∅; next_url := 0;
  nodes := ∅; next_node := 0; body := []; saved := []; clipboard := ""
|}.

Section Ops.
Implicit Types (w : world).

Definition with_sent w l : world :=
  {| sent := l; toasts := toasts w; object_urls := object_urls w; next_url := next_url w;
     nodes := nodes w; next_node := next_node w; body := body w; saved := saved w;
     clipboard := clipboard w |}.

Definition with_toasts w l : world :=
  {| sent := sent w; toasts := l; object_urls := object_urls w; next_url := next_url w;
     nodes := nodes w; next_node := next_node w; body := body w; saved := saved w;
     clipboard := clipboard w |}.

(** The network call of an axios method: the request is on the wire. *)
Definition send (r : request) w : world := with_sent w (sent w ++ [r]).

(** The toast hook: one event for the sink. *)
Definition show_toast (t : toast) w : world := with_toasts w (toasts w ++ [t]).

(** [window.URL.createObjectURL(blob)]: a fresh URL bound to the blob;
    anything but a blob is a [TypeError]. *)
Definition createObjectURL (v : jsval) w : result js_error (string * world) :=
  match v with
  | JBlob b =>
      let u := "blob:" +:+ pretty (next_url w) in
      Ok (u, {| sent := sent w; toasts := toasts w; object_urls := <[u := b]> (object_urls w);
                next_url := S (next_url w); nodes := nodes w; next_node := next_node w;
                body := body w; saved := saved w; clipboard := clipboard w |})
  | _ => throw (TypeError "Failed to execute 'createObjectURL'")
  end.

(** [window.URL.revokeObjectURL(url)] *)
Definition revokeObjectURL (u : string) w : world :=
  {| sent := sent w; toasts := toasts w; object_urls := delete u (object_urls w);
     next_url := next_url w; nodes := nodes w; next_node := next_node w;
     body := body w; saved := saved w; clipboard := clipboard w |}.

(** [document.createElement('a')] *)
Definition createAnchor w : nat * world :=
  (next_node w,
   {| sent := sent w; toasts := toasts w; object_urls := object_urls w; next_url := next_url w;
      nodes := <[next_node w := {| a_href := ""; a_download := "" |}]> (nodes w);
      next_node := S (next_node w); body := body w; saved := saved w;
      clipboard := clipboard w |}).

(** [a.href = url; a.download = name] *)
Definition setAnchor (n : nat) (a : anchor) w : world :=
  {| sent := sent w; toasts := toasts w; object_urls := object_urls w; next_url := next_url w;
     nodes := <[n := a]> (nodes w); next_node := next_node w; body := body w;
     saved := saved w; clipboard := clipboard w |}.

(** [document.body.appendChild(a)] *)
Definition appendChild (n : nat) w : world :=
  {| sent := sent w; toasts := toasts w; object_urls := object_urls w; next_url := next_url w;
     nodes := nodes w; next_node := next_node w; body := body w ++ [n];
     saved := saved w; clipboard := clipboard w |}.

(** [document.body.removeChild(a)]: a [NotFoundError] when [a] is not a
    child of the body. *)
Definition removeChild (n : nat) w : result js_error world :=
  if decide (n ∈ body w) then
    Ok {| sent := sent w; toasts := toasts w; object_urls := object_urls w;
          next_url := next_url w; nodes := nodes w; next_node := next_node w;
          body := filter (λ m, m ≠ n) (body w); saved := saved w; clipboard := clipboard w |}
  else throw (TypeError "NotFoundError: The node to be removed is not a child of this node").

(** [a.click()] on an anchor with a [download] attribute: the browser
    resolves [href] and saves what it denotes under the [download] name.
    A revoked or unknown object URL saves nothing. *)
Definition click (n : nat) w : world :=
  match nodes w !! n with
  | Some a =>
      match object_urls w !! a_href a with
      | Some bytes =>
          {| sent := sent w; toasts := toasts w; object_urls := object_urls w;
             next_url := next_url w; nodes := nodes w; next_node := next_node w;
             body := body w; saved := saved w ++ [(a_download a, bytes)];
             clipboard := clipboard w |}
      | None => w
      end
  | None => w
  end.

(** [navigator.clipboard.writeText(text)]: the promise fulfils when the
    write is allowed ([ok = true]) and rejects otherwise. *)
Definition writeText (ok : bool) (text : string) w : world :=
  if ok then
    {| sent := sent w; toasts := toasts w; object_urls := object_urls w; next_url := next_url w;
       nodes := nodes w; next_node := next_node w; body := body w; saved := saved w;
       clipboard := text |}
  else w.

End Ops.

(** ** Lemmas *)

Lemma send_sent r w : sent (send r w) = sent w ++ [r].
Proof. reflexivity. Qed.
Lemma send_toasts r w : toasts (send r w) = toasts w.
Proof. reflexivity. Qed.
Lemma show_toast_toasts t w : toasts (show_toast t w) = toasts w ++ [t].
Proof. reflexivity. Qed.
Lemma show_toast_sent t w : sent (show_toast t w) = sent w.
Proof. reflexivity. Qed.

Lemma click_sent n w : sent (click n w) = sent w.
Proof. unfold click. by repeat case_match. Qed.
Lemma click_toasts n w : toasts (click n w) = toasts w.
Proof. unfold click. by repeat case_match. Qed.

#[export] Hint Rewrite click_sent click_toasts : jobflow_rw.
#[export] Hint Rewrite send_sent send_toasts show_toast_toasts show_toast_sent : jobflow_rw.
