(* ===== verification/Api.v ===== *)
(** * Operation contracts: the exported functions of [src/services/api.ts]

    Each of [generateDocuments], [applyJob], [updateProfile] and
    [downloadFile] is an [async] function that sends one request through
    the axios instance and returns [response.data].  It is modelled by the
    request it sends; the value its promise settles with is
    [Axios.settle r o], where [o] is what the network answers.  The
    TypeScript interfaces of the responses are erased: nothing checks that
    [response.data] has their shape. *)

From S2P Require Import Prelude Json Transport.
Import Axios.
Open Scope list_scope.

Module Api.

(** [interface UserInfo] *)
Record UserInfo : Type := {
  name : string;
  email : string;
  phone : string;
  skills : string;
  experience : string;
  education : string;
  job_description : string;
  linkedin_profile_url : option string
}.

(** The object a [UserInfo] is at run time; an absent optional field is
    [undefined], which [JSON.stringify] leaves out. *)
Definition UserInfo_to_js (u : UserInfo) : jsval :=
  JObj ([("name", JStr (name u)); ("email", JStr (email u)); ("phone", JStr (phone u));
         ("skills", JStr (skills u)); ("experience", JStr (experience u));
         ("education", JStr (education u)); ("job_description", JStr (job_description u))]
        ++ match linkedin_profile_url u with
           | Some l => [("linkedin_profile_url", JStr l)]
           | None => []
           end).

(** [interface GenerateDocumentsResponse] *)
Record GenerateDocumentsResponse : Type := {
  cv_path : string;
  cover_letter_path : string;
  cv_preview : string;
  cover_letter_preview : string
}.

(** [interface ApplyJobResponse] *)
Record ApplyJobResponse : Type := { ajr_message : string }.

(** [interface UpdateProfileResponse] *)
Record UpdateProfileResponse : Type := {
  upr_message : string;
  profile_suggestions : string
}.

(** [generateDocuments(data)]: [api.post('/generate-documents', data)] *)
Definition generateDocuments (data : UserInfo) : request :=
  post api "/generate-documents" (UserInfo_to_js data).

(** [applyJob(jobUrl)]: [api.post('/apply-job', { job_url: jobUrl })] *)
Definition applyJob (jobUrl : string) : request :=
  post api "/apply-job" (JObj [("job_url", JStr jobUrl)]).

(** [updateProfile(profileUrl)]: [api.post('/update-profile', { profile_url: profileUrl })] *)
Definition updateProfile (profileUrl : string) : request :=
  post api "/update-profile" (JObj [("profile_url", JStr profileUrl)]).

(** [downloadFile(filename)]: [api.get(`/download/${filename}`, { responseType: 'blob' })].
    The argument is whatever value the caller passes (the page passes
    [results.cv_path]); the template literal applies [String] to it and
    does not encode it. *)
Definition downloadFile (filename : jsval) : request :=
  get api ("/download/" +:+ to_js_string filename) RTBlob.

(** ** What the response interfaces promise, as checks on a value
    (the code itself never performs them). *)

Definition str_field (v : jsval) (k : string) : option string :=
  match v with
  | JObj fs => match obj_get fs k with JStr s => Some s | _ => None end
  | _ => None
  end.

Definition GenerateDocumentsResponse_of_js (v : jsval) : option GenerateDocumentsResponse :=
  cv ← str_field v "cv_path"; cl ← str_field v "cover_letter_path";
  cvp ← str_field v "cv_preview"; clp ← str_field v "cover_letter_preview";
  Some {| cv_path := cv; cover_letter_path := cl; cv_preview := cvp; cover_letter_preview := clp |}.

Definition ApplyJobResponse_of_js (v : jsval) : option ApplyJobResponse :=
  m ← str_field v "message"; Some {| ajr_message := m |}.

Definition UpdateProfileResponse_of_js (v : jsval) : option UpdateProfileResponse :=
  m ← str_field v "message"; s ← str_field v "profile_suggestions";
  Some {| upr_message := m; profile_suggestions := s |}.

(** ** How the service reads a download URL

    [GET /download/{filename}] (spec section 6): after the prefix, the
    path up to a [?] or [#] is one segment, which is percent-decoded;
    a path with more segments, or a dot segment (which the URL parser
    removes), does not reach the route. *)

Definition download_prefix : string := API_BASE_URL +:+ "/download/".

Definition hex_value (c : ascii) : option nat :=
  let n := nat_of_ascii c in
  if Nat.leb 48 n && Nat.leb n 57 then Some (n - 48)
  else if Nat.leb 65 n && Nat.leb n 70 then Some (n - 55)
  else if Nat.leb 97 n && Nat.leb n 102 then Some (n - 87)
  else None.

(** Percent-decoding: [%XX] with two hex digits is the byte [XX]. *)
Fixpoint pct_decode (l : list ascii) : list ascii :=
  match l with
  | c :: rest =>
      if decide (c = "%"%char) then
        match rest with
        | h1 :: h2 :: rest' =>
            match hex_value h1, hex_value h2 with
            | Some a, Some b => ascii_of_nat (16 * a + b) :: pct_decode rest'
            | _, _ => c :: pct_decode rest
            end
        | _ => c :: pct_decode rest
        end
      else c :: pct_decode rest
  | [] => []
  end.

(** The path part of what follows the prefix: up to [?] or [#]. *)
Fixpoint path_part (l : list ascii) : list ascii :=
  match l with
  | c :: rest => if bool_decide (c = "?"%char) || bool_decide (c = "#"%char) then [] else c :: path_part rest
  | [] => []
  end.

Definition path_param (url : string) : option string :=
  let l := String.list_ascii_of_string url in
  let p := String.list_ascii_of_string download_prefix in
  if decide (take (length p) l = p) then
    let seg := path_part (drop (length p) l) in
    if decide ("/"%char ∈ seg ∨ "\"%char ∈ seg ∨ seg = [] ∨ seg = ["."%char]
               ∨ seg = ["."%char; "."%char])
    then None
    else Some (String.string_of_list_ascii (pct_decode seg))
  else None.

(** A file name that is one URL path segment as it is: printable ASCII
    without [/ \ ? # %], not empty and not a dot segment. *)
Definition safe_char (c : ascii) : bool :=
  let n := nat_of_ascii c in
  Nat.leb 33 n && Nat.leb n 126 &&
  negb (bool_decide (c ∈ String.list_ascii_of_string "/\?#%")).

Definition safe_segment (f : string) : Prop :=
  Forall (λ c, safe_char c = true) (String.list_ascii_of_string f) ∧
  f ≠ "" ∧ f ≠ "." ∧ f ≠ "..".

(** ** Lemmas *)

Lemma list_ascii_app (s1 s2 : string) :
  String.list_ascii_of_string (s1 +:+ s2)
  = String.list_ascii_of_string s1 ++ String.list_ascii_of_string s2.
Proof. induction s1; simpl; [done|]. by rewrite IHs1. Qed.

Lemma downloadFile_url (f : jsval) :
  req_url (downloadFile f) = download_prefix +:+ to_js_string f.
Proof.
  change (req_url (downloadFile f))
    with (buildFullPath (baseURL api) ("/" +:+ ("download/" +:+ to_js_string f))).
  rewrite api_full_url by done. unfold download_prefix.
  by rewrite <- string_app_assoc.
Qed.

(** Every operation's request goes to the origin of [API_BASE_URL]. *)
Lemma api_requests_origin (u : UserInfo) (f : jsval) :
  String.prefix (API_BASE_URL +:+ "/") (req_url (generateDocuments u)) = true ∧
  String.prefix (API_BASE_URL +:+ "/") (req_url (downloadFile f)) = true.
Proof.
  split; [reflexivity|]. rewrite downloadFile_url.
  replace (download_prefix +:+ to_js_string f)
    with ((API_BASE_URL +:+ "/") +:+ ("download/" +:+ to_js_string f));
    [apply string_prefix_app|].
  by rewrite string_app_assoc.
Qed.

Lemma safe_path_part l :
  Forall (λ c, safe_char c = true) l → path_part l = l.
Proof.
  induction 1 as [|c l Hc _ IH]; [done|]. simpl.
  rewrite !bool_decide_false; [by rewrite IH| |]; intros ->; discriminate.
Qed.

Lemma safe_pct_decode l :
  Forall (λ c, safe_char c = true) l → pct_decode l = l.
Proof.
  induction 1 as [|c l Hc _ IH]; [done|]. simpl.
  rewrite decide_False; [by rewrite IH|]. intros ->. discriminate.
Qed.

Lemma safe_segment_shape f :
  safe_segment f →
  ¬ ("/"%char ∈ String.list_ascii_of_string f ∨ "\"%char ∈ String.list_ascii_of_string f ∨
     String.list_ascii_of_string f = [] ∨ String.list_ascii_of_string f = ["."%char] ∨
     String.list_ascii_of_string f = ["."%char; "."%char]).
Proof.
  intros (Hf & Hne & Hd1 & Hd2) Hbad.
  assert (∀ l, String.list_ascii_of_string f = l → f = String.string_of_list_ascii l) as Hinj.
  { intros l <-. by rewrite String.string_of_list_ascii_of_string. }
  destruct Hbad as [Hin|[Hin|[Hl|[Hl|Hl]]]].
  - rewrite Forall_forall in Hf. apply Hf in Hin. discriminate.
  - rewrite Forall_forall in Hf. apply Hf in Hin. discriminate.
  - apply Hne. by rewrite (Hinj _ Hl).
  - apply Hd1. by rewrite (Hinj _ Hl).
  - apply Hd2. by rewrite (Hinj _ Hl).
Qed.

(** ** Properties *)

(** C15: The endpoint table of the spec (sections 4.2 and 6): each
    operation sends one request with the method, full URL, body and
    response type of its row, and the JSON content type exactly on the
    requests that have a body. *)
Theorem api_contracts (u : UserInfo) (jobUrl profileUrl : string) (f : jsval) :
  (req_method (generateDocuments u), req_url (generateDocuments u),
   req_data (generateDocuments u), req_responseType (generateDocuments u),
   req_headers (generateDocuments u))
  = (POST, "http://localhost:8080/generate-documents", Some (UserInfo_to_js u), RTJson,
     [("Content-Type", "application/json")]) ∧
  (req_method (applyJob jobUrl), req_url (applyJob jobUrl), req_data (applyJob jobUrl),
   req_responseType (applyJob jobUrl), req_headers (applyJob jobUrl))
  = (POST, "http://localhost:8080/apply-job", Some (JObj [("job_url", JStr jobUrl)]), RTJson,
     [("Content-Type", "application/json")]) ∧
  (req_method (updateProfile profileUrl), req_url (updateProfile profileUrl),
   req_data (updateProfile profileUrl), req_responseType (updateProfile profileUrl),
   req_headers (updateProfile profileUrl))
  = (POST, "http://localhost:8080/update-profile", Some (JObj [("profile_url", JStr profileUrl)]),
     RTJson, [("Content-Type", "application/json")]) ∧
  (req_method (downloadFile f), req_url (downloadFile f), req_data (downloadFile f),
   req_responseType (downloadFile f), req_headers (downloadFile f))
  = (GET, "http://localhost:8080/download/" +:+ to_js_string f, None, RTBlob, []).
Proof. split_and!; reflexivity. Qed.

(** C16: Round trip of the download path: for a file name that is one
    URL path segment as it is, the service reads back exactly that name
    from the URL [downloadFile] requests. *)
Theorem download_path_roundtrip f :
  safe_segment f → path_param (req_url (downloadFile (JStr f))) = Some f.
Proof.
  intros Hsafe. pose proof (safe_segment_shape f Hsafe) as Hshape.
  destruct Hsafe as (Hf & _). rewrite downloadFile_url. simpl (to_js_string _).
  unfold path_param. rewrite list_ascii_app, take_app_length, drop_app_length.
  rewrite decide_True by done. rewrite safe_path_part by done.
  rewrite decide_False by done. rewrite safe_pct_decode by done.
  by rewrite String.string_of_list_ascii_of_string.
Qed.

Lemma download_path_roundtrip_witness :
  path_param (req_url (downloadFile (JStr "CV_123.docx"))) = Some "CV_123.docx".
Proof.
  apply download_path_roundtrip.
  split; [repeat constructor|]. split_and!; discriminate.
Defined.

End Api.
