(* ===== verification/Forms.v ===== *)
(** * Form constraint validation

    The pages do not validate their input in code: they mark inputs
    [required] and the e-mail input [type="email"], and the browser refuses
    to dispatch [submit] while a control is invalid.  This file models the
    two checks of the HTML standard that the sources use: "value missing"
    for a [required] control (its value is the empty string) and "type
    mismatch" for a non-empty [type="email"] value that is not a valid
    e-mail address, i.e. that does not match
    [/^[a-zA-Z0-9.!#$%&'*+\/=?^_`{|}~-]+@[a-zA-Z0-9](?:[a-zA-Z0-9-]{0,61}[a-zA-Z0-9])?(?:\.[a-zA-Z0-9](?:[a-zA-Z0-9-]{0,61}[a-zA-Z0-9])?)*$/]. *)

From S2P Require Import Prelude.
Open Scope list_scope.

Module Forms.

(** [required]: the value is not missing. *)
Definition required_ok (v : string) : bool := bool_decide (v ≠ "").

Definition is_alnum (c : ascii) : bool :=
  let n := nat_of_ascii c in
  (Nat.leb 48 n && Nat.leb n 57) || (Nat.leb 65 n && Nat.leb n 90) || (Nat.leb 97 n && Nat.leb n 122).

(** The characters of the local part: letters, digits and
    [.!#$%&'*+/=?^_`{|}~-]. *)
Definition is_local_char (c : ascii) : bool :=
  is_alnum c || bool_decide (c ∈ String.list_ascii_of_string ".!#$%&'*+/=?^_`{|}~-").

(** One domain label: 1 to 63 letters, digits or hyphens, beginning and
    ending with a letter or digit. *)
Definition valid_label (l : list ascii) : bool :=
  match l with
  | [] => false
  | c :: _ =>
      is_alnum c && is_alnum (default c (last l)) && Nat.leb (length l) 63
      && forallb (λ d, is_alnum d || bool_decide (d = "-"%char)) l
  end.

(** Split a list at every occurrence of a separator. *)
Fixpoint split_on (sep : ascii) (l : list ascii) : list (list ascii) :=
  match l with
  | [] => [[]]
  | c :: l' =>
      if decide (c = sep) then [] :: split_on sep l'
      else match split_on sep l' with
           | [] => [[c]]
           | w :: ws => (c :: w) :: ws
           end
  end.

(** A valid e-mail address: exactly one [@] (the local part has none), a
    non-empty local part and a domain of valid labels separated by dots. *)
Definition valid_email (v : string) : bool :=
  match split_on "@"%char (String.list_ascii_of_string v) with
  | [loc; dom] =>
      bool_decide (loc ≠ []) && forallb is_local_char loc
      && forallb valid_label (split_on "."%char dom)
  | _ => false
  end.

(** [<input type="email" required>]: neither missing nor mismatched. *)
Definition email_ok (v : string) : bool := required_ok v && valid_email v.

(** ** Lemmas *)

Lemma required_ok_spec v : required_ok v = true ↔ v ≠ "".
Proof. unfold required_ok. by rewrite bool_decide_eq_true. Qed.

Lemma split_on_nonempty sep l : split_on sep l ≠ [].
Proof.
  destruct l as [|c l]; simpl; [done|].
  case_decide; [done|]. by destruct (split_on sep l).
Qed.

End Forms.
