(* ===== verification/View.v ===== *)
(** * What the pages render: a model of their JSX

    Each page's [return (...)] is a tree of elements.  This file fixes
    the vocabulary the page views are written in ([node]) and what the
    browser and React do with such a tree:
    - which elements a user can act on ([actions]): a [<form onSubmit>]
      whose submit button is enabled and whose controls satisfy their
      constraints (the HTML "interactively validate the constraints" step
      of form submission), an enabled button with an [onClick], a switch
      with an [onCheckedChange];
    - how React renders a JavaScript value placed as a child
      ([{message}]): strings and numbers become text, [null],
      [undefined] and booleans render nothing, arrays render their
      elements, and an object throws ("Objects are not valid as a React
      child"), which unmounts the tree (the client has no error
      boundary);
    - [{v && (...)}]: the element when [v] is truthy, otherwise the
      falsy value itself rendered as a child (so [0] shows "0");
    - the accessibility structure: the ids of controls and the
      [htmlFor] of labels.

    Class names, styles, icons and animations ([motion.*] props) are not
    modelled: a [motion.div], a [div], a [p], a heading or a list item is
    an [NBox] with its tag.  [GlassCard] ([src/components/GlassCard.tsx])
    renders a [motion.div] (or a [div] when [animate] is false) with its
    children and only style props. *)

From S2P Require Import Prelude Json Forms.
Open Scope list_scope.
#[local] Set Warnings "-register-all".

Module View.

Section Nodes.
Context {A : Type}.

Inductive button_kind : Type :=
| BSubmit               (** [<Button type="submit">] in a form *)
| BClick (onClick : A). (** [<Button onClick={...}>] *)

Inductive node : Type :=
| NText (s : string)                                   (** literal text *)
| NValue (texts : list string)                         (** [{v}]: a value rendered as children *)
| NBox (tag : string) (children : list node)           (** an element without behaviour *)
| NLabel (htmlFor : string) (children : list node)     (** [<Label htmlFor>] *)
| NInput (id type_ value : string) (required : bool)   (** [<Input>] or [<Textarea>] *)
| NSwitch (id : string) (checked : bool) (onCheckedChange : A)
| NButton (kind : button_kind) (disabled : bool) (children : list node)
| NLink (to : string) (children : list node)           (** [<Link to>] *)
| NForm (onSubmit : A) (children : list node).         (** [<form onSubmit>] *)

(** Every node of a tree, in document order. *)
Fixpoint nodes (n : node) : list node :=
  n :: match n with
       | NBox _ cs | NLabel _ cs | NButton _ _ cs | NLink _ cs | NForm _ cs =>
           (fix go (l : list node) : list node :=
              match l with [] => [] | c :: l' => nodes c ++ go l' end) cs
       | _ => []
       end.

Definition nodes_list (l : list node) : list node := flat_map nodes l.

(** The children of an element. *)
Definition children (n : node) : list node :=
  match n with
  | NBox _ cs | NLabel _ cs | NButton _ _ cs | NLink _ cs | NForm _ cs => cs
  | _ => []
  end.

(** What a tree holds of some kind: [f] applied to every node. *)
Definition collect {B} (f : node → list B) (l : list node) : list B := flat_map f (nodes_list l).

(** The ids of the controls, the [htmlFor] of the labels, the links. *)
Definition node_ids (n : node) : list string :=
  match n with NInput id _ _ _ | NSwitch id _ _ => [id] | _ => [] end.
Definition node_labels (n : node) : list string :=
  match n with NLabel f _ => [f] | _ => [] end.
Definition node_links (n : node) : list string :=
  match n with NLink to _ => [to] | _ => [] end.

Definition input_ids (l : list node) : list string := collect node_ids l.
Definition label_targets (l : list node) : list string := collect node_labels l.
Definition links (l : list node) : list string := collect node_links l.

(** Every label names a control, and no two controls share an id. *)
Definition well_formed (l : list node) : bool :=
  forallb (λ f, bool_decide (f ∈ input_ids l)) (label_targets l)
  && bool_decide (NoDup (input_ids l)).

(** The constraints of a control: [required] ("value missing") and
    [type="email"] ("type mismatch" of a non-empty value). *)
Definition control_valid (n : node) : bool :=
  match n with
  | NInput _ ty v req =>
      (negb req || Forms.required_ok v)
      && (negb (bool_decide (ty = "email")) || bool_decide (v = "") || Forms.valid_email v)
  | _ => true
  end.

Definition has_enabled_submit (cs : list node) : bool :=
  existsb (λ n, match n with NButton BSubmit false _ => true | _ => false end) (nodes_list cs).

(** What a click on (or Enter in) an element can dispatch. *)
Definition node_actions (n : node) : list A :=
  match n with
  | NForm a cs => if has_enabled_submit cs && forallb control_valid (nodes_list cs) then [a] else []
  | NButton (BClick a) false _ => [a]
  | NSwitch _ _ a => [a]
  | _ => []
  end.

Definition actions (l : list node) : list A := collect node_actions l.

End Nodes.

Arguments node : clear implicits.
Arguments button_kind : clear implicits.

(** Relabel the actions of a tree (to embed a page in the screen). *)
Definition button_kind_map {A B} (f : A → B) (k : button_kind A) : button_kind B :=
  match k with BSubmit => BSubmit | BClick a => BClick (f a) end.

Fixpoint node_map {A B} (f : A → B) (n : node A) : node B :=
  match n with
  | NText s => NText s
  | NValue ts => NValue ts
  | NBox t cs => NBox t (List.map (node_map f) cs)
  | NLabel h cs => NLabel h (List.map (node_map f) cs)
  | NInput id ty v r => NInput id ty v r
  | NSwitch id c a => NSwitch id c (f a)
  | NButton k d cs => NButton (button_kind_map f k) d (List.map (node_map f) cs)
  | NLink to cs => NLink to (List.map (node_map f) cs)
  | NForm a cs => NForm (f a) (List.map (node_map f) cs)
  end.

(** Induction on trees, through the lists of children. *)
Section NodeInd.
Context {A : Type} (P : node A → Prop) (Hstep : ∀ n, Forall P (children n) → P n).

Fixpoint node_ind' (n : node A) : P n :=
  Hstep n (match n return Forall P (children n) with
           | NBox _ cs | NLabel _ cs | NButton _ _ cs | NLink _ cs | NForm _ cs =>
               (fix go (l : list (node A)) : Forall P l :=
                  match l with
                  | [] => @List.Forall_nil _ P
                  | c :: l' => @List.Forall_cons _ P c l' (node_ind' c) (go l')
                  end) cs
           | _ => @List.Forall_nil _ P
           end).
End NodeInd.

(** [GlassCard({ children })] *)
Definition GlassCard {A} (children : list (node A)) : node A := NBox "motion.div" children.

(** ** React children *)

(** A JavaScript value placed as a child. *)
Fixpoint render_value (v : jsval) : result js_error (list string) :=
  match v with
  | JUndefined | JNull | JBool _ => Ok []
  | JStr s => Ok [s]
  | JNum n => Ok [pretty n]
  | JArr vs =>
      (fix go (l : list jsval) : result js_error (list string) :=
         match l with
         | [] => Ok []
         | v :: l' => a ← render_value v; b ← go l'; Ok (a ++ b)
         end) vs
  | JObj _ | JBlob _ => Err (TypeError "Objects are not valid as a React child")
  end.

Definition child {A} (v : jsval) : result js_error (node A) :=
  ts ← render_value v; Ok (NValue ts).

(** [{v && (...)}] *)
Definition js_and {A} (v : jsval) (els : result js_error (list (node A)))
    : result js_error (list (node A)) :=
  if truthy v then els else ts ← render_value v; Ok [NValue ts].

(** ** Lemmas *)

Section Lemmas.
Context {A : Type}.
Implicit Types (l : list (node A)) (n : node A).

Lemma nodes_children n : nodes n = n :: nodes_list (children n).
Proof.
  destruct n as [| | ? cs| ? cs| | | ? ? cs| ? cs| ? cs]; simpl; f_equal;
    induction cs as [|c cs IH]; simpl; by rewrite ?IH.
Qed.

Lemma nodes_list_app l1 l2 : nodes_list (l1 ++ l2) = nodes_list l1 ++ nodes_list l2.
Proof. apply flat_map_app. Qed.

Lemma nodes_list_cons n l : nodes_list (n :: l) = n :: nodes_list (children n) ++ nodes_list l.
Proof. unfold nodes_list. simpl. by rewrite (nodes_children n). Qed.

Lemma collect_nil {B} (f : node A → list B) : collect f [] = [].
Proof. done. Qed.

Lemma collect_app {B} (f : node A → list B) l1 l2 : collect f (l1 ++ l2) = collect f l1 ++ collect f l2.
Proof. unfold collect. by rewrite nodes_list_app, flat_map_app. Qed.

Lemma collect_cons {B} (f : node A → list B) n l :
  collect f (n :: l) = f n ++ collect f (children n) ++ collect f l.
Proof. unfold collect. rewrite nodes_list_cons. simpl. by rewrite flat_map_app. Qed.

Lemma control_valid_plain id ty v req :
  ty ≠ "email" → control_valid (A := A) (NInput id ty v req) = negb req || Forms.required_ok v.
Proof. intros Hty. simpl. rewrite bool_decide_false by done. by rewrite andb_true_r. Qed.

Lemma control_valid_email id v :
  control_valid (A := A) (NInput id "email" v true) = Forms.email_ok v.
Proof.
  unfold control_valid, Forms.email_ok, Forms.required_ok. simpl.
  destruct (decide (v = "")) as [->|Hv]; [done|].
  rewrite (bool_decide_true (v ≠ "")), (bool_decide_false (v = "")) by done. done.
Qed.

Lemma has_enabled_submit_app l1 l2 :
  has_enabled_submit (l1 ++ l2) = has_enabled_submit l1 || has_enabled_submit l2.
Proof. unfold has_enabled_submit. by rewrite nodes_list_app, existsb_app. Qed.

Lemma forallb_control_valid_app l1 l2 :
  forallb control_valid (nodes_list (l1 ++ l2))
  = forallb control_valid (nodes_list l1) && forallb control_valid (nodes_list l2).
Proof. by rewrite nodes_list_app, forallb_app. Qed.

Lemma render_value_obj fs : render_value (JObj fs) = Err (TypeError "Objects are not valid as a React child").
Proof. reflexivity. Qed.

End Lemmas.

Section MapLemmas.
Context {A B : Type} (f : A → B).

Lemma children_map n : children (node_map f n) = List.map (node_map f) (children n).
Proof. by destruct n. Qed.

Lemma nodes_list_map l :
  nodes_list (List.map (node_map f) l) = List.map (node_map f) (nodes_list l).
Proof.
  assert (Hl : ∀ l, Forall (λ n, nodes (node_map f n) = List.map (node_map f) (nodes n)) l →
    nodes_list (List.map (node_map f) l) = List.map (node_map f) (nodes_list l)).
  { induction 1 as [|c l' Hc _ IH]; [done|].
    unfold nodes_list in *. simpl. by rewrite Hc, IH, map_app. }
  apply Hl, Forall_forall. intros n _. revert n.
  apply node_ind'. intros n IH.
  rewrite !nodes_children, children_map. simpl. f_equal. by apply Hl.
Qed.

(** Relabelling actions changes neither ids, nor labels, nor links. *)
Lemma collect_map {C} (g : node A → list C) (g' : node B → list C) l :
  (∀ n, g' (node_map f n) = g n) → collect g' (List.map (node_map f) l) = collect g l.
Proof.
  intros Hg. unfold collect. rewrite nodes_list_map.
  rewrite !flat_map_concat_map, map_map. f_equal. apply map_ext. done.
Qed.

Lemma input_ids_map l : input_ids (List.map (node_map f) l) = input_ids l.
Proof. apply collect_map. by intros []. Qed.

Lemma label_targets_map l : label_targets (List.map (node_map f) l) = label_targets l.
Proof. apply collect_map. by intros []. Qed.

Lemma links_map l : links (List.map (node_map f) l) = links l.
Proof. apply collect_map. by intros []. Qed.

Lemma existsb_map_nodes (p : node B → bool) (q : node A → bool) l :
  (∀ n, p (node_map f n) = q n) → existsb p (List.map (node_map f) l) = existsb q l.
Proof. intros Hpq. induction l as [|n l IH]; simpl; [done|]. by rewrite Hpq, IH. Qed.

Lemma forallb_map_nodes (p : node B → bool) (q : node A → bool) l :
  (∀ n, p (node_map f n) = q n) → forallb p (List.map (node_map f) l) = forallb q l.
Proof. intros Hpq. induction l as [|n l IH]; simpl; [done|]. by rewrite Hpq, IH. Qed.

Lemma has_enabled_submit_map cs :
  has_enabled_submit (List.map (node_map f) cs) = has_enabled_submit cs.
Proof.
  unfold has_enabled_submit. rewrite nodes_list_map. apply existsb_map_nodes.
  intros [| | | | | |[] [] ?| |]; reflexivity.
Qed.

Lemma control_valid_map n : control_valid (node_map f n) = control_valid n.
Proof. by destruct n. Qed.

(** Relabelling maps the actions a tree offers. *)
Lemma node_actions_map n : node_actions (node_map f n) = List.map f (node_actions n).
Proof.
  destruct n as [| | | | | |[] [] ?| |a cs]; try reflexivity. simpl.
  rewrite has_enabled_submit_map, nodes_list_map, (forallb_map_nodes _ control_valid).
  - by destruct (_ && _).
  - apply control_valid_map.
Qed.

Lemma actions_map l : actions (List.map (node_map f) l) = List.map f (actions l).
Proof.
  unfold actions. rewrite (collect_map (λ n, List.map f (node_actions n))) by apply node_actions_map.
  unfold collect. induction (nodes_list l) as [|n ns IH]; simpl; [done|].
  by rewrite IH, map_app.
Qed.

End MapLemmas.

Arguments collect : simpl never.
Arguments nodes_list : simpl never.
Arguments has_enabled_submit : simpl never.
Create Rewrite HintDb view_rw.
#[export] Hint Rewrite @collect_nil @collect_app @collect_cons : view_rw.

(** Compute what [collect] finds in a concrete tree. *)

Ltac view_collect :=
  repeat (autorewrite with view_rw;
          cbn [children node_actions node_ids node_labels node_links GlassCard]).

(** Take apart [H : view s = Ok vs]: one goal per way the state's values
    render, with [vs] the concrete tree. *)
Ltac view_destruct H :=
  unfold js_and, child in H;
  repeat (simpl in H; match type of H with
  | context [truthy ?v] => destruct (truthy v) eqn:?
  | context [render_value ?v] => destruct (render_value v)
  | context [js_get ?v ?k] => destruct (js_get v k)
  end); cbn [mbind result_bind] in H; try discriminate H; injection H as <-;
  repeat match goal with Ht : truthy ?v = ?b |- _ => rewrite ?Ht; clear Ht end.

(** Compute the actions of a concrete tree, with the constraints of its
    controls stated through [Forms]. *)
Ltac view_norm :=
  unfold actions; view_collect; unfold has_enabled_submit, nodes_list;
  cbn [nodes flat_map app existsb forallb];
  rewrite ?control_valid_plain, ?control_valid_email by done;
  cbn [control_valid negb orb andb].

End View.
