(* ===== verification/OpSpec.v ===== *)
(** * The abstract operation state machine (spec section 4.3)

    What the spec promises of each operation, independently of React:
    a state [Idle | Pending r | Success a | Failure e]; [submit r] from a
    non-pending state goes to [Pending r] and sends [r], and is rejected
    with [AlreadyInFlightError] while pending; [resolve o] settles the
    pending request [r] with the network outcome [o], going to [Success]
    or [Failure] of the result that [r] produced (correlation) and
    notifying the sink exactly once.  The pages refine this machine
    ([ApplyJob.apply_refines], [UpdateProfile.profile_refines]). *)

From S2P Require Import Prelude Json Transport.
Import Axios.
Open Scope list_scope.

Module OpSpec.

Section Machine.
Context {A E : Type}.

Inductive op_state : Type :=
| Idle
| Pending (r : request)
| Success (a : A)
| Failure (e : E).

Inductive op_error : Type := AlreadyInFlightError.

(** What the environment observes of one abstract step. *)
Inductive obs : Type :=
| OSend (r : request)
| ONotifySuccess (a : A)
| ONotifyFailure (e : E).

Inductive abs_event : Type :=
| ASubmit (r : request)
| AResolve (o : net_outcome)
| AStutter.

(** The result the operation yields for request [r] when the network
    answers [o]. *)
Context (interp : request → net_outcome → result E A).

Definition spec_step (ev : abs_event) (st : op_state)
    : result op_error (option (op_state * list obs)) :=
  match ev, st with
  | AStutter, _ => Ok (Some (st, []))
  | ASubmit _, Pending _ => Err AlreadyInFlightError
  | ASubmit r, _ => Ok (Some (Pending r, [OSend r]))
  | AResolve o, Pending r =>
      Ok (Some (match interp r o with
                | Ok a => (Success a, [ONotifySuccess a])
                | Err e => (Failure e, [ONotifyFailure e])
                end))
  | AResolve _, _ => Ok None
  end.

Definition is_pending (st : op_state) : bool :=
  match st with Pending _ => true | _ => false end.

Definition sends (os : list obs) : list request :=
  omap (λ o, match o with OSend r => Some r | _ => None end) os.

Definition notifications (os : list obs) : nat :=
  length (filter (λ o, match o with OSend _ => false | _ => true end = true) os).

End Machine.

Arguments op_state : clear implicits.
Arguments obs : clear implicits.

End OpSpec.
