(* ===== verification/Runtime.v ===== *)
(** * The page runtime: React event dispatch and promise settlement

    Every page of the client follows one pattern (spec section 4.3, the
    "operation state machine"): a form whose submit button is
    [disabled={loading}], an [async] handler that sets [loading], awaits
    one call of [api.ts], and in [try/catch/finally] stores the result,
    shows one toast and clears [loading].  This file states that pattern
    as an interface, the class [Page], whose instances are the pages
    ([ApplyJob], [UpdateProfile], [GenerateDocuments]), and proves the
    client-side guarantees once, against the interface:

    - the runtime ([step], [run]): a configuration is the page's React
      state, the [world] and the list of awaits in flight; an event is an
      input change, a synchronous handler, a click that fires an async
      handler (dispatched only when the control is enabled, i.e. the
      button is rendered, not [disabled] and the form passes its
      [required]/[type] checks), or the network settling one in-flight
      request (any one of them: the interleaving is explicit);
    - single flight: at most one guarded handler is in flight, exactly
      when [loading] is set;
    - accounting: every fired handler sent exactly one request, and every
      settlement produced exactly one toast;
    - draining: settling every await in flight, whatever the outcomes,
      is always possible and leaves nothing in flight ([run_drain]).

    Scheduling is the browser's: handlers run to their [await] without
    interruption, and React flushes the state updates of a discrete event
    before the next one is dispatched. *)

From S2P Require Import Prelude Json Transport Browser.
Import Axios.
Open Scope list_scope.

(** ** The interface a page provides *)
Class Page (St T I J K : Type) := {
  (** the [loading] state that disables the submit button *)
  pg_loading : St → bool;
  (** an [onChange] handler of an input *)
  pg_input : I → St → St;
  (** a synchronous click handler; [None] when the control is absent *)
  pg_sync : J → St → world → option (St * world);
  (** an async handler run up to its [await]: the request it awaits and
      what its continuation captured; [None] when the control is
      disabled, absent, or the form is invalid *)
  pg_fire : T → St → world → option (St * world * (request * K));
  (** the rest of the handler, run when the awaited promise settles *)
  pg_resume : K → result transport_error jsval → St → world → St * world;
  (** whether a continuation belongs to the handler guarded by [loading] *)
  pg_guarded : K → bool
}.

(** The laws every page satisfies; each page proves them from its code. *)
Class PageLaws {St T I J K} (P : Page St T I J K) := {
  fire_guarded t s w s' w' r k :
    pg_fire t s w = Some (s', w', (r, k)) → pg_guarded k = true →
    pg_loading s = false ∧ pg_loading s' = true;
  fire_unguarded t s w s' w' r k :
    pg_fire t s w = Some (s', w', (r, k)) → pg_guarded k = false →
    pg_loading s' = pg_loading s;
  fire_world t s w s' w' r k :
    pg_fire t s w = Some (s', w', (r, k)) → sent w' = sent w ++ [r] ∧ toasts w' = toasts w;
  resume_loading k res s w :
    pg_loading (pg_resume k res s w).1 = if pg_guarded k then false else pg_loading s;
  resume_world k res s w :
    sent (pg_resume k res s w).2 = sent w ∧
    ∃ t, toasts (pg_resume k res s w).2 = toasts w ++ [t];
  input_loading i s : pg_loading (pg_input i s) = pg_loading s;
  sync_loading j s w s' w' :
    pg_sync j s w = Some (s', w') → pg_loading s' = pg_loading s ∧ sent w' = sent w
}.

Inductive event (T I J : Type) : Type :=
| EInput (i : I)
| ESync (j : J)
| EFire (t : T)
| ESettle (n : nat) (o : net_outcome).
Arguments EInput {T I J} i.
Arguments ESync {T I J} j.
Arguments EFire {T I J} t.
Arguments ESettle {T I J} n o.

Record config (St K : Type) : Type := mkConfig {
  c_page : St;
  c_world : world;
  c_inflight : list (request * K)
}.
Arguments mkConfig {St K} _ _ _.
Arguments c_page {St K} _.
Arguments c_world {St K} _.
Arguments c_inflight {St K} _.

Section Runtime.
Context {St T I J K : Type} `{P : Page St T I J K}.

(** Remove the [n]-th element of a list. *)
Fixpoint take_nth {A} (n : nat) (l : list A) {struct l} : option (A * list A) :=
  match l, n with
  | [], _ => None
  | x :: l', 0 => Some (x, l')
  | x :: l', S n' => '(y, rest) ← take_nth n' l'; Some (y, x :: rest)
  end.

(** One event; [None] when the event cannot happen in this configuration. *)
Definition step (e : event T I J) (c : config St K) : option (config St K) :=
  match e with
  | EInput i => Some (mkConfig (pg_input i (c_page c)) (c_world c) (c_inflight c))
  | ESync j =>
      '(s', w') ← pg_sync j (c_page c) (c_world c);
      Some (mkConfig s' w' (c_inflight c))
  | EFire t =>
      '(s', w', rk) ← pg_fire t (c_page c) (c_world c);
      Some (mkConfig s' w' (c_inflight c ++ [rk]))
  | ESettle n o =>
      '((r, k), rest) ← take_nth n (c_inflight c);
      let '(s', w') := pg_resume k (settle r o) (c_page c) (c_world c) in
      Some (mkConfig s' w' rest)
  end.

Fixpoint run (es : list (event T I J)) (c : config St K) : option (config St K) :=
  match es with
  | [] => Some c
  | e :: es' => c' ← step e c; run es' c'
  end.

Definition init (s0 : St) : config St K := mkConfig s0 world0 [].

Definition is_fire (e : event T I J) : bool := match e with EFire _ => true | _ => false end.
Definition is_settle (e : event T I J) : bool := match e with ESettle _ _ => true | _ => false end.

Definition n_fires (es : list (event T I J)) : nat := length (filter (λ e, is_fire e = true) es).
Definition n_settles (es : list (event T I J)) : nat := length (filter (λ e, is_settle e = true) es).

(** The number of guarded continuations in flight. *)
Definition guarded_inflight (c : config St K) : nat :=
  length (filter (λ rk, pg_guarded rk.2 = true) (c_inflight c)).

(** The single-flight invariant. *)
Definition single_flight (c : config St K) : Prop :=
  guarded_inflight c = if pg_loading (c_page c) then 1 else 0.

(** ** Lemmas on the runtime *)

Lemma take_nth_perm {A} n (l : list A) x rest :
  take_nth n l = Some (x, rest) → l ≡ₚ x :: rest.
Proof.
  revert n rest. induction l as [|y l IH]; intros [|n] rest; simpl; try discriminate.
  - by intros [= -> ->].
  - destruct (take_nth n l) as [[z r]|] eqn:E; simpl; [|discriminate].
    intros [= -> <-]. rewrite (IH _ _ E). apply Permutation_swap.
Qed.

Lemma step_Some_inv e c c' :
  step e c = Some c' →
  match e with
  | EInput i => c' = mkConfig (pg_input i (c_page c)) (c_world c) (c_inflight c)
  | ESync j => pg_sync j (c_page c) (c_world c) = Some (c_page c', c_world c')
               ∧ c_inflight c' = c_inflight c
  | EFire t => ∃ rk, pg_fire t (c_page c) (c_world c) = Some (c_page c', c_world c', rk)
               ∧ c_inflight c' = c_inflight c ++ [rk]
  | ESettle n o => ∃ r k, take_nth n (c_inflight c) = Some ((r, k), c_inflight c')
               ∧ pg_resume k (settle r o) (c_page c) (c_world c) = (c_page c', c_world c')
  end.
Proof.
  destruct c as [s w fl], e as [i|j|t|n o]; simpl.
  - by intros [= <-].
  - destruct (pg_sync j s w) as [[s' w']|]; simpl; [|discriminate]. by intros [= <-].
  - destruct (pg_fire t s w) as [[[s' w'] rk]|]; simpl; [|discriminate].
    intros [= <-]. eauto.
  - destruct (take_nth n fl) as [[[r k] rest]|]; simpl; [|discriminate].
    destruct (pg_resume k (settle r o) s w) as [s' w'] eqn:E. intros [= <-]. eauto.
Qed.

(** Settling when exactly one await is in flight. *)
Lemma step_settle_single n o c c' r k :
  c_inflight c = [(r, k)] → step (ESettle n o) c = Some c' →
  n = 0 ∧ c_inflight c' = [] ∧
  pg_resume k (settle r o) (c_page c) (c_world c) = (c_page c', c_world c').
Proof.
  intros Hfl (r' & k' & Hn & Hres)%step_Some_inv. rewrite Hfl in Hn.
  destruct n as [|n]; simpl in Hn; [|discriminate]. by injection Hn as -> -> <-.
Qed.

Lemma step_settle_none n o c : c_inflight c = [] → step (ESettle n o) c = None.
Proof. destruct c as [s w fl]. simpl. by intros ->. Qed.

Lemma run_cons e es c c' :
  run (e :: es) c = Some c' ↔ ∃ c1, step e c = Some c1 ∧ run es c1 = Some c'.
Proof. simpl. destruct (step e c); naive_solver. Qed.

Lemma run_app es1 es2 c :
  run (es1 ++ es2) c = c1 ← run es1 c; run es2 c1.
Proof.
  revert c. induction es1 as [|e es1 IH]; intros c; simpl; [done|].
  destruct (step e c); simpl; [apply IH|done].
Qed.

(** An invariant of single steps is an invariant of runs. *)
Lemma run_inv (Inv : config St K → Prop) es c c' :
  (∀ e c1 c2, Inv c1 → step e c1 = Some c2 → Inv c2) →
  Inv c → run es c = Some c' → Inv c'.
Proof.
  intros Hstep. revert c. induction es as [|e es IH]; intros c Hc Hrun.
  - by injection Hrun as <-.
  - apply run_cons in Hrun as (c1 & H1 & H2). eauto.
Qed.

(** A property of the world kept by every handler is kept by runs. *)
Lemma run_world_inv (W : world → Prop) es c c' :
  (∀ t s w s' w' rk, W w → pg_fire t s w = Some (s', w', rk) → W w') →
  (∀ j s w s' w', W w → pg_sync j s w = Some (s', w') → W w') →
  (∀ k res s w, W w → W (pg_resume k res s w).2) →
  W (c_world c) → run es c = Some c' → W (c_world c').
Proof.
  intros Hf Hs Hr. apply (run_inv (λ c, W (c_world c))).
  intros [|j|t|n o] c1 c2 H1 Hstep; apply step_Some_inv in Hstep.
  - by subst c2.
  - destruct Hstep as [Hj _]. eauto.
  - destruct Hstep as [rk [Hf' _]]. eauto.
  - destruct Hstep as (r & k & _ & Hr'). specialize (Hr k (settle r o) (c_page c1) _ H1).
    by rewrite Hr' in Hr.
Qed.

Section Laws.
Context `{PL : !PageLaws P}.

Lemma guarded_inflight_perm (c c' : config St K) rk :
  c_inflight c ≡ₚ rk :: c_inflight c' →
  guarded_inflight c = (if pg_guarded rk.2 then 1 else 0) + guarded_inflight c'.
Proof.
  unfold guarded_inflight. intros ->. rewrite filter_cons.
  destruct (pg_guarded rk.2); simpl; done.
Qed.

Lemma guarded_inflight_app (c c' : config St K) rk :
  c_inflight c' = c_inflight c ++ [rk] →
  guarded_inflight c' = guarded_inflight c + (if pg_guarded rk.2 then 1 else 0).
Proof.
  unfold guarded_inflight. intros ->. rewrite filter_app, length_app, filter_cons.
  destruct (pg_guarded rk.2); simpl; done.
Qed.

Lemma step_single_flight e c c' :
  single_flight c → step e c = Some c' → single_flight c'.
Proof.
  unfold single_flight. intros Hinv Hs. apply step_Some_inv in Hs.
  destruct e as [i|j|t|n o].
  - subst c'. unfold guarded_inflight. simpl. by rewrite input_loading.
  - destruct Hs as [Hj Hfl]. apply sync_loading in Hj as [-> _].
    by unfold guarded_inflight; rewrite Hfl.
  - destruct Hs as [[r k] [Hf Hfl]]. rewrite (guarded_inflight_app c c' (r, k) Hfl).
    simpl. destruct (pg_guarded k) eqn:G.
    + destruct (fire_guarded _ _ _ _ _ _ _ Hf G) as [H0 H1].
      rewrite H1. rewrite H0 in Hinv. lia.
    + rewrite (fire_unguarded _ _ _ _ _ _ _ Hf G). lia.
  - destruct Hs as (r & k & Hn & Hr). apply take_nth_perm in Hn.
    rewrite (guarded_inflight_perm c c' (r, k) Hn) in Hinv. simpl in Hinv.
    pose proof (resume_loading k (settle r o) (c_page c) (c_world c)) as HL.
    rewrite Hr in HL. simpl in HL. rewrite HL.
    destruct (pg_guarded k); [|done].
    destruct (pg_loading (c_page c)); lia.
Qed.

#[local] Hint Resolve step_single_flight : jobflow.

Lemma run_single_flight es c c' :
  single_flight c → run es c = Some c' → single_flight c'.
Proof. apply run_inv. eauto with jobflow. Qed.

Lemma step_sent e c c' :
  step e c = Some c' →
  length (sent (c_world c')) = length (sent (c_world c)) + (if is_fire e then 1 else 0).
Proof.
  intros Hs. apply step_Some_inv in Hs. destruct e as [i|j|t|n o]; simpl.
  - subst c'. simpl. lia.
  - destruct Hs as [Hj _]. apply sync_loading in Hj as [_ ->]. lia.
  - destruct Hs as [[r k] [Hf _]]. apply fire_world in Hf as [-> _].
    rewrite length_app. simpl. lia.
  - destruct Hs as (r & k & _ & Hr).
    destruct (resume_world k (settle r o) (c_page c) (c_world c)) as [Hsent _].
    rewrite Hr in Hsent. simpl in Hsent. rewrite Hsent. lia.
Qed.

Lemma step_inflight e c c' :
  step e c = Some c' →
  length (c_inflight c') + (if is_settle e then 1 else 0)
  = length (c_inflight c) + (if is_fire e then 1 else 0).
Proof.
  intros Hs. apply step_Some_inv in Hs. destruct e as [i|j|t|n o]; simpl.
  - subst c'. simpl. lia.
  - destruct Hs as [_ ->]. lia.
  - destruct Hs as [rk [_ ->]]. rewrite length_app. simpl. lia.
  - destruct Hs as (r & k & Hn & _). apply take_nth_perm, Permutation_length in Hn.
    simpl in Hn. lia.
Qed.

Lemma run_accounting es c c' :
  run es c = Some c' →
  length (sent (c_world c')) = length (sent (c_world c)) + n_fires es ∧
  length (c_inflight c') + n_settles es = length (c_inflight c) + n_fires es.
Proof.
  unfold n_fires, n_settles. revert c.
  induction es as [|e es IH]; intros c Hrun.
  - injection Hrun as <-. simpl. lia.
  - apply run_cons in Hrun as (c1 & H1 & H2).
    destruct (IH _ H2) as [IH1 IH2].
    pose proof (step_sent _ _ _ H1). pose proof (step_inflight _ _ _ H1).
    rewrite !filter_cons. destruct e; simpl in *; lia.
Qed.

(** A settlement reports to the sink exactly once and sends nothing. *)
Lemma step_settle_toast n o c c' :
  step (ESettle n o) c = Some c' →
  sent (c_world c') = sent (c_world c) ∧
  ∃ t, toasts (c_world c') = toasts (c_world c) ++ [t].
Proof.
  intros Hs. apply step_Some_inv in Hs as (r & k & _ & Hr).
  pose proof (resume_world k (settle r o) (c_page c) (c_world c)) as HW.
  by rewrite Hr in HW.
Qed.

Lemma guarded_inflight_all c :
  (∀ k, pg_guarded k = true) → guarded_inflight c = length (c_inflight c).
Proof.
  intros Hall. unfold guarded_inflight.
  induction (c_inflight c) as [|[r k] l IH]; [done|].
  rewrite filter_cons_True by apply Hall. simpl. by rewrite IH.
Qed.

(** On a page whose synchronous handlers show no toast, the sink has
    received exactly one event per settlement. *)
Lemma run_toasts es c c' :
  (∀ j s w s' w', pg_sync j s w = Some (s', w') → toasts w' = toasts w) →
  run es c = Some c' →
  length (toasts (c_world c')) = length (toasts (c_world c)) + n_settles es.
Proof.
  intros Hsync. unfold n_settles. revert c.
  induction es as [|e es IH]; intros c Hrun.
  - injection Hrun as <-. simpl. lia.
  - apply run_cons in Hrun as (c1 & H1 & H2). rewrite (IH _ H2), filter_cons.
    destruct e as [i|j|t|n o]; simpl.
    + apply step_Some_inv in H1. by subst c1.
    + apply step_Some_inv in H1 as [Hj _]. rewrite (Hsync _ _ _ _ _ Hj). done.
    + apply step_Some_inv in H1 as [rk [Hf _]]. destruct rk.
      apply fire_world in Hf as [_ ->]. done.
    + apply step_settle_toast in H1 as [_ [t ->]]. rewrite length_app. simpl. lia.
Qed.

(** Draining: whatever the outcomes, settling the oldest await once per
    await in flight is always possible and ends with nothing in flight,
    one more toast per settlement and no request sent. *)
Lemma run_drain c os :
  length os = length (c_inflight c) →
  ∃ c', run (map (λ o, ESettle 0 o) os) c = Some c' ∧ c_inflight c' = [] ∧
    sent (c_world c') = sent (c_world c) ∧
    length (toasts (c_world c')) = length (toasts (c_world c)) + length os.
Proof.
  revert c. induction os as [|o os IH]; intros [s w fl] Hlen; simpl in *.
  - destruct fl; [|discriminate]. by eexists.
  - destruct fl as [|[r k] fl]; [discriminate|]. simpl in *.
    destruct (pg_resume k (settle r o) s w) as [s1 w1] eqn:Hres.
    destruct (resume_world k (settle r o) s w) as [Hsent [t Ht]]. rewrite Hres in Hsent, Ht.
    destruct (IH (mkConfig s1 w1 fl)) as (c' & Hrun & Hfl & Hs' & Ht'); [simpl; lia|].
    exists c'. simpl in *. rewrite Hs', Ht', Hsent, Ht, length_app. simpl.
    split_and!; [done|done|done|lia].
Qed.

(** A configuration with nothing in flight that satisfies single flight
    is not loading. *)
Lemma single_flight_idle c :
  single_flight c → c_inflight c = [] → pg_loading (c_page c) = false.
Proof.
  unfold single_flight, guarded_inflight. intros H Hfl. rewrite Hfl in H. simpl in H.
  by destruct (pg_loading (c_page c)).
Qed.

End Laws.

End Runtime.

(** ** Errors inside a handler's [try] block *)
Inductive handler_error : Type :=
| HTransport (e : transport_error)   (** the awaited promise rejected *)
| HJs (e : js_error).                (** the code after the [await] threw *)

(** [await p] inside [try]: a rejection becomes the caught error. *)
Definition await_ (res : result transport_error jsval) : result handler_error jsval :=
  match res with Ok v => Ok v | Err e => Err (HTransport e) end.

(** Plain code inside [try] that may throw. *)
Definition js_ {A} (m : result js_error A) : result handler_error A :=
  match m with Ok v => Ok v | Err e => Err (HJs e) end.
