(* ===== verification/ApplyJob.v ===== *)
(** * The job-application page: [src/pages/ApplyJob.tsx]

    State: [loading], [jobUrl], [message] ([useState] hooks, lines
    12-14).  Operations: the [onChange] of the URL input (line 60), and
    [handleSubmit] (lines 16-37), split at its [await] into the part that
    runs on submit ([handleSubmit_start]) and the part that runs when the
    promise of [applyJob] settles ([handleSubmit_resume]).  The submit
    button is [disabled={loading}] (line 72) and the input is [required]
    (line 62): the browser dispatches [submit] only when both allow it
    ([submit_enabled]).  [view] (lines 39-131) is the JSX the page
    renders from its state: the form with its labelled input and submit
    button, and the message panel, whose [{message}] throws when the
    message is an object. *)

From S2P Require Import Prelude Json Transport Browser Api Forms View OpSpec Runtime.
Import Axios Api View OpSpec.
Open Scope list_scope.

Module ApplyJob.

Record state : Type := {
  loading : bool;
  jobUrl : string;
  message : jsval
}.

(** [useState(false)], [useState('')], [useState('')] *)
Definition initial : state := {| loading := false; jobUrl := ""; message := JStr "" |}.

Definition set_loading (s : state) (b : bool) : state :=
  {| loading := b; jobUrl := jobUrl s; message := message s |}.
Definition set_jobUrl (s : state) (v : string) : state :=
  {| loading := loading s; jobUrl := v; message := message s |}.
Definition set_message (s : state) (m : jsval) : state :=
  {| loading := loading s; jobUrl := jobUrl s; message := m |}.

Inductive input : Type := SetJobUrl (v : string).
Inductive trigger : Type := SubmitForm.

(** [onChange={(e) => setJobUrl(e.target.value)}] *)
Definition on_input (i : input) (s : state) : state :=
  match i with SetJobUrl v => set_jobUrl s v end.

(** [disabled={loading}] on the submit button, [required] on the input. *)
Definition submit_enabled (s : state) : bool :=
  negb (loading s) && Forms.required_ok (jobUrl s).

Definition success_toast (m : jsval) : toast :=
  {| t_title := "Success!"; t_description := m; t_variant := VDefault |}.

Definition error_toast : toast :=
  {| t_title := "Error";
     t_description := JStr "Failed to process job application. Please try again.";
     t_variant := VDestructive |}.

(** [e.preventDefault(); setLoading(true); setMessage('');
     const response = await applyJob(jobUrl) ...] up to the [await]. *)
Definition handleSubmit_start (s : state) (w : world) : state * world * request :=
  let s1 := set_message (set_loading s true) (JStr "") in
  let r := applyJob (jobUrl s) in
  (s1, send r w, r).

(** The [try] block after the [await]:
    [setMessage(response.message); toast({ title: 'Success!', description: response.message })]. *)
Definition try_block (res : result transport_error jsval) (s : state) (w : world)
    : result handler_error (state * world) :=
  response ← await_ res;
  m ← js_ (js_get response "message");
  let s1 := set_message s m in
  m' ← js_ (js_get response "message");
  Ok (s1, show_toast (success_toast m') w).

(** [catch] shows the error toast; [finally] clears [loading]. *)
Definition handleSubmit_resume (res : result transport_error jsval) (s : state) (w : world)
    : state * world :=
  let '(s1, w1) := result_catch (try_block res s w) (λ _, (s, show_toast error_toast w)) in
  (set_loading s1 false, w1).

#[export] Instance page : Page state trigger input Empty_set unit := {|
  pg_loading := loading;
  pg_input := on_input;
  pg_sync := λ (j : Empty_set) _ _, match j with end;
  pg_fire := λ t s w,
    match t with
    | SubmitForm =>
        if submit_enabled s then
          let '(s', w', r) := handleSubmit_start s w in Some (s', w', (r, tt))
        else None
    end;
  pg_resume := λ _ res s w, handleSubmit_resume res s w;
  pg_guarded := λ _, true
|}.

(** ** What the page renders (lines 39-131)

    The form's only control is the [required] URL input; the submit
    button is [disabled={loading}] and its label follows [loading]; the
    result panel is [{message && (...)}] and shows [{message}]. *)
Definition view (s : state) : result js_error (list (node trigger)) :=
  msg ← js_and (message s)
          (m ← child (message s);
           Ok [NBox "motion.div" [NBox "div" [NBox "div"
                 [NBox "p" [NText "Application Started"]; NBox "p" [m];
                  NBox "p" [NText "A LinkedIn window has been opened. Please complete the application manually if required."]]]]]);
  Ok [NBox "div" [NBox "motion.div"
       [NBox "div" [NBox "h1" [NText "Apply to Jobs"];
                    NBox "p" [NText "Automate your LinkedIn Easy Apply process with a single click"]];
        GlassCard
          (NForm SubmitForm
             [NBox "div" [NLabel "jobUrl" [NText "LinkedIn Job URL *"];
                          NInput "jobUrl" "text" (jobUrl s) true;
                          NBox "p" [NText "Paste the URL of the LinkedIn job posting you want to apply to"]];
              NButton BSubmit (loading s)
                (if loading s then [NText "Processing..."] else [NText "Auto Apply to Job"])]
           :: msg);
        GlassCard
          [NBox "h3" [NText "How it works"];
           NBox "ol"
             [NBox "li" [NBox "span" [NText "1."]; NText "Copy the LinkedIn job URL from the job posting"];
              NBox "li" [NBox "span" [NText "2."];
                         NText ("Paste it in the field above and click " +:+ dq +:+ "Auto Apply to Job" +:+ dq)];
              NBox "li" [NBox "span" [NText "3."]; NText "The system will open the job application in a new window"];
              NBox "li" [NBox "span" [NText "4."]; NText "Complete any additional steps manually if required"]]]]]].

(** ** The page as a refinement of the abstract operation machine *)

(** The result of the operation: the [message] read from the data of a
    2xx reply, or the error the [try] block caught. *)
Definition interp (r : request) (o : net_outcome) : result handler_error jsval :=
  d ← await_ (settle r o); js_ (js_get d "message").

Definition abs_event_of (e : event trigger input Empty_set) (c : config state unit)
    : abs_event :=
  match e with
  | EInput _ => AStutter
  | ESync j => match j with end
  | EFire SubmitForm => ASubmit (applyJob (jobUrl (c_page c)))
  | ESettle _ o => AResolve o
  end.

(** How a configuration of the page represents an abstract state: the
    abstraction relation of the refinement proof below (a proof device,
    not a translation of the page's code). *)
Definition represents (c : config state unit) (a : op_state jsval handler_error) : Prop :=
  match a with
  | Idle => loading (c_page c) = false ∧ c_inflight c = []
  | Pending r => loading (c_page c) = true ∧ c_inflight c = [(r, tt)] ∧ message (c_page c) = JStr ""
  | Success m => loading (c_page c) = false ∧ c_inflight c = [] ∧ message (c_page c) = m
  | Failure _ => loading (c_page c) = false ∧ c_inflight c = [] ∧ message (c_page c) = JStr ""
  end.

(** The toast the page shows for an abstract notification. *)
Definition toast_of (o : obs jsval handler_error) : option toast :=
  match o with
  | OSend _ => None
  | ONotifySuccess m => Some (success_toast m)
  | ONotifyFailure _ => Some error_toast
  end.

(** ** Example runs *)

(** A run of the page: type a URL, submit. *)
Definition ex_url : string := "https://x/y".
Definition ex_events : list (event trigger input Empty_set) :=
  [EInput (SetJobUrl ex_url); EFire SubmitForm].
Definition ex_config : config state unit :=
  default (init initial) (run ex_events (init initial)).

(** The mocked backend of the spec's round-trip example: it answers
    [{"message": "ok"}]. *)
Definition ok_reply : net_outcome :=
  Reply 200 {| raw := "{'message':'ok'}"; parsed := Some (JObj [("message", JStr "ok")]) |}.

(** A 2xx reply whose [message] is an object. *)
Definition obj_reply : net_outcome :=
  Reply 200 {| raw := "{'message':{'detail':'queued'}}";
               parsed := Some (JObj [("message", JObj [("detail", JStr "queued")])]) |}.

Definition ex_settled : config state unit :=
  default ex_config (step (ESettle 0 ok_reply) ex_config).

(** ** Lemmas *)

Lemma apply_try_block_Ok res s w s1 w1 :
  try_block res s w = Ok (s1, w1) →
  ∃ d m, res = Ok d ∧ js_get d "message" = Ok m ∧
         s1 = set_message s m ∧ w1 = show_toast (success_toast m) w.
Proof.
  unfold try_block. destruct res as [d|e]; simpl; [|discriminate].
  destruct (js_get d "message") as [m|e] eqn:E; simpl; [|discriminate].
  intros [= <- <-]. eauto 10.
Qed.

(** Every settlement ends with [loading] cleared and exactly one toast:
    the success toast, or the error toast. *)
Lemma apply_resume_cases res s w :
  (∃ m, handleSubmit_resume res s w
        = (set_loading (set_message s m) false, show_toast (success_toast m) w))
  ∨ handleSubmit_resume res s w = (set_loading s false, show_toast error_toast w).
Proof.
  unfold handleSubmit_resume.
  destruct (try_block res s w) as [[s1 w1]|e] eqn:E; simpl.
  - apply apply_try_block_Ok in E as (d & m & _ & _ & -> & ->). eauto.
  - by right.
Qed.

Lemma apply_page_laws : PageLaws page.
Proof.
  split; simpl.
  - intros [] s w s' w' r k. unfold submit_enabled, Forms.required_ok.
    destruct (loading s) eqn:L; simpl; [discriminate|].
    case_bool_decide; [|discriminate]. intros [= <- <- _ _] _. done.
  - intros [] s w s' w' r k _ Hg. discriminate.
  - intros [] s w s' w' r k. destruct (submit_enabled s); [|discriminate].
    intros [= <- <- <- _]. done.
  - intros _ res s w. by destruct (apply_resume_cases res s w) as [[m ->]| ->].
  - intros _ res s w.
    destruct (apply_resume_cases res s w) as [[m ->]| ->]; simpl; eauto.
  - by intros [] s.
  - intros [].
Qed.


Lemma handleSubmit_resume_interp r o s w :
  handleSubmit_resume (settle r o) s w =
  match interp r o with
  | Ok m => (set_loading (set_message s m) false, show_toast (success_toast m) w)
  | Err _ => (set_loading s false, show_toast error_toast w)
  end.
Proof.
  unfold handleSubmit_resume, try_block, interp.
  destruct (settle r o) as [d|e]; simpl; [|done]. by destruct (js_get d "message").
Qed.


Lemma apply_view_actions s vs :
  view s = Ok vs → actions vs = if submit_enabled s then [SubmitForm] else [].
Proof.
  intros H. unfold view in H. view_destruct H.
  all: unfold submit_enabled; destruct (loading s); view_norm; [done|].
  all: by destruct (Forms.required_ok (jobUrl s)).
Qed.

Lemma apply_view_ids s vs :
  view s = Ok vs → input_ids vs = ["jobUrl"] ∧ label_targets vs = ["jobUrl"] ∧ links vs = [].
Proof.
  intros H. unfold view in H. view_destruct H.
  all: destruct (loading s); unfold input_ids, label_targets, links; view_collect; done.
Qed.

(** At most one request of the page is in flight. *)
Lemma apply_inflight_le_one es c :
  run es (init initial) = Some c → (length (c_inflight c) ≤ 1)%nat.
Proof.
  intros Hrun. apply (run_single_flight (PL := apply_page_laws)) in Hrun; [|reflexivity].
  unfold single_flight in Hrun. rewrite guarded_inflight_all in Hrun by done.
  destruct (pg_loading (c_page c)); lia.
Qed.

(** ** Properties *)


(** C4: Single flight on the job-application page: in every reachable
    configuration there is exactly one [applyJob] request in flight when
    [loading] is set and none otherwise; in particular never two. *)
Theorem apply_single_flight es c :
  run es (init initial) = Some c →
  length (c_inflight c) = if loading (c_page c) then 1 else 0.
Proof.
  intros Hrun. apply (run_single_flight (PL := apply_page_laws)) in Hrun; [|reflexivity].
  unfold single_flight in Hrun. by rewrite guarded_inflight_all in Hrun.
Qed.

Lemma apply_single_flight_witness :
  run ex_events (init initial) = Some ex_config ∧
  length (c_inflight ex_config) = if loading (c_page ex_config) then 1 else 0.
Proof. split; [reflexivity|]. apply (apply_single_flight ex_events). reflexivity. Defined.

(** C9: Submitting: the browser dispatches the submit exactly when
    [loading] is clear and the URL is non-empty (otherwise the submit is
    rejected before any request, which is the spec's [AlreadyInFlightError]
    / [ValidationError]); the handler then sets [loading], clears
    [message] and sends exactly the [applyJob] request. *)
Theorem apply_submit_step c c' :
  step (EFire SubmitForm) c = Some c' ↔
  loading (c_page c) = false ∧ jobUrl (c_page c) ≠ "" ∧
  c' = mkConfig (set_message (set_loading (c_page c) true) (JStr ""))
                (send (applyJob (jobUrl (c_page c))) (c_world c))
                (c_inflight c ++ [(applyJob (jobUrl (c_page c)), tt)]).
Proof.
  destruct c as [[l u m] w fl]. simpl. unfold submit_enabled, Forms.required_ok. simpl.
  destruct l; simpl; [naive_solver|].
  case_bool_decide; simpl; naive_solver.
Qed.

(** C10: A successful reply whose data has a [message] stores it, shows
    the success toast with it as description, and clears [loading]. *)
Theorem apply_resume_success u o d m s w :
  settle (applyJob u) o = Ok d → js_get d "message" = Ok m →
  handleSubmit_resume (settle (applyJob u) o) s w
  = (set_loading (set_message s m) false, show_toast (success_toast m) w).
Proof. intros -> Hm. unfold handleSubmit_resume, try_block. simpl. by rewrite Hm. Qed.

Lemma apply_resume_success_witness :
  handleSubmit_resume (settle (applyJob ex_url) ok_reply) initial world0
  = (set_loading (set_message initial (JStr "ok")) false,
     show_toast (success_toast (JStr "ok")) world0).
Proof. apply (apply_resume_success ex_url ok_reply (JObj [("message", JStr "ok")])); reflexivity. Defined.

(** C11: Every failure (no response, a non-2xx status, or a reply whose
    data is [null] so that reading [response.message] throws) shows the
    one error toast, leaves [message] as the submit cleared it and clears
    [loading]. *)
Theorem apply_resume_failure u o s w :
  (settle (applyJob u) o = Err NetworkFailure ∨
   (∃ st d, settle (applyJob u) o = Err (HttpFailure st d)) ∨
   (∃ d msg, settle (applyJob u) o = Ok d ∧ js_get d "message" = Err (TypeError msg))) →
  handleSubmit_resume (settle (applyJob u) o) s w = (set_loading s false, show_toast error_toast w).
Proof.
  unfold handleSubmit_resume, try_block.
  intros [-> | [(st & d & ->) | (d & msg & -> & Hm)]]; simpl; [done|done|].
  by rewrite Hm.
Qed.

Lemma apply_resume_failure_witness :
  handleSubmit_resume (settle (applyJob ex_url) (Reply 404 {| raw := ""; parsed := None |})) initial world0
  = (set_loading initial false, show_toast error_toast world0).
Proof. apply apply_resume_failure. right. left. by do 2 eexists. Defined.

(** C17: No decode step (finding): a 2xx reply whose body is not JSON is
    not a [DecodeFailure]; axios hands the raw text over, [response.message]
    is [undefined], and the page shows the *success* toast with an
    undefined description and stores [undefined] as the message. *)
Theorem apply_no_decode_failure u st b s w :
  (200 <= st < 300)%Z → parsed b = None →
  handleSubmit_resume (settle (applyJob u) (Reply st b)) s w
  = (set_loading (set_message s JUndefined) false, show_toast (success_toast JUndefined) w).
Proof.
  intros Hst Hb. apply apply_resume_success with (d := JStr (raw b)).
  - apply settle_Ok. exists st, b. simpl. by rewrite Hb.
  - reflexivity.
Qed.

Lemma apply_no_decode_failure_witness :
  handleSubmit_resume (settle (applyJob ex_url) (Reply 200 {| raw := "Internal error"; parsed := None |}))
    initial world0
  = (set_loading (set_message initial JUndefined) false, show_toast (success_toast JUndefined) world0).
Proof. apply apply_no_decode_failure; [lia | reflexivity]. Defined.

(** The spec's round trip: with a backend that answers
    [{"message": "ok"}] to [{"job_url": "https://x/y"}], the page sends
    one POST of that body to [/apply-job] and ends with message ["ok"],
    one success toast and nothing in flight. *)
Example apply_roundtrip :
  option_map (λ c, (c_page c, toasts (c_world c), sent (c_world c), c_inflight c))
    (run (ex_events ++ [ESettle 0 ok_reply]) (init initial))
  = Some ({| loading := false; jobUrl := ex_url; message := JStr "ok" |},
          [success_toast (JStr "ok")],
          [{| req_method := POST; req_url := "http://localhost:8080/apply-job";
              req_headers := [("Content-Type", "application/json")];
              req_data := Some (JObj [("job_url", JStr ex_url)]);
              req_responseType := RTJson |}],
          []).
Proof. reflexivity. Qed.

(** Reported exactly once: after any run, the page has sent one
    request per accepted submit, and the notification sink has received
    exactly one event per settled request. *)
Theorem apply_reports_once es c :
  run es (init initial) = Some c →
  length (sent (c_world c)) = n_fires es ∧
  length (toasts (c_world c)) = n_settles es ∧
  length (c_inflight c) + n_settles es = n_fires es.
Proof.
  intros Hrun. pose proof (run_accounting (PL := apply_page_laws) _ _ _ Hrun) as [H1 H2].
  rewrite (run_toasts (PL := apply_page_laws) _ _ _ (λ (j : Empty_set), match j with end) Hrun). simpl in *. lia.
Qed.

Lemma apply_reports_once_witness :
  length (sent (c_world ex_config)) = n_fires ex_events ∧
  length (toasts (c_world ex_config)) = n_settles ex_events ∧
  length (c_inflight ex_config) + n_settles ex_events = n_fires ex_events.
Proof. apply apply_reports_once. reflexivity. Defined.

(** C2: Refinement: every step of the job-application page is a step of
    the abstract operation machine of the spec, from the state the page
    represents to a state it represents again, with the same requests sent
    and the same notifications (a success with the message, or a failure)
    delivered to the sink. *)
Theorem apply_refines e c c' a :
  represents c a → step e c = Some c' →
  ∃ a' os, spec_step interp (abs_event_of e c) a = Ok (Some (a', os)) ∧
    represents c' a' ∧
    sent (c_world c') = sent (c_world c) ++ sends os ∧
    toasts (c_world c') = toasts (c_world c) ++ omap toast_of os.
Proof.
  intros Hr Hs. pose proof (step_Some_inv _ _ _ Hs) as Hinv.
  destruct c as [s w fl], c' as [s' w' fl']. simpl in *.
  destruct e as [i|[]|[]|n o]; simpl in *.
  - injection Hinv as -> -> ->. exists a, []. split; [by destruct a|].
    split; [|by rewrite !app_nil_r]. by destruct a, i.
  - destruct Hinv as [rk [Hf ->]].
    destruct (submit_enabled s) eqn:E; [|discriminate].
    injection Hf as <- <- <-. apply andb_true_iff in E as [E _].
    assert (fl = []) as ->.
    { destruct a; simpl in Hr; [tauto | rewrite (proj1 Hr) in E; discriminate | tauto | tauto]. }
    exists (Pending (applyJob (jobUrl s))), [OSend (applyJob (jobUrl s))]. split.
    + destruct a; simpl in Hr; [done | rewrite (proj1 Hr) in E; discriminate | done | done].
    + simpl. rewrite app_nil_r. by repeat split.
  - destruct Hinv as (r & k & Hn & Hres).
    destruct a as [|r0|m|err]; simpl in Hr;
      [destruct Hr as [_ ->] | destruct Hr as (Hl & -> & Hm)
      | destruct Hr as (_ & -> & _) | destruct Hr as (_ & -> & _)];
      simpl in Hn; [discriminate| |discriminate|discriminate].
    destruct n as [|n]; simpl in Hn; [|discriminate]. injection Hn as <- <- <-.
    rewrite handleSubmit_resume_interp in Hres.
    destruct (interp r0 o) as [m|err] eqn:Hi; injection Hres as <- <-;
      eexists _, _; (split; [reflexivity|]); simpl; rewrite ?app_nil_r; naive_solver.
Qed.


Lemma apply_refines_witness :
  ∃ a' os, spec_step interp (abs_event_of (ESettle 0 ok_reply) ex_config) (Pending (applyJob ex_url))
           = Ok (Some (a', os)) ∧
    represents ex_settled a' ∧
    sent (c_world ex_settled) = sent (c_world ex_config) ++ sends os ∧
    toasts (c_world ex_settled) = toasts (c_world ex_config) ++ omap toast_of os.
Proof.
  apply (apply_refines (ESettle 0 ok_reply) ex_config ex_settled);
  [split_and!; reflexivity | reflexivity].
Defined.

(** C31: An object as [message] crashes the page (a finding): a 2xx
    reply whose [message] is an object is stored and reported as a
    success, and the page's next render throws React's "Objects are not
    valid as a React child"; with no error boundary, the application
    unmounts. *)
Theorem apply_object_message_crash r o d fs s w :
  settle r o = Ok d → js_get d "message" = Ok (JObj fs) →
  handleSubmit_resume (settle r o) s w
  = (set_loading (set_message s (JObj fs)) false, show_toast (success_toast (JObj fs)) w) ∧
  view (set_loading (set_message s (JObj fs)) false)
  = Err (TypeError "Objects are not valid as a React child").
Proof.
  intros Hs Hm. split.
  - rewrite handleSubmit_resume_interp. unfold interp. rewrite Hs. simpl. by rewrite Hm.
  - reflexivity.
Qed.

Lemma apply_object_message_crash_witness :
  handleSubmit_resume (settle (applyJob ex_url) obj_reply) initial world0
  = (set_loading (set_message initial (JObj [("detail", JStr "queued")])) false,
     show_toast (success_toast (JObj [("detail", JStr "queued")])) world0) ∧
  view (set_loading (set_message initial (JObj [("detail", JStr "queued")])) false)
  = Err (TypeError "Objects are not valid as a React child").
Proof.
  apply (apply_object_message_crash _ _ (JObj [("message", JObj [("detail", JStr "queued")])]));
    reflexivity.
Defined.

(** C32: Bounded transport use (spec section 8, counting transport
    invocations): in any run of the page, every request sent comes from
    a dispatched submit, and at most one more request has been sent than
    responses have settled. *)
Theorem apply_sends_bounded es c :
  run es (init initial) = Some c →
  length (sent (c_world c)) = n_fires es ∧ (length (sent (c_world c)) ≤ n_settles es + 1)%nat.
Proof.
  intros Hrun. pose proof (apply_inflight_le_one es c Hrun) as H1.
  destruct (run_accounting (PL := apply_page_laws) es _ _ Hrun) as [Hs Hf]. simpl in Hs, Hf.
  lia.
Qed.

Lemma apply_sends_bounded_witness :
  run (ex_events ++ [ESettle 0 ok_reply; EFire SubmitForm]) (init initial)
  = Some (default (init initial) (run (ex_events ++ [ESettle 0 ok_reply; EFire SubmitForm]) (init initial))) ∧
  length (sent (c_world (default (init initial) (run (ex_events ++ [ESettle 0 ok_reply; EFire SubmitForm]) (init initial)))))
  = n_fires (ex_events ++ [ESettle 0 ok_reply; EFire SubmitForm]) ∧
  (length (sent (c_world (default (init initial) (run (ex_events ++ [ESettle 0 ok_reply; EFire SubmitForm]) (init initial)))))
   ≤ n_settles (ex_events ++ [ESettle 0 ok_reply; EFire SubmitForm]) + 1)%nat.
Proof.
  split; [reflexivity|].
  apply (apply_sends_bounded (ex_events ++ [ESettle 0 ok_reply; EFire SubmitForm])). reflexivity.
Defined.

End ApplyJob.
