(* ===== verification/UpdateProfile.v ===== *)
(** * The profile-suggestions page: [src/pages/UpdateProfile.tsx]

    State: [loading], [profileUrl], [suggestions], [message] (lines
    12-15).  Operations: the [onChange] of the URL input (line 71),
    [handleSubmit] (lines 17-40) split at its [await], and the synchronous
    [handleCopy] (lines 42-48) of the Copy button, which is rendered only
    when [suggestions] is truthy (line 113).  The clipboard write is not
    awaited: the "Copied!" toast is shown whether or not the write
    succeeds; the model assumes [navigator.clipboard] exists (a secure
    context), otherwise line 43 throws first.  The page refines the spec's operation machine ([OpSpec]),
    with [interp] the result of the [try] block and [represents] the
    relation between configurations and abstract states.  [view] (lines
    50-155) is the page's JSX: the form, the message panel, the
    suggestions card with the Copy button and the tips card. *)

From S2P Require Import Prelude Json Transport Browser Api Forms View OpSpec Runtime.
Import Axios Api View OpSpec.
Open Scope list_scope.

Module UpdateProfile.

Record state : Type := {
  loading : bool;
  profileUrl : string;
  suggestions : jsval;
  message : jsval
}.

Definition initial : state :=
  {| loading := false; profileUrl := ""; suggestions := JStr ""; message := JStr "" |}.

Definition set_loading (s : state) (b : bool) : state :=
  {| loading := b; profileUrl := profileUrl s; suggestions := suggestions s; message := message s |}.
Definition set_profileUrl (s : state) (v : string) : state :=
  {| loading := loading s; profileUrl := v; suggestions := suggestions s; message := message s |}.
Definition set_suggestions (s : state) (v : jsval) : state :=
  {| loading := loading s; profileUrl := profileUrl s; suggestions := v; message := message s |}.
Definition set_message (s : state) (v : jsval) : state :=
  {| loading := loading s; profileUrl := profileUrl s; suggestions := suggestions s; message := v |}.

Inductive input : Type := SetProfileUrl (v : string).
Inductive trigger : Type := SubmitForm.
(** A click on Copy; [ok] is whether the browser allows the write. *)
Inductive sync_event : Type := CopyClick (ok : bool).

(** [onChange={(e) => setProfileUrl(e.target.value)}] *)
Definition on_input (i : input) (s : state) : state :=
  match i with SetProfileUrl v => set_profileUrl s v end.

(** [disabled={loading}] on the submit button, [required] on the input. *)
Definition submit_enabled (s : state) : bool :=
  negb (loading s) && Forms.required_ok (profileUrl s).

Definition success_toast : toast :=
  {| t_title := "Success!";
     t_description := JStr "Profile suggestions generated successfully.";
     t_variant := VDefault |}.

Definition error_toast : toast :=
  {| t_title := "Error";
     t_description := JStr "Failed to generate suggestions. Please try again.";
     t_variant := VDestructive |}.

Definition copied_toast : toast :=
  {| t_title := "Copied!"; t_description := JStr "Suggestions copied to clipboard.";
     t_variant := VDefault |}.

(** [setLoading(true); setSuggestions(''); setMessage('');
     await updateProfile(profileUrl)] up to the [await]. *)
Definition handleSubmit_start (s : state) (w : world) : state * world * request :=
  let s1 := set_message (set_suggestions (set_loading s true) (JStr "")) (JStr "") in
  let r := updateProfile (profileUrl s) in
  (s1, send r w, r).

(** [setSuggestions(response.profile_suggestions); setMessage(response.message);
     toast(...)] *)
Definition try_block (res : result transport_error jsval) (s : state) (w : world)
    : result handler_error (state * world) :=
  response ← await_ res;
  ps ← js_ (js_get response "profile_suggestions");
  let s1 := set_suggestions s ps in
  m ← js_ (js_get response "message");
  let s2 := set_message s1 m in
  Ok (s2, show_toast success_toast w).

Definition handleSubmit_resume (res : result transport_error jsval) (s : state) (w : world)
    : state * world :=
  let '(s1, w1) := result_catch (try_block res s w) (λ _, (s, show_toast error_toast w)) in
  (set_loading s1 false, w1).

(** [handleCopy]: [navigator.clipboard.writeText(suggestions)] (its
    promise is dropped), then the toast.  The button exists only when
    [suggestions] is truthy.  The model assumes a secure context, where
    [navigator.clipboard] exists; outside one (a page served over plain
    http) line 43 throws before the toast, a case not modelled here. *)
Definition handleCopy (ok : bool) (s : state) (w : world) : option (state * world) :=
  if truthy (suggestions s) then
    Some (s, show_toast copied_toast (writeText ok (to_js_string (suggestions s)) w))
  else None.

#[export] Instance page : Page state trigger input sync_event unit := {|
  pg_loading := loading;
  pg_input := on_input;
  pg_sync := λ j s w, match j with CopyClick ok => handleCopy ok s w end;
  pg_fire := λ t s w,
    match t with
    | SubmitForm =>
        if submit_enabled s then
          let '(s', w', r) := handleSubmit_start s w in Some (s', w', (r, tt))
        else None
    end;
  pg_resume := λ _ res s w, handleSubmit_resume res s w;
  pg_guarded := λ _, true
|}.

(** ** What the page renders (lines 50-156) *)

(** The two controls a user acts on: the form's submit and Copy. *)
Inductive ui_action : Type := UiSubmit | UiCopy.

#[export] Instance ui_action_eq_dec : EqDecision ui_action.
Proof. solve_decision. Defined.

Definition tip (t : string) : node ui_action := NBox "li" [NBox "span" [NText "•"]; NText t].

Definition view (s : state) : result js_error (list (node ui_action)) :=
  msg ← js_and (message s)
          (m ← child (message s); Ok [NBox "motion.div" [NBox "div" [NBox "p" [m]]]]);
  sug ← js_and (suggestions s)
          (p ← child (suggestions s);
           Ok [GlassCard [NBox "div" [NBox "h3" [NText "AI Profile Suggestions"];
                                      NButton (BClick UiCopy) false [NText "Copy"]];
                          NBox "div" [NBox "pre" [p]]]]);
  Ok [NBox "div" [NBox "motion.div"
       ([NBox "div" [NBox "h1" [NText "Update LinkedIn Profile"];
                     NBox "p" [NText "Get AI-powered suggestions to optimize your LinkedIn profile"]];
         GlassCard
           (NForm UiSubmit
              [NBox "div" [NLabel "profileUrl" [NText "LinkedIn Profile URL *"];
                           NInput "profileUrl" "text" (profileUrl s) true;
                           NBox "p" [NText "Enter your LinkedIn profile URL to get optimization suggestions"]];
               NButton BSubmit (loading s)
                 (if loading s then [NText "Generating Suggestions..."]
                  else [NText "Get Profile Suggestions"])]
            :: msg)]
        ++ sug
        ++ [GlassCard
              [NBox "h3" [NText "Optimization Tips"];
               NBox "ul" [tip "Use the AI suggestions to enhance your headline and summary";
                          tip "Add relevant keywords from your target job descriptions";
                          tip "Update your profile with measurable achievements";
                          tip "Keep your profile active with regular posts and engagement"]]])]].

(** ** The page as a refinement of the abstract operation machine *)

(** The result of the operation: the two fields read from the data of a
    2xx reply, or the error the [try] block caught. *)
Definition interp (r : request) (o : net_outcome) : result handler_error (jsval * jsval) :=
  d ← await_ (settle r o);
  ps ← js_ (js_get d "profile_suggestions");
  m ← js_ (js_get d "message");
  Ok (ps, m).

Definition abs_event_of (e : event trigger input sync_event) (c : config state unit)
    : abs_event :=
  match e with
  | EInput _ | ESync _ => AStutter
  | EFire SubmitForm => ASubmit (updateProfile (profileUrl (c_page c)))
  | ESettle _ o => AResolve o
  end.

(** How a configuration of the page represents an abstract state: the
    abstraction relation of the refinement proof below (a proof device,
    not a translation of the page's code). *)
Definition represents (c : config state unit) (a : op_state (jsval * jsval) handler_error) : Prop :=
  match a with
  | Idle => loading (c_page c) = false ∧ c_inflight c = []
  | Pending r => loading (c_page c) = true ∧ c_inflight c = [(r, tt)] ∧
                 suggestions (c_page c) = JStr "" ∧ message (c_page c) = JStr ""
  | Success (ps, m) => loading (c_page c) = false ∧ c_inflight c = [] ∧
                 suggestions (c_page c) = ps ∧ message (c_page c) = m
  | Failure _ => loading (c_page c) = false ∧ c_inflight c = [] ∧
                 suggestions (c_page c) = JStr "" ∧ message (c_page c) = JStr ""
  end.

(** The toast the page shows for an abstract notification. *)
Definition toast_of (o : obs (jsval * jsval) handler_error) : option toast :=
  match o with
  | OSend _ => None
  | ONotifySuccess _ => Some success_toast
  | ONotifyFailure _ => Some error_toast
  end.

(** The toasts of a step that are not the operation's: "Copied!". *)
Definition ui_toasts (e : event trigger input sync_event) : list toast :=
  match e with ESync _ => [copied_toast] | _ => [] end.

(** ** Example runs *)

Definition ex_url : string := "https://www.linkedin.com/in/johndoe".
Definition ex_events : list (event trigger input sync_event) :=
  [EInput (SetProfileUrl ex_url); EFire SubmitForm].
Definition ex_config : config state unit :=
  default (init initial) (run ex_events (init initial)).

Definition ex_reply : net_outcome :=
  Reply 200 {| raw := "{...}";
               parsed := Some (JObj [("message", JStr "done");
                                     ("profile_suggestions", JStr "Add a headline")]) |}.

(** ** Lemmas *)

Lemma profile_try_block_Ok res s w s1 w1 :
  try_block res s w = Ok (s1, w1) →
  ∃ d ps m, res = Ok d ∧ js_get d "profile_suggestions" = Ok ps ∧ js_get d "message" = Ok m ∧
            s1 = set_message (set_suggestions s ps) m ∧ w1 = show_toast success_toast w.
Proof.
  unfold try_block. destruct res as [d|e]; simpl; [|discriminate].
  destruct (js_get d "profile_suggestions") as [ps|e] eqn:E1; simpl; [|discriminate].
  destruct (js_get d "message") as [m|e] eqn:E2; simpl; [|discriminate].
  intros [= <- <-]. eauto 10.
Qed.

Lemma profile_resume_cases res s w :
  (∃ ps m, handleSubmit_resume res s w
        = (set_loading (set_message (set_suggestions s ps) m) false, show_toast success_toast w))
  ∨ handleSubmit_resume res s w = (set_loading s false, show_toast error_toast w).
Proof.
  unfold handleSubmit_resume.
  destruct (try_block res s w) as [[s1 w1]|e] eqn:E; simpl.
  - apply profile_try_block_Ok in E as (d & ps & m & _ & _ & _ & -> & ->). eauto.
  - by right.
Qed.

Lemma profile_resume_interp r o s w :
  handleSubmit_resume (settle r o) s w =
  match interp r o with
  | Ok (ps, m) => (set_loading (set_message (set_suggestions s ps) m) false, show_toast success_toast w)
  | Err _ => (set_loading s false, show_toast error_toast w)
  end.
Proof.
  unfold handleSubmit_resume, try_block, interp.
  destruct (settle r o) as [d|e]; simpl; [|done].
  destruct (js_get d "profile_suggestions"); simpl; [|done]. by destruct (js_get d "message").
Qed.

(** A stuttering step: the page state's observable part and the awaits
    are unchanged, no request is sent. *)
Lemma profile_stutter c c' a ts :
  represents c a → c_inflight c' = c_inflight c →
  loading (c_page c') = loading (c_page c) → suggestions (c_page c') = suggestions (c_page c) →
  message (c_page c') = message (c_page c) →
  sent (c_world c') = sent (c_world c) → toasts (c_world c') = toasts (c_world c) ++ ts →
  ∃ a' os, spec_step interp AStutter a = Ok (Some (a', os)) ∧ represents c' a' ∧
    sent (c_world c') = sent (c_world c) ++ sends os ∧
    toasts (c_world c') = toasts (c_world c) ++ omap toast_of os ++ ts.
Proof.
  intros Hr Hfl Hl Hsg Hm Hs Ht. exists a, []. split; [done|].
  rewrite Hs, Ht. simpl. rewrite app_nil_r. split; [|done].
  destruct a as [|r|[ps m]|e]; simpl in *; rewrite Hl, Hfl, ?Hsg, ?Hm; done.
Qed.

Lemma profile_page_laws : PageLaws page.
Proof.
  split; simpl.
  - intros [] s w s' w' r k. unfold submit_enabled, Forms.required_ok.
    destruct (loading s) eqn:L; simpl; [discriminate|].
    case_bool_decide; [|discriminate]. intros [= <- <- _ _] _. done.
  - intros [] s w s' w' r k _ Hg. discriminate.
  - intros [] s w s' w' r k. destruct (submit_enabled s); [|discriminate].
    intros [= <- <- <- _]. done.
  - intros _ res s w. by destruct (profile_resume_cases res s w) as [(ps & m & ->)| ->].
  - intros _ res s w.
    destruct (profile_resume_cases res s w) as [(ps & m & ->)| ->]; simpl; eauto.
  - by intros [] s.
  - intros [ok] s w s' w'. unfold handleCopy. destruct (truthy (suggestions s)); [|discriminate].
    intros [= <- <-]. split; [done|]. by destruct ok.
Qed.

(** The page's one control is labelled, and it links nowhere. *)
Lemma profile_view_ids s vs :
  view s = Ok vs →
  input_ids vs = ["profileUrl"] ∧ label_targets vs = ["profileUrl"] ∧ links vs = [].
Proof.
  intros H. unfold view, tip in H. view_destruct H.
  all: destruct (loading s); unfold input_ids, label_targets, links; view_collect; done.
Qed.

(** ** Properties *)


(** C20: Single flight on the profile page: exactly one [updateProfile]
    request is in flight while [loading] is set, none otherwise. *)
Theorem profile_single_flight es c :
  run es (init initial) = Some c →
  length (c_inflight c) = if loading (c_page c) then 1 else 0.
Proof.
  intros Hrun. apply (run_single_flight (PL := profile_page_laws)) in Hrun; [|reflexivity].
  unfold single_flight in Hrun. by rewrite guarded_inflight_all in Hrun.
Qed.

Lemma profile_single_flight_witness :
  run ex_events (init initial) = Some ex_config ∧
  length (c_inflight ex_config) = if loading (c_page ex_config) then 1 else 0.
Proof. split; [reflexivity|]. apply (profile_single_flight ex_events). reflexivity. Defined.

(** A 2xx reply whose data has both fields stores the suggestions and
    the message, shows the success toast and clears [loading]. *)
Theorem profile_resume_success o d ps m u s w :
  settle (updateProfile u) o = Ok d →
  js_get d "profile_suggestions" = Ok ps → js_get d "message" = Ok m →
  handleSubmit_resume (settle (updateProfile u) o) s w
  = (set_loading (set_message (set_suggestions s ps) m) false, show_toast success_toast w).
Proof. intros -> Hps Hm. unfold handleSubmit_resume, try_block. simpl. by rewrite Hps, Hm. Qed.

Lemma profile_resume_success_witness :
  handleSubmit_resume (settle (updateProfile ex_url) ex_reply) initial world0
  = (set_loading (set_message (set_suggestions initial (JStr "Add a headline")) (JStr "done")) false,
     show_toast success_toast world0).
Proof.
  apply (profile_resume_success ex_reply
           (JObj [("message", JStr "done"); ("profile_suggestions", JStr "Add a headline")]));
  reflexivity.
Defined.

(** C21: No stale suggestions: a submission that fails leaves both
    [suggestions] and [message] empty (the submit cleared them), so the
    Copy button is gone, and reports one error toast. *)
Theorem profile_failure_clears s w s1 w1 r e :
  handleSubmit_start s w = (s1, w1, r) →
  handleSubmit_resume (Err e) s1 w1
  = ({| loading := false; profileUrl := profileUrl s; suggestions := JStr ""; message := JStr "" |},
     show_toast error_toast (send (updateProfile (profileUrl s)) w)) ∧
  truthy (suggestions (handleSubmit_resume (Err e) s1 w1).1) = false.
Proof. intros [= <- <- <-]. split; reflexivity. Qed.

Lemma profile_failure_clears_witness :
  handleSubmit_resume (Err NetworkFailure)
    (handleSubmit_start (set_profileUrl initial ex_url) world0).1.1
    (handleSubmit_start (set_profileUrl initial ex_url) world0).1.2
  = ({| loading := false; profileUrl := ex_url; suggestions := JStr ""; message := JStr "" |},
     show_toast error_toast (send (updateProfile ex_url) world0)) ∧
  truthy (suggestions (handleSubmit_resume (Err NetworkFailure)
    (handleSubmit_start (set_profileUrl initial ex_url) world0).1.1
    (handleSubmit_start (set_profileUrl initial ex_url) world0).1.2).1) = false.
Proof.
  apply (profile_failure_clears (set_profileUrl initial ex_url) world0 _ _
           (updateProfile ex_url)).
  reflexivity.
Defined.

(** C22: The Copy button's toast does not depend on the clipboard (a
    finding): [writeText] is not awaited, so when the browser refuses the
    write the clipboard is unchanged and "Copied!" is still shown. *)
Theorem profile_copy_unconditional ok s w s' w' :
  handleCopy ok s w = Some (s', w') →
  toasts w' = toasts w ++ [copied_toast] ∧
  clipboard w' = (if ok then to_js_string (suggestions s) else clipboard w).
Proof.
  unfold handleCopy. destruct (truthy (suggestions s)); [|discriminate].
  intros [= <- <-]. by destruct ok.
Qed.

Lemma profile_copy_unconditional_witness :
  handleCopy false (set_suggestions initial (JStr "Add a headline")) world0
  = Some (set_suggestions initial (JStr "Add a headline"), show_toast copied_toast world0) ∧
  toasts (show_toast copied_toast world0) = toasts world0 ++ [copied_toast] ∧
  clipboard (show_toast copied_toast world0) = clipboard world0.
Proof.
  split; [reflexivity|].
  apply (profile_copy_unconditional false (set_suggestions initial (JStr "Add a headline")) world0
           (set_suggestions initial (JStr "Add a headline"))).
  reflexivity.
Defined.

(** C30: Refinement of the profile page: every step is a step of the
    abstract operation machine of the spec from the state the page
    represents to a state it represents again, with the same requests
    sent and the same notifications delivered; the only other toast is
    the Copy button's "Copied!". *)
Theorem profile_refines e c c' a :
  represents c a → step e c = Some c' →
  ∃ a' os, spec_step interp (abs_event_of e c) a = Ok (Some (a', os)) ∧
    represents c' a' ∧
    sent (c_world c') = sent (c_world c) ++ sends os ∧
    toasts (c_world c') = toasts (c_world c) ++ omap toast_of os ++ ui_toasts e.
Proof.
  intros Hr Hs. destruct e as [i|[ok]|[]|n o]; simpl.
  - apply step_Some_inv in Hs. subst c'.
    apply profile_stutter; simpl; rewrite ?app_nil_r; by destruct i.
  - apply step_Some_inv in Hs as [Hj Hfl]. simpl in Hj. unfold handleCopy in Hj.
    destruct (truthy (suggestions (c_page c))); [|discriminate]. injection Hj as Hp Hw.
    apply profile_stutter; rewrite <- ?Hp, <- ?Hw; try done; by destruct ok.
  - apply step_Some_inv in Hs as [rk [Hf Hfl]]. simpl in Hf.
    destruct (submit_enabled (c_page c)) eqn:E; [|discriminate].
    injection Hf as Hp Hw <-. apply andb_true_iff in E as [E _].
    assert (c_inflight c = [] ∧ is_pending a = false) as [H0 Ha].
    { destruct a as [| |[]|]; simpl in Hr; destruct_and!; try done. by rewrite H in E. }
    exists (Pending (updateProfile (profileUrl (c_page c)))), [OSend (updateProfile (profileUrl (c_page c)))].
    split; [by destruct a|]. unfold represents. rewrite Hfl, H0, <- Hp, <- Hw. simpl.
    by rewrite !app_nil_r.
  - destruct a as [|r0|[ps m]|err]; simpl in Hr; destruct_and!;
      try by rewrite step_settle_none in Hs.
    apply (step_settle_single _ _ _ _ r0 tt) in Hs as (_ & Hfl & Hres); [|done].
    simpl in Hres. rewrite profile_resume_interp in Hres.
    destruct (interp r0 o) as [[ps m]|err] eqn:Hi; injection Hres as Hp Hw;
      eexists _, _; (split; [reflexivity|]); unfold represents; rewrite <- Hp, <- Hw; simpl;
      rewrite ?app_nil_r; naive_solver.
Qed.

Lemma profile_refines_witness :
  ∃ a' os, spec_step interp (abs_event_of (ESettle 0 ex_reply) ex_config)
             (Pending (updateProfile ex_url)) = Ok (Some (a', os)) ∧
    represents (default ex_config (step (ESettle 0 ex_reply) ex_config)) a' ∧
    sent (c_world (default ex_config (step (ESettle 0 ex_reply) ex_config)))
      = sent (c_world ex_config) ++ sends os ∧
    toasts (c_world (default ex_config (step (ESettle 0 ex_reply) ex_config)))
      = toasts (c_world ex_config) ++ omap toast_of os ++ ui_toasts (ESettle 0 ex_reply).
Proof.
  apply (profile_refines (ESettle 0 ex_reply) ex_config); [split_and!; reflexivity | reflexivity].
Defined.

(** What the profile page offers is what the model dispatches: in
    every state the page renders, the form's submit is available exactly
    when [handleSubmit] runs, and the Copy button exactly when
    [handleCopy] runs (the suggestions are truthy). *)
Theorem profile_view_dispatch s vs w ok :
  view s = Ok vs →
  (UiSubmit ∈ actions vs ↔ is_Some (pg_fire SubmitForm s w)) ∧
  (UiCopy ∈ actions vs ↔ is_Some (handleCopy ok s w)).
Proof.
  intros H. cbn [pg_fire page]. unfold handleCopy, submit_enabled.
  unfold view, tip in H. view_destruct H.
  all: destruct (loading s); view_norm.
  all: destruct (Forms.required_ok (profileUrl s)); try destruct (handleSubmit_start s w) as [[??]?];
    split; apply (bool_decide_unpack _); vm_compute; reflexivity.
Qed.

Lemma profile_view_dispatch_witness :
  view (set_suggestions initial (JStr "Add a headline"))
  = Ok (result_catch (view (set_suggestions initial (JStr "Add a headline")))  (λ _, [])) ∧
  (UiSubmit ∈ actions (result_catch (view (set_suggestions initial (JStr "Add a headline"))) (λ _, []))
   ↔ is_Some (pg_fire SubmitForm (set_suggestions initial (JStr "Add a headline")) world0)) ∧
  (UiCopy ∈ actions (result_catch (view (set_suggestions initial (JStr "Add a headline"))) (λ _, []))
   ↔ is_Some (handleCopy false (set_suggestions initial (JStr "Add a headline")) world0)).
Proof.
  split; [reflexivity|]. apply profile_view_dispatch. reflexivity.
Defined.

End UpdateProfile.
