(* ===== verification/GenerateDocuments.v ===== *)
(** * The document-generation page: [src/pages/GenerateDocuments.tsx]

    State: [loading], [formData : UserInfo], [results] (lines 13-29).
    Operations:
    - the [onChange] of each of the eight inputs (lines 99-182);
    - [handleSubmit] (lines 31-51), split at its [await]; the submit
      button is [disabled={loading}] (line 190), seven inputs are
      [required] and the e-mail input has [type="email"];
    - [handleDownload(filename, displayName)] (lines 53-76), the click
      handler of the two Download buttons (lines 215 and 232), rendered
      only when [results] is truthy (line 209), with the file name read
      from [results] at click time.  Downloads are not guarded by
      [loading]: any number of them can be in flight, also while a
      generation is pending.
    [view] (lines 78-256) is the page's JSX: the header, the form of
    eight labelled fields with its submit button, and the results panel
    with the two preview cards or the placeholder card. *)

From S2P Require Import Prelude Json Transport Browser Api Forms View Runtime.
Import Axios Api View.
Open Scope list_scope.

Module GenerateDocuments.

Record state : Type := {
  loading : bool;
  formData : UserInfo;
  results : jsval
}.

(** [useState<UserInfo>({ name: '', ..., linkedin_profile_url: '' })]:
    the optional field holds the empty string, not [undefined]. *)
Definition empty_form : UserInfo := {|
  name := ""; email := ""; phone := ""; skills := ""; experience := "";
  education := ""; job_description := ""; linkedin_profile_url := Some ""
|}.

Definition initial : state := {| loading := false; formData := empty_form; results := JNull |}.

Definition set_loading (s : state) (b : bool) : state :=
  {| loading := b; formData := formData s; results := results s |}.
Definition set_formData (s : state) (f : UserInfo) : state :=
  {| loading := loading s; formData := f; results := results s |}.
Definition set_results (s : state) (r : jsval) : state :=
  {| loading := loading s; formData := formData s; results := r |}.

Inductive field : Type :=
| FName | FEmail | FPhone | FSkills | FExperience | FEducation | FJobDescription | FLinkedin.

Inductive input : Type := SetField (f : field) (v : string).

(** [setFormData({ ...formData, <field>: e.target.value })] *)
Definition update_field (u : UserInfo) (f : field) (v : string) : UserInfo :=
  let '{| name := n; email := e; phone := p; skills := sk; experience := ex;
          education := ed; job_description := jd; linkedin_profile_url := li |} := u in
  match f with
  | FName => {| name := v; email := e; phone := p; skills := sk; experience := ex; education := ed; job_description := jd; linkedin_profile_url := li |}
  | FEmail => {| name := n; email := v; phone := p; skills := sk; experience := ex; education := ed; job_description := jd; linkedin_profile_url := li |}
  | FPhone => {| name := n; email := e; phone := v; skills := sk; experience := ex; education := ed; job_description := jd; linkedin_profile_url := li |}
  | FSkills => {| name := n; email := e; phone := p; skills := v; experience := ex; education := ed; job_description := jd; linkedin_profile_url := li |}
  | FExperience => {| name := n; email := e; phone := p; skills := sk; experience := v; education := ed; job_description := jd; linkedin_profile_url := li |}
  | FEducation => {| name := n; email := e; phone := p; skills := sk; experience := ex; education := v; job_description := jd; linkedin_profile_url := li |}
  | FJobDescription => {| name := n; email := e; phone := p; skills := sk; experience := ex; education := ed; job_description := v; linkedin_profile_url := li |}
  | FLinkedin => {| name := n; email := e; phone := p; skills := sk; experience := ex; education := ed; job_description := jd; linkedin_profile_url := Some v |}
  end.

Definition on_input (i : input) (s : state) : state :=
  match i with SetField f v => set_formData s (update_field (formData s) f v) end.

(** The form's constraints: seven [required] controls, the e-mail one
    also [type="email"]; the LinkedIn URL is free. *)
Definition form_valid (u : UserInfo) : bool :=
  Forms.required_ok (name u) && Forms.email_ok (email u) && Forms.required_ok (phone u)
  && Forms.required_ok (skills u) && Forms.required_ok (experience u)
  && Forms.required_ok (education u) && Forms.required_ok (job_description u).

Definition submit_enabled (s : state) : bool := negb (loading s) && form_valid (formData s).

Inductive trigger : Type := SubmitForm | DownloadCV | DownloadLetter.

#[export] Instance trigger_eq_dec : EqDecision trigger.
Proof. solve_decision. Defined.

(** What an await of the page resumes: the generation, or a download
    with the display name its closure captured. *)
Inductive cont : Type := KSubmit | KDownload (displayName : string).

#[export] Instance cont_eq_dec : EqDecision cont.
Proof. solve_decision. Defined.

Definition success_toast : toast :=
  {| t_title := "Success!"; t_description := JStr "Your documents have been generated successfully.";
     t_variant := VDefault |}.
Definition error_toast : toast :=
  {| t_title := "Error"; t_description := JStr "Failed to generate documents. Please try again.";
     t_variant := VDestructive |}.
Definition downloaded_toast (displayName : string) : toast :=
  {| t_title := "Downloaded"; t_description := JStr (displayName +:+ " downloaded successfully.");
     t_variant := VDefault |}.
Definition download_error_toast : toast :=
  {| t_title := "Error"; t_description := JStr "Failed to download file."; t_variant := VDestructive |}.

(** [setLoading(true); await generateDocuments(formData)] up to the [await]. *)
Definition handleSubmit_start (s : state) (w : world) : state * world * request :=
  let r := generateDocuments (formData s) in
  (set_loading s true, send r w, r).

(** [try { setResults(response); toast(...) } catch { toast(...) }
     finally { setLoading(false) }] *)
Definition handleSubmit_resume (res : result transport_error jsval) (s : state) (w : world)
    : state * world :=
  let '(s1, w1) :=
    match await_ res with
    | Ok response => (set_results s response, show_toast success_toast w)
    | Err _ => (s, show_toast error_toast w)
    end in
  (set_loading s1 false, w1).

(** [handleDownload(filename, displayName)] up to its [await]: the
    [downloadFile] request. *)
Definition handleDownload_start (filename : jsval) (w : world) : world * request :=
  let r := downloadFile filename in (send r w, r).

(** The rest of [handleDownload]: create an object URL for the blob, an
    anchor with [href] and [download], append it, click it, revoke the
    URL, remove the anchor, toast; any exception goes to the error toast
    with the effects done before it kept. *)
Definition handleDownload_resume (displayName : string) (res : result transport_error jsval)
    (w : world) : world :=
  match await_ res with
  | Err _ => show_toast download_error_toast w
  | Ok blob =>
      match createObjectURL blob w with
      | Err _ => show_toast download_error_toast w
      | Ok (url, w1) =>
          let '(a, w2) := createAnchor w1 in
          let w3 := setAnchor a {| a_href := url; a_download := displayName |} w2 in
          let w4 := appendChild a w3 in
          let w5 := click a w4 in
          let w6 := revokeObjectURL url w5 in
          match removeChild a w6 with
          | Ok w7 => show_toast (downloaded_toast displayName) w7
          | Err _ => show_toast download_error_toast w6
          end
      end
  end.

(** A Download button: rendered when [results] is truthy; its [onClick]
    reads [results.cv_path] (or [cover_letter_path]) and calls
    [handleDownload] with the fixed display name. *)
Definition download_click (key displayName : string) (s : state) (w : world)
    : option (state * world * (request * cont)) :=
  if truthy (results s) then
    match js_get (results s) key with
    | Ok filename =>
        let '(w', r) := handleDownload_start filename w in Some (s, w', (r, KDownload displayName))
    | Err _ => None
    end
  else None.

Definition fire (t : trigger) (s : state) (w : world) : option (state * world * (request * cont)) :=
  match t with
  | SubmitForm =>
      if submit_enabled s then
        let '(s', w', r) := handleSubmit_start s w in Some (s', w', (r, KSubmit))
      else None
  | DownloadCV => download_click "cv_path" "CV.docx" s w
  | DownloadLetter => download_click "cover_letter_path" "CoverLetter.docx" s w
  end.

Definition resume (k : cont) (res : result transport_error jsval) (s : state) (w : world)
    : state * world :=
  match k with
  | KSubmit => handleSubmit_resume res s w
  | KDownload name => (s, handleDownload_resume name res w)
  end.

#[export] Instance page : Page state trigger input Empty_set cont := {|
  pg_loading := loading;
  pg_input := on_input;
  pg_sync := λ (j : Empty_set) _ _, match j with end;
  pg_fire := fire;
  pg_resume := resume;
  pg_guarded := λ k, match k with KSubmit => true | KDownload _ => false end
|}.

(** ** What the page renders (lines 78-257)

    The form has seven [required] controls (the e-mail one [type="email"])
    and the optional LinkedIn input; the submit button is
    [disabled={loading}].  [{results ? (...) : (...)}] shows the two
    previews with their Download buttons, or a placeholder. *)

(** One field of the form: [<Label htmlFor>] and its control. *)
Definition field_view (id label type_ value : string) (required : bool) : node trigger :=
  NBox "div" [NLabel id [NText label]; NInput id type_ value required].

(** A preview card: title, Download button, [<pre>{preview}</pre>]. *)
Definition preview_card (title : string) (t : trigger) (button : string) (preview : jsval)
    : result js_error (node trigger) :=
  p ← child preview;
  Ok (GlassCard [NBox "div" [NBox "h3" [NText title]; NButton (BClick t) false [NText button]];
                 NBox "div" [NBox "pre" [p]]]).

Definition results_view (results : jsval) : result js_error (list (node trigger)) :=
  if truthy results then
    cvp ← js_get results "cv_preview";
    clp ← js_get results "cover_letter_preview";
    cv ← preview_card "CV Preview" DownloadCV "Download CV" cvp;
    cl ← preview_card "Cover Letter Preview" DownloadLetter "Download Letter" clp;
    Ok [cv; cl]
  else
    Ok [GlassCard [NBox "p" [NText ("Fill out the form and click " +:+ dq +:+ "Generate Documents" +:+ dq
                                    +:+ " to see your AI-generated CV and cover letter here.")]]].

(** The fields of the form (lines 94-185). *)
Definition form_fields (u : UserInfo) : list (node trigger) :=
  [field_view "name" "Full Name *" "text" (name u) true;
   NBox "div" [field_view "email" "Email *" "email" (email u) true;
               field_view "phone" "Phone *" "text" (phone u) true];
   field_view "skills" "Skills *" "textarea" (skills u) true;
   field_view "experience" "Experience *" "textarea" (experience u) true;
   field_view "education" "Education *" "textarea" (education u) true;
   field_view "job_description" "Job Description *" "textarea" (job_description u) true;
   field_view "linkedin" "LinkedIn Profile URL (Optional)" "text"
     (default "" (linkedin_profile_url u)) false].



Definition view (s : state) : result js_error (list (node trigger)) :=
  res ← results_view (results s);
  Ok [NBox "div"
       [NBox "motion.div"
          [NBox "h1" [NText "Generate Documents"];
           NBox "p" [NText "Create professional CV and cover letter tailored to your job application"]];
        NBox "div"
          [GlassCard
             [NForm SubmitForm
                (form_fields (formData s)
                 ++ [NButton BSubmit (loading s)
                       (if loading s then [NText "Generating..."] else [NText "Generate Documents"])])];
           NBox "div" res]]].

(** ** Example runs *)

Definition ex_form : list (event trigger input Empty_set) :=
  map (λ fv, EInput (SetField fv.1 fv.2))
    [(FName, "Jo"); (FEmail, "jo@x.com"); (FPhone, "1"); (FSkills, "Rocq");
     (FExperience, "5y"); (FEducation, "MSc"); (FJobDescription, "Engineer")].

Definition ex_generated : jsval :=
  JObj [("cv_path", JStr "CV_123.docx"); ("cover_letter_path", JStr "CL_123.docx");
        ("cv_preview", JStr "cv"); ("cover_letter_preview", JStr "letter")].

Definition ex_gen_reply : net_outcome :=
  Reply 200 {| raw := "{...}"; parsed := Some ex_generated |}.

(** Fill the form, generate, click both Download buttons. *)
Definition ex_events : list (event trigger input Empty_set) :=
  ex_form ++ [EFire SubmitForm; ESettle 0 ex_gen_reply; EFire DownloadCV; EFire DownloadLetter].

Definition ex_config : config state cont := default (init initial) (run ex_events (init initial)).

(** ... and generate again while both downloads are in flight. *)
Definition ex_busy_events : list (event trigger input Empty_set) := ex_events ++ [EFire SubmitForm].
Definition ex_busy : config state cont := default (init initial) (run ex_busy_events (init initial)).

Definition ex_blob_reply : net_outcome := Reply 200 {| raw := "PK..."; parsed := None |}.
Definition ex_404 : net_outcome := Reply 404 {| raw := "{'detail':'Not Found'}"; parsed := None |}.

(** ** Lemmas *)

(** The download continuation sends nothing and reports exactly once. *)
Lemma handleDownload_resume_world name res w :
  sent (handleDownload_resume name res w) = sent w ∧
  ∃ t, toasts (handleDownload_resume name res w) = toasts w ++ [t].
Proof.
  unfold handleDownload_resume.
  destruct (await_ res) as [blob|e]; [|simpl; eauto].
  destruct blob; simpl; eauto.
  unfold removeChild. simpl. case_decide; simpl; rewrite click_sent, click_toasts; eauto.
Qed.

(** With no object URL live and nothing appended to the body, a blob
    download saves the blob under the display name, reports once, and
    leaves no object URL and no anchor behind. *)
Lemma handleDownload_resume_blob name b w :
  object_urls w = ∅ → body w = [] →
  object_urls (handleDownload_resume name (Ok (JBlob b)) w) = ∅ ∧
  body (handleDownload_resume name (Ok (JBlob b)) w) = [] ∧
  saved (handleDownload_resume name (Ok (JBlob b)) w) = saved w ++ [(name, b)] ∧
  toasts (handleDownload_resume name (Ok (JBlob b)) w) = toasts w ++ [downloaded_toast name] ∧
  sent (handleDownload_resume name (Ok (JBlob b)) w) = sent w.
Proof.
  intros Hu Hb. unfold handleDownload_resume, click, removeChild. simpl.
  rewrite Hu, Hb. simplify_map_eq.
  rewrite decide_True by set_solver. simpl.
  rewrite delete_insert_eq, delete_empty, filter_cons_False by naive_solver.
  done.
Qed.

(** Any other settlement of a download (a rejection, or data that is not
    a blob) changes nothing but the one error toast. *)
Lemma handleDownload_resume_error name res w :
  (∀ b, res ≠ Ok (JBlob b)) →
  handleDownload_resume name res w = show_toast download_error_toast w.
Proof.
  intros Hres. unfold handleDownload_resume.
  destruct res as [v|e]; simpl; [|done].
  destruct v; simpl; try done. by destruct (Hres bytes).
Qed.

Lemma fire_download t s w s' w' r k :
  fire t s w = Some (s', w', (r, k)) → (∃ name, k = KDownload name) →
  s' = s ∧ w' = send r w ∧ t ≠ SubmitForm.
Proof.
  destruct t; simpl.
  - destruct (submit_enabled s); [|discriminate]. intros [= _ _ _ <-] [? ?]. discriminate.
  - unfold download_click. destruct (truthy (results s)); [|discriminate].
    destruct (js_get (results s) "cv_path"); [|discriminate]. by intros [= <- <- <- _] _.
  - unfold download_click. destruct (truthy (results s)); [|discriminate].
    destruct (js_get (results s) "cover_letter_path"); [|discriminate]. by intros [= <- <- <- _] _.
Qed.

Lemma fire_request t s w s' w' r k :
  fire t s w = Some (s', w', (r, k)) →
  (∃ u, r = generateDocuments u) ∨ (∃ f, r = downloadFile f).
Proof.
  destruct t; simpl.
  - destruct (submit_enabled s); [|discriminate]. intros [= _ _ <- _]. eauto.
  - unfold download_click. destruct (truthy (results s)); [|discriminate].
    destruct (js_get (results s) "cv_path"); [|discriminate]. intros [= _ _ <- _]. eauto.
  - unfold download_click. destruct (truthy (results s)); [|discriminate].
    destruct (js_get (results s) "cover_letter_path"); [|discriminate]. intros [= _ _ <- _]. eauto.
Qed.

Lemma fire_submit t s w s' w' r :
  fire t s w = Some (s', w', (r, KSubmit)) →
  t = SubmitForm ∧ submit_enabled s = true ∧ s' = set_loading s true ∧
  r = generateDocuments (formData s) ∧ w' = send r w.
Proof.
  destruct t; simpl.
  - destruct (submit_enabled s) eqn:E; [|discriminate]. by intros [= <- <- <-].
  - unfold download_click. destruct (truthy (results s)); [|discriminate].
    destruct (js_get (results s) "cv_path"); [|discriminate]. intros [=].
  - unfold download_click. destruct (truthy (results s)); [|discriminate].
    destruct (js_get (results s) "cover_letter_path"); [|discriminate]. intros [=].
Qed.

Lemma gd_page_laws : PageLaws page.
Proof.
  split; simpl.
  - intros t s w s' w' r [] Hf Hg; [|discriminate].
    apply fire_submit in Hf as (_ & He & -> & _).
    unfold submit_enabled in He. apply andb_true_iff in He as [He _].
    by destruct (loading s).
  - intros t s w s' w' r [] Hf Hg; [discriminate|].
    apply fire_download in Hf as [-> _]; eauto.
  - intros t s w s' w' r [] Hf.
    + by apply fire_submit in Hf as (_ & _ & _ & _ & ->).
    + apply fire_download in Hf as (_ & -> & _); eauto.
  - intros [] res s w; simpl; [|done].
    unfold handleSubmit_resume. by destruct (await_ res).
  - intros [] res s w; simpl.
    + unfold handleSubmit_resume. destruct (await_ res); simpl; eauto.
    + apply handleDownload_resume_world.
  - by intros [] s.
  - intros [].
Qed.

Lemma resume_world_clean k res s w :
  object_urls w = ∅ → body w = [] →
  object_urls (resume k res s w).2 = ∅ ∧ body (resume k res s w).2 = [].
Proof.
  intros Hu Hb. destruct k as [|name]; simpl.
  - unfold handleSubmit_resume. by destruct (await_ res).
  - destruct res as [v|e]; [destruct v as [| | | | | | |b]|].
    all: try solve [rewrite handleDownload_resume_error; [done | intros ? [=]]].
    by destruct (handleDownload_resume_blob name b w Hu Hb) as (-> & -> & _).
Qed.

Lemma gd_form_valid u : forallb control_valid (nodes_list (form_fields u)) = form_valid u.
Proof.
  unfold form_fields, form_valid, nodes_list. cbn -[control_valid].
  rewrite !control_valid_plain, control_valid_email by done. simpl.
  by rewrite !andb_true_r, !andb_assoc.
Qed.

Lemma gd_form_inert u : actions (form_fields u) = [] ∧ has_enabled_submit (form_fields u) = false.
Proof. unfold actions, has_enabled_submit, form_fields, nodes_list. split; [view_collect|]; reflexivity. Qed.

Lemma results_view_actions r res :
  results_view r = Ok res → actions res = if truthy r then [DownloadCV; DownloadLetter] else [].
Proof.
  unfold results_view, preview_card. intros H. view_destruct H; unfold actions; view_collect; reflexivity.
Qed.

Lemma download_click_Some key name s w :
  is_Some (download_click key name s w) ↔ truthy (results s) = true.
Proof.
  unfold download_click. destruct (truthy (results s)) eqn:T; [|split; [intros []; discriminate|discriminate]].
  destruct (js_get_truthy _ key T) as [v ->]. destruct (handleDownload_start v w). by split; [|eexists].
Qed.

Lemma fire_Some t s w :
  is_Some (fire t s w)
  ↔ match t with SubmitForm => submit_enabled s = true | _ => truthy (results s) = true end.
Proof.
  destruct t; simpl; [|apply download_click_Some..].
  destruct (submit_enabled s); [|split; [intros [? ?]|]; done].
  destruct (handleSubmit_start s w) as [[??]?]. split; [done|]. by eexists.
Qed.

Lemma results_view_inert r res :
  results_view r = Ok res → input_ids res = [] ∧ label_targets res = [] ∧ links res = [].
Proof.
  unfold results_view, preview_card. intros H.
  view_destruct H; unfold input_ids, label_targets, links; view_collect; done.
Qed.

(** Every label of the page names one of its eight fields. *)
Lemma gd_view_ids s vs :
  view s = Ok vs →
  input_ids vs = ["name"; "email"; "phone"; "skills"; "experience"; "education";
                  "job_description"; "linkedin"] ∧
  label_targets vs = ["name"; "email"; "phone"; "skills"; "experience"; "education";
                      "job_description"; "linkedin"] ∧ links vs = [].
Proof.
  unfold view. intros H. destruct (results_view (results s)) as [res|] eqn:R; [|discriminate].
  destruct (results_view_inert _ _ R) as (Hi & Hl & Hk).
  cbn [mbind result_bind] in H. injection H as <-.
  unfold input_ids, label_targets, links in *. view_collect.
  rewrite Hi, Hl, Hk. destruct (loading s); done.
Qed.

(** ** Properties *)


(** C1: Scoped resources of [handleDownload]: in every reachable
    configuration no object URL is live and no anchor is left in the
    document body; each download revokes its URL and removes its anchor
    on every path. *)
Theorem generate_downloads_release es c :
  run es (init initial) = Some c →
  object_urls (c_world c) = ∅ ∧ body (c_world c) = [].
Proof.
  apply (run_world_inv (λ w, object_urls w = ∅ ∧ body w = [])).
  - intros t s w s' w' [r k] [Hu Hb] Hf.
    destruct k; [apply fire_submit in Hf as (_ & _ & _ & _ & ->)
                |apply fire_download in Hf as (_ & -> & _); [|eauto]]; done.
  - intros [].
  - intros k res s w [Hu Hb]. by apply resume_world_clean.
  - done.
Qed.

Lemma generate_downloads_release_witness :
  object_urls (c_world ex_config) = ∅ ∧ body (c_world ex_config) = [].
Proof. apply (generate_downloads_release ex_events). reflexivity. Defined.

(** C7: A download that settles with a 2xx blob saves exactly that blob
    under the button's display name, shows one "downloaded" toast, leaves
    the page state and the other awaits as they were, and leaves no object
    URL or anchor behind. *)
Theorem download_settle_blob n o c r name rest b :
  object_urls (c_world c) = ∅ → body (c_world c) = [] →
  take_nth n (c_inflight c) = Some ((r, KDownload name), rest) →
  settle r o = Ok (JBlob b) →
  ∃ c', step (ESettle n o) c = Some c' ∧
    c_page c' = c_page c ∧ c_inflight c' = rest ∧
    saved (c_world c') = saved (c_world c) ++ [(name, b)] ∧
    toasts (c_world c') = toasts (c_world c) ++ [downloaded_toast name] ∧
    sent (c_world c') = sent (c_world c) ∧
    object_urls (c_world c') = ∅ ∧ body (c_world c') = [].
Proof.
  intros Hu Hb Hn Hs. destruct c as [s w fl]. simpl in *.
  rewrite Hn. simpl. rewrite Hs.
  destruct (handleDownload_resume_blob name b w Hu Hb) as (H1 & H2 & H3 & H4 & H5).
  eexists. split; [reflexivity|]. simpl. done.
Qed.

Lemma download_settle_blob_witness :
  ∃ c', step (ESettle 0 ex_blob_reply) ex_config = Some c' ∧
    c_page c' = c_page ex_config ∧
    c_inflight c' = [(downloadFile (JStr "CL_123.docx"), KDownload "CoverLetter.docx")] ∧
    saved (c_world c') = saved (c_world ex_config) ++ [("CV.docx", "PK...")] ∧
    toasts (c_world c') = toasts (c_world ex_config) ++ [downloaded_toast "CV.docx"] ∧
    sent (c_world c') = sent (c_world ex_config) ∧
    object_urls (c_world c') = ∅ ∧ body (c_world c') = [].
Proof.
  apply (download_settle_blob 0 ex_blob_reply ex_config (downloadFile (JStr "CV_123.docx")));
  reflexivity.
Defined.

(** C8: A download that fails (the spec's example: a 404 for
    [CV_123.docx]; also no response, or a 2xx whose data is not a blob)
    saves nothing, creates no resource and reports exactly one failure to
    the sink. *)
Theorem download_settle_failure n o c r name rest :
  take_nth n (c_inflight c) = Some ((r, KDownload name), rest) →
  (∀ b, settle r o ≠ Ok (JBlob b)) →
  step (ESettle n o) c
  = Some (mkConfig (c_page c) (show_toast download_error_toast (c_world c)) rest).
Proof.
  intros Hn Hs. destruct c as [s w fl]. simpl in *. rewrite Hn. simpl.
  by rewrite handleDownload_resume_error.
Qed.

Lemma download_settle_failure_witness :
  step (ESettle 0 ex_404) ex_config
  = Some (mkConfig (c_page ex_config) (show_toast download_error_toast (c_world ex_config))
                   [(downloadFile (JStr "CL_123.docx"), KDownload "CoverLetter.docx")]).
Proof.
  apply (download_settle_failure 0 ex_404 ex_config (downloadFile (JStr "CV_123.docx")) "CV.docx");
  [reflexivity | intros b; discriminate].
Defined.

Lemma form_valid_spec u :
  form_valid u = true ↔
  name u ≠ "" ∧ email u ≠ "" ∧ Forms.valid_email (email u) = true ∧ phone u ≠ "" ∧
  skills u ≠ "" ∧ experience u ≠ "" ∧ education u ≠ "" ∧ job_description u ≠ "".
Proof.
  unfold form_valid, Forms.email_ok. rewrite !andb_true_iff, !Forms.required_ok_spec.
  naive_solver.
Qed.

(** C5: Submitting the generation form: the browser dispatches it exactly
    when [loading] is clear and every constraint of the form holds (seven
    required fields, a valid e-mail); the handler sets [loading] and sends
    exactly the [generateDocuments] request for the current form data.
    The previous [results] are not cleared. *)
Theorem generate_submit_step c c' :
  step (EFire SubmitForm) c = Some c' ↔
  loading (c_page c) = false ∧ form_valid (formData (c_page c)) = true ∧
  c' = mkConfig (set_loading (c_page c) true)
                (send (generateDocuments (formData (c_page c))) (c_world c))
                (c_inflight c ++ [(generateDocuments (formData (c_page c)), KSubmit)]).
Proof.
  destruct c as [[l f r] w fl]. simpl. unfold submit_enabled. simpl.
  destruct l; simpl; [naive_solver|].
  destruct (form_valid f); simpl; naive_solver.
Qed.

(** C6: The spec's validation example: with [skills = ""] (or any other
    required field empty, or an e-mail that is not an address) the form
    is invalid and the submit is refused locally: no event, no request,
    no toast. *)
Theorem generate_rejects_invalid_form c :
  (skills (formData (c_page c)) = "" ∨ name (formData (c_page c)) = "" ∨
   Forms.valid_email (email (formData (c_page c))) = false) →
  form_valid (formData (c_page c)) = false ∧ step (EFire SubmitForm) c = None.
Proof.
  intros Hf. destruct c as [s w fl]. simpl in *. unfold submit_enabled.
  destruct (form_valid (formData s)) eqn:E.
  - apply form_valid_spec in E as (? & ? & ? & ? & ? & ? & ? & ?).
    exfalso. destruct Hf as [Hx|[Hx|Hx]]; congruence.
  - split; [done|]. by destruct (loading s).
Qed.

Lemma generate_rejects_invalid_form_witness :
  let c := default (init initial) (run (ex_form ++ [EInput (SetField FSkills "")]) (init initial)) in
  form_valid (formData (c_page c)) = false ∧ step (EFire SubmitForm) c = None.
Proof. apply generate_rejects_invalid_form. left. reflexivity. Defined.

(** C18: Stale results after a failed generation (finding): a submission
    that fails leaves the page exactly as it was before the submit,
    including the [results] of the previous generation, and the Download
    buttons keep offering those earlier artifacts, while pending too. *)
Theorem generate_failure_keeps_stale_results s w s1 w1 r e :
  handleSubmit_start s w = (s1, w1, r) → loading s = false →
  (handleSubmit_resume (Err e) s1 w1).1 = s ∧
  ∀ key name w', (λ x, (x.1.2, x.2)) <$> download_click key name s1 w'
                 = (λ x, (x.1.2, x.2)) <$> download_click key name s w'.
Proof.
  intros [= <- <- <-] Hl. split.
  - destruct s as [l f res]. simpl in *. by subst l.
  - intros key name w'. unfold download_click. simpl.
    destruct (truthy (results s)); [|done]. by destruct (js_get (results s) key).
Qed.

Lemma generate_failure_keeps_stale_results_witness :
  (handleSubmit_resume (Err NetworkFailure) (set_loading (c_page ex_config) true)
      (send (generateDocuments (formData (c_page ex_config))) (c_world ex_config))).1
    = c_page ex_config ∧
  ∀ key name w', (λ x, (x.1.2, x.2)) <$> download_click key name (set_loading (c_page ex_config) true) w'
                 = (λ x, (x.1.2, x.2)) <$> download_click key name (c_page ex_config) w'.
Proof.
  apply (generate_failure_keeps_stale_results (c_page ex_config) (c_world ex_config)
           _ _ (generateDocuments (formData (c_page ex_config)))); reflexivity.
Defined.

(** C19: Download of [undefined] (finding): when the generation answered
    2xx with a body that is not JSON, [results] is that text; it is
    truthy, so the Download CV button is shown, and clicking it requests
    [/download/undefined]. *)
Theorem generate_download_undefined s w t :
  results s = JStr t → t ≠ "" →
  fire DownloadCV s w = Some (s, send (downloadFile JUndefined) w, (downloadFile JUndefined, KDownload "CV.docx")) ∧
  req_url (downloadFile JUndefined) = "http://localhost:8080/download/undefined".
Proof.
  intros Hr Ht. split; [|reflexivity].
  simpl. unfold download_click. rewrite Hr.
  assert (truthy (JStr t) = true) as -> by (by apply truthy_str). reflexivity.
Qed.

Lemma generate_download_undefined_witness :
  fire DownloadCV (set_results initial (JStr "Internal Server Error")) world0
  = Some (set_results initial (JStr "Internal Server Error"), send (downloadFile JUndefined) world0,
          (downloadFile JUndefined, KDownload "CV.docx")) ∧
  req_url (downloadFile JUndefined) = "http://localhost:8080/download/undefined".
Proof. by apply (generate_download_undefined _ world0 "Internal Server Error"). Defined.

(** C3: Single flight of the generation: exactly one [generateDocuments]
    request is in flight while [loading] is set and none otherwise,
    however many downloads run beside it. *)
Theorem generate_single_flight es c :
  run es (init initial) = Some c →
  length (filter (λ rk, rk.2 = KSubmit) (c_inflight c)) = if loading (c_page c) then 1 else 0.
Proof.
  intros Hrun. apply (run_single_flight (PL := gd_page_laws)) in Hrun; [|reflexivity].
  unfold single_flight, guarded_inflight in Hrun. simpl in Hrun. rewrite <- Hrun.
  f_equal. apply list_filter_iff. intros [r [|name]]; simpl; naive_solver.
Qed.

Lemma generate_single_flight_witness :
  length (filter (λ rk, rk.2 = KSubmit) (c_inflight ex_config))
  = if loading (c_page ex_config) then 1 else 0.
Proof. apply (generate_single_flight ex_events). reflexivity. Defined.

(** C28: Never stuck pending (spec section 8): from any reachable
    configuration, whatever the network answers, settling the awaits in
    flight one by one is always possible and ends with nothing in flight,
    [loading] cleared, no further request sent and one toast per
    settlement. *)
Theorem generate_settles_to_idle es c os :
  run es (init initial) = Some c → length os = length (c_inflight c) →
  ∃ c', run (es ++ map (λ o, ESettle 0 o) os) (init initial) = Some c' ∧
    c_inflight c' = [] ∧ loading (c_page c') = false ∧
    sent (c_world c') = sent (c_world c) ∧
    length (toasts (c_world c')) = length (toasts (c_world c)) + length os.
Proof.
  intros Hrun Hlen.
  destruct (run_drain (PL := gd_page_laws) c os Hlen) as (c' & Hd & Hfl & Hs & Ht).
  assert (run (es ++ map (λ o, ESettle 0 o) os) (init initial) = Some c') as Hall.
  { by rewrite run_app, Hrun. }
  exists c'. split_and!; try done.
  change (pg_loading (c_page c') = false). apply single_flight_idle; [|done].
  apply (run_single_flight (PL := gd_page_laws)) in Hall; [done|reflexivity].
Qed.

Lemma generate_settles_to_idle_witness :
  run ex_busy_events (init initial) = Some ex_busy ∧
  length (c_inflight ex_busy) = 3 ∧ loading (c_page ex_busy) = true ∧
  ∃ c', run (ex_busy_events ++ map (λ o, ESettle 0 o) [ex_blob_reply; ex_404; ex_gen_reply])
          (init initial) = Some c' ∧
    c_inflight c' = [] ∧ loading (c_page c') = false ∧
    sent (c_world c') = sent (c_world ex_busy) ∧
    length (toasts (c_world c')) = length (toasts (c_world ex_busy)) + 3.
Proof.
  split_and!; [reflexivity..|].
  apply (generate_settles_to_idle ex_busy_events ex_busy); reflexivity.
Defined.

(** C29: Every request the generation page sends, in any run, goes to
    the origin of [API_BASE_URL], also the downloads whose file names
    come from the service's answer. *)
Theorem generate_requests_same_origin es c :
  run es (init initial) = Some c →
  Forall (λ r, String.prefix (API_BASE_URL +:+ "/") (req_url r) = true) (sent (c_world c)).
Proof.
  apply (run_world_inv (λ w, Forall (λ r, String.prefix (API_BASE_URL +:+ "/") (req_url r) = true)
                                  (sent w))).
  - intros t s w s' w' [r k] Hw Hf. simpl in Hf.
    rewrite (proj1 (fire_world (PageLaws := gd_page_laws) _ _ _ _ _ _ _ Hf)).
    apply Forall_app; split; [done|]. apply Forall_singleton.
    destruct (fire_request _ _ _ _ _ _ _ Hf) as [[u ->]|[f ->]];
      [apply (api_requests_origin u JNull) | apply (api_requests_origin empty_form f)].
  - intros [].
  - intros k res s w Hw. by rewrite (proj1 (resume_world (PageLaws := gd_page_laws) k res s w)).
  - constructor.
Qed.

Lemma generate_requests_same_origin_witness :
  run ex_busy_events (init initial) = Some ex_busy ∧
  Forall (λ r, String.prefix (API_BASE_URL +:+ "/") (req_url r) = true) (sent (c_world ex_busy)).
Proof. split; [reflexivity|]. apply (generate_requests_same_origin ex_busy_events). reflexivity. Defined.

(** C14: Reported exactly once on the generation page: one request per
    dispatched click (generation or download) and one toast per
    settlement. *)
Theorem generate_reports_once es c :
  run es (init initial) = Some c →
  length (sent (c_world c)) = n_fires es ∧
  length (toasts (c_world c)) = n_settles es ∧
  length (c_inflight c) + n_settles es = n_fires es.
Proof.
  intros Hrun. pose proof (run_accounting (PL := gd_page_laws) _ _ _ Hrun) as [H1 H2].
  rewrite (run_toasts (PL := gd_page_laws) _ _ _ (λ (j : Empty_set), match j with end) Hrun). simpl in *. lia.
Qed.

Lemma generate_reports_once_witness :
  length (sent (c_world ex_config)) = n_fires ex_events ∧
  length (toasts (c_world ex_config)) = n_settles ex_events ∧
  length (c_inflight ex_config) + n_settles ex_events = n_fires ex_events.
Proof. apply generate_reports_once. reflexivity. Defined.

(** What the page offers is what the model dispatches: in every
    state the page renders, an action is available on the screen (the
    submit of a form whose button is enabled and whose controls pass the
    browser's constraint validation, or a Download button) exactly when
    the page's handler for it runs ([fire] is defined). *)
Theorem generate_view_dispatch s vs t w :
  view s = Ok vs → (t ∈ actions vs ↔ is_Some (fire t s w)).
Proof.
  intros H. unfold view in H.
  destruct (results_view (results s)) as [res|] eqn:R; cbn [mbind result_bind] in H; [|discriminate].
  remember (form_fields (formData s)) as ff eqn:Hff.
  injection H as <-.
  unfold actions. view_collect. fold (actions res) (actions ff).
  rewrite has_enabled_submit_app, forallb_control_valid_app, (results_view_actions _ _ R).
  subst ff. destruct (gd_form_inert (formData s)) as [-> ->]. rewrite gd_form_valid, fire_Some.
  unfold submit_enabled. destruct (loading s), (form_valid (formData s)), (truthy (results s)), t;
    apply (bool_decide_unpack _); vm_compute; reflexivity.
Qed.

Lemma generate_view_dispatch_witness :
  view (c_page ex_config) = Ok (result_catch (view (c_page ex_config)) (λ _, [])) ∧
  (DownloadCV ∈ actions (result_catch (view (c_page ex_config)) (λ _, []))
   ↔ is_Some (fire DownloadCV (c_page ex_config) (c_world ex_config))).
Proof.
  split; [reflexivity|]. apply generate_view_dispatch. reflexivity.
Defined.

End GenerateDocuments.
