(* ===== verification/Settings.v ===== *)
(** * The settings page: [src/pages/Settings.tsx]

    The page reads [theme] and [toggleTheme] from the theme context
    (line 12), shows a dark-mode switch bound to them (lines 53-57), four
    uncontrolled inputs (API key, backend URL with default value
    [http://localhost:8080], display name, e-mail; lines 70-117) and a
    Save button whose [onClick] is [handleSave] (lines 14-19, 124).
    [handleSave] only shows a toast: nothing reads the inputs, nothing is
    sent or stored, and the transport keeps its compiled-in base URL.

    The page has no [async] handler: it is an instance of the runtime's
    [Page] interface whose trigger and continuation types are empty.  The
    state record holds the theme the context provides and the values the
    four DOM inputs hold (they are uncontrolled, so React never sees
    them).  [view] (lines 21-131) is the page's JSX: the dark-mode
    switch, the four labelled inputs and the Save button. *)

From S2P Require Import Prelude Json Transport Browser View Runtime.
Import Axios View.
Open Scope list_scope.

Module Settings.

(** The theme of [ThemeContext] (the provider is not among the sources:
    it is modelled from its use, [theme === 'dark'] and [toggleTheme]). *)
Inductive theme_t : Type := Light | Dark.

#[export] Instance theme_t_eq_dec : EqDecision theme_t.
Proof. solve_decision. Defined.

Definition toggleTheme (t : theme_t) : theme_t :=
  match t with Light => Dark | Dark => Light end.

Record state : Type := {
  theme : theme_t;
  apiKey : string;        (** [#api-key] *)
  backendUrl : string;    (** [#backend-url] *)
  displayName : string;   (** [#display-name] *)
  userEmail : string      (** [#email] *)
}.

Definition initial (t : theme_t) : state :=
  {| theme := t; apiKey := ""; backendUrl := "http://localhost:8080";
     displayName := ""; userEmail := "" |}.

(** What the user types into the uncontrolled inputs. *)
Inductive input : Type :=
| SetApiKey (v : string)
| SetBackendUrl (v : string)
| SetDisplayName (v : string)
| SetEmail (v : string).

Definition on_input (i : input) (s : state) : state :=
  match i with
  | SetApiKey v => {| theme := theme s; apiKey := v; backendUrl := backendUrl s;
                      displayName := displayName s; userEmail := userEmail s |}
  | SetBackendUrl v => {| theme := theme s; apiKey := apiKey s; backendUrl := v;
                          displayName := displayName s; userEmail := userEmail s |}
  | SetDisplayName v => {| theme := theme s; apiKey := apiKey s; backendUrl := backendUrl s;
                           displayName := v; userEmail := userEmail s |}
  | SetEmail v => {| theme := theme s; apiKey := apiKey s; backendUrl := backendUrl s;
                     displayName := displayName s; userEmail := v |}
  end.

(** [checked={theme === 'dark'}] *)
Definition dark_mode_checked (s : state) : bool := bool_decide (theme s = Dark).

(** The synchronous handlers: the switch's [onCheckedChange={toggleTheme}]
    and the Save button's [onClick={handleSave}]. *)
Inductive sync_event : Type := ToggleDarkMode | SaveClick.

Definition set_theme (s : state) (t : theme_t) : state :=
  {| theme := t; apiKey := apiKey s; backendUrl := backendUrl s;
     displayName := displayName s; userEmail := userEmail s |}.

Definition saved_toast : toast :=
  {| t_title := "Settings Saved";
     t_description := JStr "Your preferences have been updated successfully.";
     t_variant := VDefault |}.

(** [handleSave]: [toast({ title: 'Settings Saved', description: ... })] *)
Definition handleSave (s : state) (w : world) : state * world :=
  (s, show_toast saved_toast w).

Definition on_sync (j : sync_event) (s : state) (w : world) : option (state * world) :=
  match j with
  | ToggleDarkMode => Some (set_theme s (toggleTheme (theme s)), w)
  | SaveClick => Some (handleSave s w)
  end.

#[export] Instance page : Page state Empty_set input sync_event Empty_set := {|
  pg_loading := λ _, false;
  pg_input := on_input;
  pg_sync := on_sync;
  pg_fire := λ (t : Empty_set) _ _, match t with end;
  pg_resume := λ (k : Empty_set) _ _ _, match k with end;
  pg_guarded := λ (k : Empty_set), match k with end
|}.

Definition is_save (e : event Empty_set input sync_event) : bool :=
  match e with ESync SaveClick => true | _ => false end.
Definition is_toggle (e : event Empty_set input sync_event) : bool :=
  match e with ESync ToggleDarkMode => true | _ => false end.
Definition is_input (e : event Empty_set input sync_event) : bool :=
  match e with EInput _ => true | _ => false end.

Definition n_saves (es : list (event Empty_set input sync_event)) : nat :=
  length (filter (λ e, is_save e = true) es).
Definition n_toggles (es : list (event Empty_set input sync_event)) : nat :=
  length (filter (λ e, is_toggle e = true) es).

(** ** What the page renders (lines 21-131)

    The inputs are uncontrolled: what they show is the DOM value, which
    the state record holds. *)
Definition view (s : state) : list (node sync_event) :=
  [NBox "div" [NBox "motion.div"
     [NBox "div" [NBox "h1" [NText "Settings"];
                  NBox "p" [NText "Manage your preferences and account settings"]];
      GlassCard
        [NBox "div" [NBox "h2" [NText "Appearance"]];
         NBox "div" [NBox "div" [NLabel "dark-mode" [NText "Dark Mode"];
                                 NBox "p" [NText "Toggle between light and dark theme"]];
                     NSwitch "dark-mode" (dark_mode_checked s) ToggleDarkMode]];
      GlassCard
        [NBox "div" [NBox "h2" [NText "API Configuration"]];
         NBox "div"
           [NBox "div" [NLabel "api-key" [NText "API Key (Optional)"];
                        NInput "api-key" "password" (apiKey s) false;
                        NBox "p" [NText "Configure your custom API key for enhanced features"]];
            NBox "div" [NLabel "backend-url" [NText "Backend URL"];
                        NInput "backend-url" "text" (backendUrl s) false;
                        NBox "p" [NText "URL of the FastAPI backend server"]]]];
      GlassCard
        [NBox "div" [NBox "h2" [NText "Profile Information"]];
         NBox "div"
           [NBox "div" [NLabel "display-name" [NText "Display Name"];
                        NInput "display-name" "text" (displayName s) false];
            NBox "div" [NLabel "email" [NText "Email"];
                        NInput "email" "email" (userEmail s) false]]];
      NButton (BClick SaveClick) false [NText "Save Settings"]]]].

(** ** Example run *)

Definition ex_events : list (event Empty_set input sync_event) :=
  [EInput (SetBackendUrl "https://api.example.com"); EInput (SetApiKey "sk-1");
   ESync ToggleDarkMode; ESync SaveClick].

(** ** Lemmas *)

Lemma settings_page_laws : PageLaws page.
Proof.
  split; simpl; try by intros [].
  intros [] s w s' w'; simpl; by intros [= <- <-].
Qed.

Lemma on_input_theme i s : theme (on_input i s) = theme s.
Proof. by destruct i. Qed.

(** One step from a configuration with nothing in flight. *)
Lemma settings_step e (c c' : config state Empty_set) :
  c_inflight c = [] → step e c = Some c' →
  c_inflight c' = [] ∧
  c_world c' = (if is_save e then show_toast saved_toast (c_world c) else c_world c) ∧
  theme (c_page c') = (if is_toggle e then toggleTheme (theme (c_page c)) else theme (c_page c)).
Proof.
  intros Hfl Hs. apply step_Some_inv in Hs.
  destruct e as [i|[]|[]|n o]; simpl in *.
  - subst c'. simpl. by rewrite on_input_theme.
  - destruct Hs as [[= <- <-] ->]. naive_solver.
  - destruct Hs as [[= <- <-] ->]. naive_solver.
  - destruct Hs as (r & k & Hn & _). by rewrite Hfl in Hn.
Qed.

Lemma show_toast_replicate w n :
  Nat.iter n (show_toast saved_toast) w
  = with_toasts w (toasts w ++ replicate n saved_toast).
Proof.
  induction n as [|n IH]; simpl.
  - rewrite app_nil_r. by destruct w.
  - rewrite IH. unfold show_toast, with_toasts; simpl.
    by rewrite <- app_assoc, <- replicate_cons_app.
Qed.

(** The world after a run from a configuration with nothing in flight. *)
Lemma settings_run es (c c' : config state Empty_set) :
  c_inflight c = [] → run es c = Some c' →
  c_inflight c' = [] ∧
  c_world c' = Nat.iter (n_saves es) (show_toast saved_toast) (c_world c) ∧
  theme (c_page c') = Nat.iter (n_toggles es) toggleTheme (theme (c_page c)).
Proof.
  unfold n_saves, n_toggles. revert c.
  induction es as [|e es IH]; intros c Hfl Hrun.
  - by injection Hrun as <-.
  - apply run_cons in Hrun as (c1 & H1 & H2).
    destruct (settings_step e c c1 Hfl H1) as (Hfl1 & Hw & Ht).
    destruct (IH c1 Hfl1 H2) as (? & -> & ->). rewrite !filter_cons.
    split; [done|]. rewrite Hw, Ht.
    destruct e as [i|[]|[]|n o]; simpl; rewrite ?decide_True, ?decide_False by done; simpl.
    all: split; try done; by rewrite Nat.iter_swap.
Qed.

Lemma n_saves_inputs es :
  n_saves (filter (λ e, is_input e = false) es) = n_saves es.
Proof.
  unfold n_saves. rewrite list_filter_filter.
  f_equal. apply list_filter_iff. intros [i|[]|[]|n o]; simpl; naive_solver.
Qed.

Lemma n_toggles_inputs es :
  n_toggles (filter (λ e, is_input e = false) es) = n_toggles es.
Proof.
  unfold n_toggles. rewrite list_filter_filter.
  f_equal. apply list_filter_iff. intros [i|[]|[]|n o]; simpl; naive_solver.
Qed.

Lemma settings_view_ids s :
  input_ids (view s) = ["dark-mode"; "api-key"; "backend-url"; "display-name"; "email"] ∧
  label_targets (view s) = ["dark-mode"; "api-key"; "backend-url"; "display-name"; "email"] ∧
  links (view s) = [].
Proof. unfold view, input_ids, label_targets, links. view_collect. done. Qed.

(** The page offers its switch and its Save button, in every state. *)
Lemma settings_view_actions s : actions (view s) = [ToggleDarkMode; SaveClick].
Proof. unfold view, actions. view_collect. done. Qed.

(** ** Properties *)

(** Save changes nothing but the toast list (a finding): after any
    run of the settings page, nothing is in flight, no request was sent,
    no file saved and no clipboard written; the notification sink has one
    "Settings Saved" event per click on Save, and the theme has flipped
    once per click on the switch. *)
Theorem settings_save_noop s0 es c :
  run es (init s0) = Some c →
  c_inflight c = [] ∧
  c_world c = with_toasts world0 (replicate (n_saves es) saved_toast) ∧
  theme (c_page c) = Nat.iter (n_toggles es) toggleTheme (theme s0).
Proof.
  intros Hrun. destruct (settings_run es (init s0) _ eq_refl Hrun) as (Hfl & Hw & Ht).
  split_and!; [done| |done]. by rewrite Hw, show_toast_replicate.
Qed.

Lemma settings_save_noop_witness :
  run ex_events (init (initial Light)) = Some (default (init (initial Light)) (run ex_events (init (initial Light)))) ∧
  c_world (default (init (initial Light)) (run ex_events (init (initial Light))))
  = with_toasts world0 [saved_toast].
Proof.
  split; [reflexivity|].
  apply (settings_save_noop (initial Light) ex_events). reflexivity.
Defined.

(** C23: What is typed into the settings inputs (API key, backend URL,
    display name, e-mail) has no effect: two runs that differ only in
    their input events leave the same world and the same theme. *)
Theorem settings_inputs_ignored s0 es1 es2 c1 c2 :
  run es1 (init s0) = Some c1 → run es2 (init s0) = Some c2 →
  filter (λ e, is_input e = false) es1 = filter (λ e, is_input e = false) es2 →
  c_world c1 = c_world c2 ∧ theme (c_page c1) = theme (c_page c2).
Proof.
  intros H1 H2 Hf.
  destruct (settings_run es1 (init s0) _ eq_refl H1) as (_ & -> & ->).
  destruct (settings_run es2 (init s0) _ eq_refl H2) as (_ & -> & ->).
  by rewrite <- n_saves_inputs, Hf, n_saves_inputs,
    <- n_toggles_inputs, Hf, n_toggles_inputs.
Qed.

Lemma settings_inputs_ignored_witness :
  c_world (default (init (initial Light)) (run ex_events (init (initial Light))))
  = c_world (default (init (initial Light))
               (run [ESync ToggleDarkMode; ESync SaveClick] (init (initial Light)))) ∧
  theme (c_page (default (init (initial Light)) (run ex_events (init (initial Light)))))
  = theme (c_page (default (init (initial Light))
               (run [ESync ToggleDarkMode; ESync SaveClick] (init (initial Light))))).
Proof.
  apply (settings_inputs_ignored (initial Light) ex_events [ESync ToggleDarkMode; ESync SaveClick]);
    reflexivity.
Defined.

End Settings.
