(* ===== verification/Routing.v ===== *)
(** * Routing and navigation: [src/App.tsx], [src/components/Navbar.tsx],
      [src/components/AppSidebar.tsx] and the links of the pages

    [AppContent] (App.tsx lines 20-52) renders the navbar and, unless the
    path is exactly ["/"], the sidebar layout with the application routes
    (lines 33-40); on ["/"] it renders the landing routes (lines 45-48).
    Which element a [<Routes>] renders is decided by react-router's
    matcher, which is not code of the repository; it is modelled from its
    documented behaviour (v6 [matchRoutes]/[matchPath] with the default
    options): a static pattern is compiled to the regular expression
    [^/<path>\/*$] with the case-insensitive flag, the splat ["*"] matches
    every path, and a matching static route outranks the splat.

    The links of the interface are data of the sources: the navbar's
    ([Navbar.tsx] lines 14, 27, 33, 56), the sidebar's [items] (AppSidebar
    lines 15-21), the dashboard's [quickActions] (Dashboard.tsx lines
    21-43) and the landing page's (Landing.tsx lines 75, 81, 155).
    Following a link makes its [to] the new path.  The sidebar's
    [NavLink]s are highlighted by react-router's [isActive] (the path is
    the link's [to] or continues it with a slash, ignoring case). *)

From S2P Require Import Prelude.
Open Scope list_scope.

Module Routing.

(** The elements the routes render. *)
Inductive page_id : Type :=
| PLanding | PDashboard | PGenerate | PApply | PProfile | PSettings | PNotFound.

#[export] Instance page_id_eq_dec : EqDecision page_id.
Proof. solve_decision. Defined.

(** [<Route path=... element=... />] *)
Record route : Type := Route { path : string; element : page_id }.

#[export] Instance route_eq_dec : EqDecision route.
Proof. solve_decision. Defined.

(** The [<Routes>] of the sidebar layout (App.tsx lines 33-40). *)
Definition app_routes : list route :=
  [Route "/dashboard" PDashboard; Route "/generate" PGenerate; Route "/apply" PApply;
   Route "/profile" PProfile; Route "/settings" PSettings; Route "*" PNotFound].

(** The [<Routes>] of the landing layout (App.tsx lines 45-48). *)
Definition landing_routes : list route := [Route "/" PLanding; Route "*" PNotFound].

(** ** The matcher of react-router *)

Definition lower_char (c : ascii) : ascii :=
  let n := nat_of_ascii c in
  if Nat.leb 65 n && Nat.leb n 90 then ascii_of_nat (n + 32) else c.

Definition is_slash (c : ascii) : bool := bool_decide (c = "/"%char).

Fixpoint drop_slashes (l : list ascii) : list ascii :=
  match l with
  | c :: l' => if is_slash c then drop_slashes l' else l
  | [] => []
  end.

(** [compilePath]: [path.replace(/\/*\*?$/, "").replace(/^\/*/, "/")]
    (no pattern of the sources ends in ["*"] but the splat itself). *)
Definition compile_path (p : string) : list ascii :=
  "/"%char :: drop_slashes (reverse (drop_slashes (reverse (String.list_ascii_of_string p)))).

(** [matchPath({ path, caseSensitive: false, end: true }, pathname)]:
    the regular expression [^<compiled>\/*$] with flag [i]. *)
Definition matchPath (pattern pathname : string) : bool :=
  let pat := map lower_char (compile_path pattern) in
  let pn := map lower_char (String.list_ascii_of_string pathname) in
  bool_decide (take (length pat) pn = pat) && forallb is_slash (drop (length pat) pn).

Definition is_splat (r : route) : bool := bool_decide (path r = "*").

Fixpoint first_match (f : route → bool) (rs : list route) : option route :=
  match rs with
  | r :: rs' => if f r then Some r else first_match f rs'
  | [] => None
  end.

(** [matchRoutes] ranks the routes: a matching static route first, the
    splat otherwise; [None] when nothing matches (nothing is rendered). *)
Definition matchRoutes (rs : list route) (pathname : string) : option page_id :=
  match first_match (λ r, negb (is_splat r) && matchPath (path r) pathname) rs with
  | Some r => Some (element r)
  | None => element <$> first_match is_splat rs
  end.

(** ** [AppContent] *)

Inductive layout : Type := SidebarLayout | PlainLayout.

#[export] Instance layout_eq_dec : EqDecision layout.
Proof. solve_decision. Defined.

Definition isLandingPage (pathname : string) : bool := bool_decide (pathname = "/").

Definition AppContent (pathname : string) : layout * option page_id :=
  if negb (isLandingPage pathname) then (SidebarLayout, matchRoutes app_routes pathname)
  else (PlainLayout, matchRoutes landing_routes pathname).

(** ** The links *)

(** [Navbar]: the logo links to ["/"]; Dashboard and Settings off the
    landing page; Get Started on it. *)
Definition navbar_links (pathname : string) : list string :=
  ["/"] ++ (if negb (isLandingPage pathname) then ["/dashboard"; "/settings"] else [])
  ++ (if isLandingPage pathname then ["/dashboard"] else []).

(** [items] of [AppSidebar]: title and url. *)
Definition sidebar_items : list (string * string) :=
  [("Dashboard", "/dashboard"); ("Generate Documents", "/generate");
   ("Apply to Jobs", "/apply"); ("Update Profile", "/profile"); ("Settings", "/settings")].

(** [quickActions] of the dashboard: their [href]s. *)
Definition quickActions : list string := ["/generate"; "/apply"; "/profile"].

(** The [<Link>]s of the landing page. *)
Definition landing_links : list string := ["/generate"; "/dashboard"; "/dashboard"].

(** Every link on the screen at [pathname]: the navbar's, the sidebar's
    when the sidebar layout is shown, and those of the rendered page. *)
Definition links_on (pathname : string) : list string :=
  let '(lay, pg) := AppContent pathname in
  navbar_links pathname
  ++ (if bool_decide (lay = SidebarLayout) then map snd sidebar_items else [])
  ++ match pg with
     | Some PDashboard => quickActions
     | Some PLanding => landing_links
     | _ => []
     end.

(** [<NavLink to>]'s [isActive] (react-router, [end] and
    [caseSensitive] false): the path is [to] or continues it with a
    slash, ignoring case. *)
Definition navlink_isActive (to pathname : string) : bool :=
  let tp := map lower_char (String.list_ascii_of_string to) in
  let loc := map lower_char (String.list_ascii_of_string pathname) in
  let endSlashPosition :=
    if bool_decide (tp ≠ ["/"%char]) && bool_decide (last tp = Some "/"%char)
    then length tp - 1 else length tp in
  bool_decide (loc = tp)
  || (bool_decide (take (length tp) loc = tp) && bool_decide (loc !! endSlashPosition = Some "/"%char)).

(** The sidebar items highlighted at [pathname]
    ([className={({ isActive }) => ...}], AppSidebar lines 37-44). *)
Definition sidebar_active (pathname : string) : list (string * string) :=
  filter (λ it, navlink_isActive it.2 pathname = true) sidebar_items.

(** The paths the links of the sources point to. *)
Definition link_targets : list string :=
  ["/"; "/dashboard"; "/settings"; "/generate"; "/apply"; "/profile"].

(** ** Lemmas *)

Lemma first_match_Some f rs r :
  first_match f rs = Some r → r ∈ rs ∧ f r = true.
Proof.
  induction rs as [|r' rs IH]; simpl; [discriminate|].
  destruct (f r') eqn:E; [intros [= <-]; split; [left|done]|].
  intros H. destruct (IH H). split; [by right|done].
Qed.

Lemma first_match_None f rs :
  first_match f rs = None ↔ ∀ r, r ∈ rs → f r = false.
Proof.
  induction rs as [|r' rs IH]; simpl.
  - split; [|done]. intros _ r Hr. by apply elem_of_nil in Hr.
  - setoid_rewrite elem_of_cons. destruct (f r') eqn:E.
    + split; [discriminate|]. intros H. by rewrite (H r') in E by (by left).
    + rewrite IH. split.
      * intros H r [->|Hr]; auto.
      * intros H r Hr. apply H. by right.
Qed.

(** When at most one route satisfies [f], which one [first_match] finds
    does not depend on the order of the routes. *)
Lemma first_match_perm f rs rs' :
  (∀ r1 r2, r1 ∈ rs → r2 ∈ rs → f r1 = true → f r2 = true → r1 = r2) →
  rs ≡ₚ rs' → first_match f rs = first_match f rs'.
Proof.
  intros Huniq Hp. destruct (first_match f rs) as [r|] eqn:E.
  - apply first_match_Some in E as [Hin Hf].
    destruct (first_match f rs') as [r'|] eqn:E'.
    + apply first_match_Some in E' as [Hin' Hf']. rewrite <- Hp in Hin'.
      f_equal. eauto.
    + rewrite first_match_None in E'. rewrite Hp in Hin. by rewrite E' in Hf.
  - symmetry. rewrite first_match_None in E |- *. intros r Hr. apply E. by rewrite Hp.
Qed.

Lemma matchPath_char p pn i :
  matchPath p pn = true → i < length (map lower_char (compile_path p)) →
  map lower_char (compile_path p) !! i = map lower_char (String.list_ascii_of_string pn) !! i.
Proof.
  unfold matchPath. intros [Ht _]%andb_prop Hi. apply bool_decide_eq_true in Ht.
  rewrite <- Ht at 1. by apply lookup_take_lt.
Qed.

Lemma forallb_is_slash k : forallb is_slash (replicate k "/"%char) = true.
Proof. induction k; simpl; [done|]. by rewrite IHk. Qed.



Lemma app_routes_splat_unique r1 r2 :
  r1 ∈ app_routes → r2 ∈ app_routes → is_splat r1 = true → is_splat r2 = true → r1 = r2.
Proof.
  intros H1 H2 S1 S2.
  unfold app_routes in H1, H2.
  elem_cases H1; elem_cases H2;
  try done; try (vm_compute in S1; discriminate S1); vm_compute in S2; discriminate S2.
Qed.

Lemma links_on_targets pn u : u ∈ links_on pn → u ∈ link_targets.
Proof.
  unfold links_on, navbar_links, link_targets, quickActions, landing_links.
  destruct (AppContent pn) as [lay pg].
  destruct (isLandingPage pn), (bool_decide (lay = SidebarLayout)), pg as [[]|]; simpl;
    set_solver.
Qed.

(** A static route of the sidebar layout has a pattern longer than ["/"]. *)
Lemma app_routes_static_length r :
  r ∈ app_routes → is_splat r = false → (2 ≤ length (map lower_char (compile_path (path r))))%nat.
Proof.
  intros Hr Hs. unfold app_routes in Hr.
  elem_cases Hr; vm_compute; try lia; vm_compute in Hs; discriminate Hs.
Qed.

(** The static routes of the sidebar layout differ in their first letter. *)
Lemma app_routes_first_letter r1 r2 :
  r1 ∈ app_routes → r2 ∈ app_routes → is_splat r1 = false → is_splat r2 = false →
  map lower_char (compile_path (path r1)) !! 1 = map lower_char (compile_path (path r2)) !! 1 →
  r1 = r2.
Proof.
  intros H1 H2 S1 S2 C. unfold app_routes in H1, H2.
  elem_cases H1; elem_cases H2;
  try done; try (vm_compute in S1; discriminate S1); try (vm_compute in S2; discriminate S2);
  vm_compute in C; discriminate C.
Qed.

(** The letter of a path at index 1, when it continues a static route. *)
Lemma matchPath_first_letter r pn :
  r ∈ app_routes → is_splat r = false → matchPath (path r) pn = true →
  map lower_char (compile_path (path r)) !! 1 = map lower_char (String.list_ascii_of_string pn) !! 1.
Proof.
  intros Hr Hs Hm. apply matchPath_char; [done|].
  pose proof (app_routes_static_length r Hr Hs). lia.
Qed.

(** So at most one static route matches a path. *)
Lemma app_routes_unique pn r1 r2 :
  r1 ∈ app_routes → r2 ∈ app_routes →
  negb (is_splat r1) && matchPath (path r1) pn = true →
  negb (is_splat r2) && matchPath (path r2) pn = true → r1 = r2.
Proof.
  intros H1 H2 [S1 M1]%andb_prop [S2 M2]%andb_prop.
  apply negb_true_iff in S1, S2. apply app_routes_first_letter; [done..|].
  by rewrite (matchPath_first_letter r1 pn), (matchPath_first_letter r2 pn).
Qed.

(** Off ["/"], the sidebar layout renders what its routes match. *)
Lemma AppContent_sidebar u :
  (2 ≤ length (map lower_char (String.list_ascii_of_string u)))%nat →
  AppContent u = (SidebarLayout, matchRoutes app_routes u).
Proof.
  intros Hlen. unfold AppContent, isLandingPage.
  rewrite (bool_decide_eq_false_2 (u = "/")); [done|]. intros ->. simpl in Hlen. lia.
Qed.

(** A path that continues a static route's pattern with nothing or with a
    slash highlights exactly that route's sidebar item. *)
Lemma sidebar_active_route r u l :
  r ∈ app_routes → is_splat r = false →
  map lower_char (String.list_ascii_of_string u) = map lower_char (compile_path (path r)) ++ l →
  head l = None ∨ head l = Some "/"%char →
  map snd (sidebar_active u) = [path r].
Proof.
  intros Hr Hs Hu Hl. unfold sidebar_active, navlink_isActive. cbv zeta. rewrite Hu.
  unfold app_routes in Hr.
  destruct l as [|c l]; [|destruct Hl as [Hl|Hl]; simplify_eq/=];
  elem_cases Hr; try (vm_compute in Hs; discriminate Hs); vm_compute; reflexivity.
Qed.

(** ** Properties *)

(** C24: No dead links: every link shown on any screen of the client
    (navbar, sidebar, dashboard quick actions, landing page) leads to a
    page of the application, never to NotFound. *)
Theorem routing_links_resolve pn u :
  u ∈ links_on pn → ∃ lay p, AppContent u = (lay, Some p) ∧ p ≠ PNotFound.
Proof.
  intros Hu%links_on_targets. unfold link_targets in Hu.
  elem_cases Hu; eexists _, _; (split; [vm_compute; reflexivity|discriminate]).
Qed.

Lemma routing_links_resolve_witness :
  "/settings" ∈ links_on "/dashboard" ∧
  ∃ lay p, AppContent "/settings" = (lay, Some p) ∧ p ≠ PNotFound.
Proof.
  assert ("/settings" ∈ links_on "/dashboard") as H.
  { apply (bool_decide_unpack _). vm_compute. reflexivity. }
  split; [exact H|]. exact (routing_links_resolve "/dashboard" "/settings" H).
Defined.

(** C25: The static routes of the sidebar layout are unambiguous: the page
    rendered for a path does not depend on the order in which the routes
    are listed. *)
Theorem routing_order_irrelevant rs pn :
  rs ≡ₚ app_routes → matchRoutes rs pn = matchRoutes app_routes pn.
Proof.
  intros Hp. unfold matchRoutes.
  rewrite (first_match_perm _ rs app_routes), (first_match_perm is_splat rs app_routes);
    try done; intros r1 r2 H1 H2; rewrite Hp in H1, H2.
  - by apply app_routes_splat_unique.
  - by apply app_routes_unique.
Qed.

Lemma routing_order_irrelevant_witness :
  matchRoutes (reverse app_routes) "/Apply/" = matchRoutes app_routes "/Apply/".
Proof. apply routing_order_irrelevant. apply reverse_Permutation. Defined.

(** C26: A path that is a route's pattern up to letter case and trailing
    slashes renders that route's page in the sidebar layout, with exactly
    that route's sidebar item highlighted. *)
Theorem routing_canonical r u k :
  r ∈ app_routes → is_splat r = false →
  map lower_char (String.list_ascii_of_string u)
  = map lower_char (compile_path (path r)) ++ replicate k "/"%char →
  AppContent u = (SidebarLayout, Some (element r)) ∧ map snd (sidebar_active u) = [path r].
Proof.
  intros Hr Hs Hu. split; [|apply (sidebar_active_route r u _ Hr Hs Hu); destruct k; auto].
  assert (matchPath (path r) u = true) as Hm.
  { unfold matchPath. rewrite Hu, take_app_length, drop_app_length, forallb_is_slash.
    by rewrite bool_decide_eq_true_2. }
  rewrite AppContent_sidebar.
  2:{ rewrite Hu, length_app. pose proof (app_routes_static_length r Hr Hs). lia. }
  unfold matchRoutes.
  destruct (first_match (λ r, negb (is_splat r) && matchPath (path r) u) app_routes)
    as [r'|] eqn:E.
  - apply first_match_Some in E as [Hin Hf]. do 3 f_equal.
    apply (app_routes_unique u); [done..|]. by rewrite Hs, Hm.
  - rewrite first_match_None in E. specialize (E r Hr). by rewrite Hs, Hm in E.
Qed.

Lemma routing_canonical_witness :
  AppContent "/Apply//" = (SidebarLayout, Some PApply) ∧ map snd (sidebar_active "/Apply//") = ["/apply"].
Proof.
  apply (routing_canonical (Route "/apply" PApply) "/Apply//" 2).
  - apply (bool_decide_unpack _). vm_compute. reflexivity.
  - reflexivity.
  - vm_compute. reflexivity.
Defined.

(** The sidebar is hidden exactly on ["/"], where the landing page is
    always rendered: the NotFound route of the landing layout
    (App.tsx line 47) is never reached. *)
Theorem routing_landing_only pn lay pg :
  AppContent pn = (lay, pg) →
  (lay = PlainLayout ↔ pn = "/") ∧ (lay = PlainLayout → pg = Some PLanding).
Proof.
  unfold AppContent, isLandingPage. case_bool_decide as Hpn; simpl; intros [= <- <-].
  - subst pn. split; [done|]. intros _. reflexivity.
  - split; [done|]. discriminate.
Qed.

Lemma routing_landing_only_witness :
  AppContent "/" = (PlainLayout, Some PLanding) ∧
  (PlainLayout = PlainLayout ↔ "/" = "/") ∧ (PlainLayout = PlainLayout → Some PLanding = Some PLanding).
Proof. split; [reflexivity|]. apply (routing_landing_only "/"). reflexivity. Defined.

(** C27: A path that continues a route's pattern with a further segment
    (e.g. [/settings/x]) renders NotFound, yet that route's sidebar item
    is highlighted (a finding: [NavLink] matches path prefixes, the routes
    match whole paths). *)
Theorem routing_subpath_notfound r u seg :
  r ∈ app_routes → is_splat r = false →
  map lower_char (String.list_ascii_of_string u)
  = map lower_char (compile_path (path r)) ++ "/"%char :: seg →
  forallb is_slash seg = false →
  AppContent u = (SidebarLayout, Some PNotFound) ∧ map snd (sidebar_active u) = [path r].
Proof.
  intros Hr Hs Hu Hseg. split; [|apply (sidebar_active_route r u _ Hr Hs Hu); auto].
  pose proof (app_routes_static_length r Hr Hs) as Hlen.
  rewrite AppContent_sidebar by (rewrite Hu, length_app; lia).
  unfold matchRoutes. rewrite (proj2 (first_match_None _ _)); [reflexivity|].
  intros r' Hr'. destruct (is_splat r') eqn:Hs'; [done|].
  destruct (matchPath (path r') u) eqn:Hm; [|done]. exfalso.
  assert (r' = r) as ->.
  { apply app_routes_first_letter; [done..|].
    rewrite (matchPath_first_letter r' u), Hu by done. apply lookup_app_l. lia. }
  revert Hm. unfold matchPath. rewrite Hu, take_app_length, drop_app_length. simpl.
  by rewrite Hseg, andb_false_r.
Qed.

Lemma routing_subpath_notfound_witness :
  AppContent "/settings/x" = (SidebarLayout, Some PNotFound) ∧
  map snd (sidebar_active "/settings/x") = ["/settings"].
Proof.
  apply (routing_subpath_notfound (Route "/settings" PSettings) "/settings/x" ["x"%char]).
  - apply (bool_decide_unpack _). vm_compute. reflexivity.
  - reflexivity.
  - vm_compute. reflexivity.
  - reflexivity.
Defined.

End Routing.
