(* ===== verification/Screens.v ===== *)
(** * The screens: [AppContent] of [src/App.tsx] with [Navbar], [AppSidebar],
      the [SidebarTrigger] and the page the route renders

    [screen pathname st] is the tree React renders at [pathname] when the
    four form pages have the states [st]: the navbar (Navbar.tsx lines
    11-62), then, off the landing page, the sidebar layout (App.tsx lines
    28-43) whose [<main>] holds the sidebar trigger and the routed page;
    on ["/"] the landing routes' page alone.  A page's tree is embedded
    with [node_map], which relabels its actions as [screen_action]s.  The
    dashboard ([Dashboard.tsx]) and the landing page ([Landing.tsx]) are
    static: their trees are written out from their JSX and their data
    arrays.  Icons (lucide-react), class names and animation props are not
    part of the tree.  [NotFound] is imported by App.tsx, but its file is
    not among the sources; it is rendered as an empty box.

    The theorems: every screen is well formed (each label names a control
    of the screen and no two controls share an id), and the links a
    screen renders are exactly [Routing.links_on], the list the routing
    theorems quantify over. *)

From S2P Require Import Prelude Json View Routing ApplyJob UpdateProfile GenerateDocuments Settings.
Import View Routing.
Open Scope list_scope.

Module Screens.

(** What a click on the screen does: toggle the theme (navbar), toggle
    the sidebar ([SidebarTrigger]), or an action of the routed page. *)
Inductive screen_action : Type :=
| SToggleTheme
| SToggleSidebar
| SApply (t : ApplyJob.trigger)
| SProfile (a : UpdateProfile.ui_action)
| SGen (t : GenerateDocuments.trigger)
| SSettings (e : Settings.sync_event).

(** [Navbar] (lines 11-62).  A [<Button asChild>] renders its [<Link>]. *)
Definition navbar_view (pathname : string) : list (node screen_action) :=
  let isLanding := isLandingPage pathname in
  [NBox "nav"
     [NBox "div"
        [NLink "/" [NBox "div" []; NBox "span" [NText "AI JobMate"]];
         NBox "div"
           ((if negb isLanding
             then [NLink "/dashboard" [NText "Dashboard"]; NLink "/settings" [NText "Settings"]]
             else [])
            ++ [NButton (BClick SToggleTheme) false []]
            ++ (if isLanding then [NLink "/dashboard" [NText "Get Started"]] else []))]]].

(** [AppSidebar] (lines 27-56): one [NavLink] per item, its title shown
    unless the sidebar is collapsed. *)
Definition sidebar_view (collapsed : bool) : list (node screen_action) :=
  [NBox "Sidebar"
     [NBox "SidebarContent"
        [NBox "SidebarGroup"
           [NBox "SidebarGroupLabel" [NText "Navigation"];
            NBox "SidebarGroupContent"
              [NBox "SidebarMenu"
                 (List.map (λ item, NBox "SidebarMenuItem"
                              [NLink item.2 (if collapsed then [] else [NBox "span" [NText item.1]])])
                    sidebar_items)]]]]].

(** ** The dashboard (Dashboard.tsx) *)

(** [stats] (lines 7-12): label and value. *)
Definition stats : list (string * string) :=
  [("Documents Generated", "12"); ("Applications Submitted", "8");
   ("Profile Views", "45"); ("Pending Applications", "3")].

(** [recentActivity] (lines 14-19): action and time. *)
Definition recentActivity : list (string * string) :=
  [("Generated CV for Software Engineer position", "2 hours ago");
   ("Applied to Senior Developer at Tech Corp", "5 hours ago");
   ("Updated LinkedIn profile summary", "1 day ago");
   ("Generated cover letter for Product Manager role", "2 days ago")].

(** [quickActions] (lines 21-43): title, description and href. *)
Definition dashboard_quickActions : list (string * string * string) :=
  [("Generate Documents", "Create CV and cover letter", "/generate");
   ("Apply to Jobs", "Auto-apply on LinkedIn", "/apply");
   ("Update Profile", "Optimize your LinkedIn", "/profile")].

(** [Dashboard] (lines 45-142). *)
Definition dashboard_view : list (node screen_action) :=
  [NBox "div"
     [NBox "motion.div"
        [NBox "h1" [NText "Dashboard"];
         NBox "p" [NText "Welcome back! Here's your job search overview"]];
      NBox "div"
        (List.map (λ stat, NBox "motion.div"
                     [GlassCard [NBox "div" [NBox "div" [NBox "p" [NText stat.1];
                                                         NBox "p" [NText stat.2]]]]])
           stats);
      NBox "div"
        [NBox "h2" [NText "Quick Actions"];
         NBox "div"
           (List.map (λ action, NBox "motion.div"
                        [NLink action.2
                           [GlassCard [NBox "div" []; NBox "h3" [NText action.1.1];
                                       NBox "p" [NText action.1.2]]]])
              dashboard_quickActions)];
      NBox "div"
        [NBox "h2" [NText "Recent Activity"];
         GlassCard
           [NBox "div"
              (List.map (λ activity, NBox "motion.div"
                           [NBox "div" [];
                            NBox "div" [NBox "p" [NText activity.1]; NBox "p" [NText activity.2]]])
                 recentActivity)]];
      GlassCard
        [NBox "h3" [NText "Pro Tip"];
         NBox "p" [NText ("Tailor your CV and cover letter for each job application to increase "
                          +:+ "your chances of getting interviews by up to 3x. Use specific keywords "
                          +:+ "from the job description in your documents.")]]]].

(** ** The landing page (Landing.tsx) *)

(** [features] (lines 8-24): title and description. *)
Definition features : list (string * string) :=
  [("AI-Powered Documents",
    "Generate professional CVs and cover letters tailored to any job description in seconds.");
   ("Auto Job Applications",
    "Streamline your LinkedIn Easy Apply process with intelligent automation.");
   ("Profile Optimization",
    "Get AI-driven suggestions to enhance your LinkedIn profile and stand out.")].

(** [benefits] (lines 26-31). *)
Definition benefits : list string :=
  ["Save hours on job applications"; "Increase interview callbacks by 3x";
   "Stand out with tailored applications"; "Never miss a deadline"].

(** [Landing] (lines 33-166). *)
Definition landing_view : list (node screen_action) :=
  [NBox "div"
     [NBox "section"
        [NBox "div" []; NBox "div" [];
         NBox "div"
           [NBox "motion.div"
              [NBox "div" [NBox "span" [NText "AI-Powered Job Applications"]];
               NBox "h1" [NText "Automate Your Job"; NBox "br" [];
                          NBox "span" [NText "Applications with AI"]];
               NBox "p" [NText ("Generate professional CVs, cover letters, and optimize your "
                                +:+ "LinkedIn profile in seconds. Land your dream job faster with AI JobMate.")];
               NBox "div" [NLink "/generate" [NText "Generate CV & Cover Letter"];
                           NLink "/dashboard" [NText "Go to Dashboard"]];
               NBox "div" (List.map (λ benefit, NBox "motion.div" [NBox "span" [NText benefit]])
                             benefits)]]];
      NBox "section"
        [NBox "div"
           [NBox "motion.div"
              [NBox "h2" [NText "Powerful Features"];
               NBox "p" [NText "Everything you need to accelerate your job search"]];
            NBox "div"
              (List.map (λ feature, NBox "motion.div"
                           [GlassCard [NBox "div" []; NBox "h3" [NText feature.1];
                                       NBox "p" [NText feature.2]]])
                 features)]];
      NBox "section"
        [NBox "div"
           [GlassCard
              [NBox "motion.div"
                 [NBox "h2" [NText "Ready to Land Your Dream Job?"];
                  NBox "p" [NText ("Join thousands of job seekers who have accelerated their "
                                   +:+ "career with AI JobMate.")];
                  NLink "/dashboard" [NText "Get Started Now"]]]]]]].

(** ** The composed screen (App.tsx lines 20-52) *)

(** The state the screens read: the four form pages' and the sidebar's
    ([useSidebar().state = 'collapsed'], kept by the UI library). *)
Record app_state : Type := {
  apply_st : ApplyJob.state;
  profile_st : UpdateProfile.state;
  gen_st : GenerateDocuments.state;
  settings_st : Settings.state;
  sidebar_collapsed : bool
}.

(** A page's tree with its actions relabelled. *)
Definition embed {A} (f : A → screen_action) (r : result js_error (list (node A)))
    : result js_error (list (node screen_action)) :=
  vs ← r; Ok (List.map (node_map f) vs).

(** The element the [<Routes>] render; nothing when no route matches. *)
Definition page_view (pg : option page_id) (st : app_state)
    : result js_error (list (node screen_action)) :=
  match pg with
  | Some PLanding => Ok landing_view
  | Some PDashboard => Ok dashboard_view
  | Some PGenerate => embed SGen (GenerateDocuments.view (gen_st st))
  | Some PApply => embed SApply (ApplyJob.view (apply_st st))
  | Some PProfile => embed SProfile (UpdateProfile.view (profile_st st))
  | Some PSettings => embed SSettings (Ok (Settings.view (settings_st st)))
  | Some PNotFound => Ok [NBox "NotFound" []]
  | None => Ok []
  end.

(** [AppContent]: a page that throws while rendering takes the screen down. *)
Definition screen (pathname : string) (st : app_state)
    : result js_error (list (node screen_action)) :=
  let '(lay, pg) := AppContent pathname in
  body ← page_view pg st;
  Ok (navbar_view pathname ++
      match lay with
      | SidebarLayout =>
          [NBox "SidebarProvider"
             [NBox "div" (sidebar_view (sidebar_collapsed st)
                          ++ [NBox "main" (NButton (BClick SToggleSidebar) false [] :: body)])]]
      | PlainLayout => body
      end).

(** ** Example *)

Definition ex_state : app_state :=
  {| apply_st := ApplyJob.initial; profile_st := UpdateProfile.initial;
     gen_st := GenerateDocuments.initial; settings_st := Settings.initial Settings.Light;
     sidebar_collapsed := false |}.

(** ** Lemmas *)

(** Closes [l = l ∧ NoDup l ∧ k = k] for concrete lists of ids. *)
Local Ltac page_ids_close :=
  split_and!; [reflexivity | apply (bool_decide_unpack _); vm_compute; reflexivity | reflexivity].

Lemma navbar_collect pn :
  collect node_ids (navbar_view pn) = [] ∧ collect node_labels (navbar_view pn) = [] ∧
  collect node_links (navbar_view pn) = navbar_links pn ∧
  collect node_actions (navbar_view pn) = [SToggleTheme].
Proof. unfold navbar_view, navbar_links. by destruct (isLandingPage pn). Qed.

Lemma sidebar_collect c :
  collect node_ids (sidebar_view c) = [] ∧ collect node_labels (sidebar_view c) = [] ∧
  collect node_links (sidebar_view c) = List.map snd sidebar_items ∧
  collect node_actions (sidebar_view c) = [].
Proof. by destruct c. Qed.

(** A screen's controls and labels are its page's; its links are the
    navbar's, the sidebar's and the page's; its actions the navbar's
    theme toggle, the [SidebarTrigger] in the sidebar layout, and the
    page's. *)
Lemma screen_collect pn st vs :
  screen pn st = Ok vs →
  ∃ body, page_view (AppContent pn).2 st = Ok body ∧
    input_ids vs = input_ids body ∧ label_targets vs = label_targets body ∧
    links vs = navbar_links pn
               ++ (if bool_decide ((AppContent pn).1 = SidebarLayout)
                   then List.map snd sidebar_items else [])
               ++ links body ∧
    actions vs = SToggleTheme :: (if bool_decide ((AppContent pn).1 = SidebarLayout)
                                  then SToggleSidebar :: actions body else actions body).
Proof.
  unfold screen. destruct (AppContent pn) as [lay pg]. cbv beta iota.
  destruct (page_view pg st) as [body|] eqn:Hb; [|discriminate].
  cbn [mbind result_bind].
  destruct (navbar_collect pn) as (N1 & N2 & N3 & N4).
  destruct (sidebar_collect (sidebar_collapsed st)) as (S1 & S2 & S3 & S4).
  remember (navbar_view pn) as nb eqn:Hnb.
  remember (sidebar_view (sidebar_collapsed st)) as sb eqn:Hsb.
  intros [= <-]. exists body. split; [done|].
  unfold input_ids, label_targets, links, actions. rewrite !collect_app, N1, N2, N3, N4.
  destruct lay; cbn [fst]; [rewrite bool_decide_eq_true_2 by done | rewrite bool_decide_eq_false_2 by done];
    view_collect; rewrite ?collect_app, ?S1, ?S2, ?S3, ?S4; cbn [app]; rewrite ?app_nil_r; done.
Qed.

(** Each page labels exactly its controls, whose ids are distinct, and
    links where [Routing.links_on] says. *)
Lemma page_view_collect pg st body :
  page_view pg st = Ok body →
  label_targets body = input_ids body ∧ NoDup (input_ids body) ∧
  links body = match pg with
               | Some PDashboard => quickActions
               | Some PLanding => landing_links
               | _ => []
               end.
Proof.
  destruct pg as [[]|]; cbn [page_view]; unfold embed.
  - intros <-%Ok_inj. page_ids_close.
  - intros <-%Ok_inj. page_ids_close.
  - destruct (GenerateDocuments.view (gen_st st)) as [vs|] eqn:V; [|discriminate].
    intros <-%Ok_inj. rewrite input_ids_map, label_targets_map, links_map.
    destruct (GenerateDocuments.gd_view_ids _ _ V) as (-> & -> & ->). page_ids_close.
  - destruct (ApplyJob.view (apply_st st)) as [vs|] eqn:V; [|discriminate].
    intros <-%Ok_inj. rewrite input_ids_map, label_targets_map, links_map.
    destruct (ApplyJob.apply_view_ids _ _ V) as (-> & -> & ->). page_ids_close.
  - destruct (UpdateProfile.view (profile_st st)) as [vs|] eqn:V; [|discriminate].
    intros <-%Ok_inj. rewrite input_ids_map, label_targets_map, links_map.
    destruct (UpdateProfile.profile_view_ids _ _ V) as (-> & -> & ->). page_ids_close.
  - intros <-%Ok_inj. rewrite input_ids_map, label_targets_map, links_map.
    destruct (Settings.settings_view_ids (settings_st st)) as (-> & -> & ->). page_ids_close.
  - intros <-%Ok_inj. page_ids_close.
  - intros <-%Ok_inj. page_ids_close.
Qed.

(** The links a screen renders are those [Routing.links_on] lists, in
    order: the routing theorems quantify over what is on the screen. *)
Theorem screen_links pn st vs : screen pn st = Ok vs → links vs = links_on pn.
Proof.
  intros H. destruct (screen_collect _ _ _ H) as (body & Hb & _ & _ & -> & _).
  destruct (page_view_collect _ _ _ Hb) as (_ & _ & ->).
  unfold links_on. by destruct (AppContent pn).
Qed.

(** ** Properties *)

(** C33: Every screen the application renders is well formed: each
    [<Label htmlFor>] names a control of the screen, and no two controls
    share an id, on every path and in every state of the pages. *)
Theorem screens_well_formed pn st vs : screen pn st = Ok vs → well_formed vs = true.
Proof.
  intros H. destruct (screen_collect _ _ _ H) as (body & Hb & Hi & Hl & _ & _).
  destruct (page_view_collect _ _ _ Hb) as (Hlt & Hnd & _).
  unfold well_formed. rewrite Hi, Hl, Hlt, andb_true_iff, forallb_forall. split.
  - intros x Hx. apply bool_decide_eq_true. by apply list_elem_of_In.
  - by apply bool_decide_eq_true.
Qed.

Lemma screens_well_formed_witness :
  ∃ vs, screen "/generate" ex_state = Ok vs ∧ well_formed vs = true.
Proof.
  eexists. split; [vm_compute; reflexivity|].
  apply (screens_well_formed "/generate" ex_state). vm_compute. reflexivity.
Defined.

End Screens.
