(* ===== verification/App.v ===== *)
(** * The application: pages mounted by the routes, [src/App.tsx]

    [AppContent] (App.tsx lines 20-52) mounts exactly one page: the element
    of the route that matches the path.  Following a link to a path whose
    element is different unmounts the page (its [useState] state is gone)
    and mounts the new one with its initial state; a link to a path with
    the same element keeps it mounted.  An [await] of an unmounted page
    still settles: its continuation runs, its [setState] calls are ignored
    (React drops updates of unmounted components), and its other effects
    (the toast, the download's DOM work) happen.

    The configuration ([app_config]) holds the path, the theme of the
    theme context, the sidebar's collapsed state, the instance number of
    the mounted page, its state, the [world], and every await in flight
    tagged with the instance that started it.  [app_step] dispatches an
    event: a click on a link of the screen, the navbar's theme toggle, the
    [SidebarTrigger], an event of the mounted page (through the runtime of
    [Runtime], on the page's [Page] instance), or the settlement of any
    await in flight.

    The sidebar's collapsed state belongs to [SidebarProvider], which
    exists only in the sidebar layout (lines 27-43): leaving that layout
    for the landing page unmounts it, and coming back mounts it expanded.

    The theorems: the single-flight guard holds for the mounted instance
    in every reachable configuration ([app_inv] is preserved by every
    event), but it does not survive a remount: leaving the generation page
    and coming back while a generation is in flight lets a second one be
    sent.

    Not modelled: the browser's back and forward buttons (a [popstate]
    navigation to any path of the history, not only to a rendered link);
    navigation here is by the links of the screen, and a typed URL is a
    fresh [app_init]. *)

From S2P Require Import Prelude Json Transport Browser Api Runtime Routing ApplyJob UpdateProfile GenerateDocuments Settings.
Import Axios Routing.
Open Scope list_scope.

Module AppMachine.

(** The state of the mounted page; Dashboard, Landing and NotFound have none. *)
Inductive page_state : Type :=
| PSApply (s : ApplyJob.state)
| PSProfile (s : UpdateProfile.state)
| PSGen (s : GenerateDocuments.state)
| PSSettings (s : Settings.state)
| PSStatic (pg : option page_id).

(** The continuation of an await, by the page that started it. *)
Inductive app_cont : Type :=
| KApply (k : unit)
| KProfile (k : unit)
| KGen (k : GenerateDocuments.cont).

Record app_config : Type := AppConfig {
  a_path : string;
  a_theme : Settings.theme_t;
  a_collapsed : bool;
  a_inst : nat;
  a_page : page_state;
  a_world : world;
  a_inflight : list (nat * (request * app_cont))
}.

Inductive app_event : Type :=
| ANavigate (to : string)
| AToggleTheme
| AToggleSidebar
| AApply (e : event ApplyJob.trigger ApplyJob.input Empty_set)
| AProfile (e : event UpdateProfile.trigger UpdateProfile.input UpdateProfile.sync_event)
| AGen (e : event GenerateDocuments.trigger GenerateDocuments.input Empty_set)
| ASettings (e : event Empty_set Settings.input Settings.sync_event)
| ASettle (n : nat) (o : net_outcome).

(** Mounting the element of a route: the page's initial [useState] values;
    Settings reads the theme from the context. *)
Definition mount (pg : option page_id) (t : Settings.theme_t) : page_state :=
  match pg with
  | Some PApply => PSApply ApplyJob.initial
  | Some PProfile => PSProfile UpdateProfile.initial
  | Some PGenerate => PSGen GenerateDocuments.initial
  | Some PSettings => PSSettings (Settings.initial t)
  | _ => PSStatic pg
  end.

Definition app_init (pathname : string) (t : Settings.theme_t) : app_config :=
  AppConfig pathname t false 0 (mount (AppContent pathname).2 t) world0 [].

(** A new theme re-renders the consumers of the context. *)
Definition retheme (t : Settings.theme_t) (ps : page_state) : page_state :=
  match ps with PSSettings s => PSSettings (Settings.set_theme s t) | _ => ps end.

Section OnPage.
Context {St T I J K : Type} `{P : Page St T I J K}.

(** An event of a mounted page, through the runtime: the new state and
    world, and the awaits it started, tagged with the instance. *)
Definition local (e : event T I J) (inst : nat) (s : St) (w : world)
    : option (St * world * list (nat * (request * K))) :=
  if is_settle e then None
  else c' ← step e (mkConfig s w []);
       Some (c_page c', c_world c', List.map (λ rk, (inst, rk)) (c_inflight c')).

Definition on_page (inj : St → page_state) (injk : K → app_cont)
    (th : St → Settings.theme_t → Settings.theme_t) (e : event T I J) (s : St)
    (c : app_config) : option app_config :=
  '(s', w', new) ← local e (a_inst c) s (a_world c);
  Some (AppConfig (a_path c) (th s' (a_theme c)) (a_collapsed c) (a_inst c) (inj s') w'
          (a_inflight c ++ ((λ x, (x.1, (x.2.1, injk x.2.2))) <$> new))).
End OnPage.

Definition no_cont {A} (k : Empty_set) : A := match k with end.

(** The continuation of the mounted instance; [None] when the kinds differ. *)
Definition resume_mounted (k : app_cont) (res : result transport_error jsval)
    (ps : page_state) (w : world) : option (page_state * world) :=
  match k, ps with
  | KApply _, PSApply s =>
      let '(s', w') := ApplyJob.handleSubmit_resume res s w in Some (PSApply s', w')
  | KProfile _, PSProfile s =>
      let '(s', w') := UpdateProfile.handleSubmit_resume res s w in Some (PSProfile s', w')
  | KGen k, PSGen s =>
      let '(s', w') := GenerateDocuments.resume k res s w in Some (PSGen s', w')
  | _, _ => None
  end.

(** The continuation of an unmounted instance: its state updates are
    dropped, its effects on the world happen.  (Which state it is run on
    does not matter: [stale_world_indep].) *)
Definition stale_world (k : app_cont) (res : result transport_error jsval) (w : world) : world :=
  match k with
  | KApply _ => (ApplyJob.handleSubmit_resume res ApplyJob.initial w).2
  | KProfile _ => (UpdateProfile.handleSubmit_resume res UpdateProfile.initial w).2
  | KGen k => (GenerateDocuments.resume k res GenerateDocuments.initial w).2
  end.

Definition with_page (c : app_config) (ps : page_state) (w : world)
    (fl : list (nat * (request * app_cont))) : app_config :=
  AppConfig (a_path c) (a_theme c) (a_collapsed c) (a_inst c) ps w fl.

(** The sidebar's collapsed state is the state of [SidebarProvider]
    (App.tsx line 28), mounted only in the sidebar layout: a navigation that
    keeps the layout keeps it, one that changes the layout unmounts or
    mounts the provider, which starts expanded ([defaultOpen]). *)
Definition sidebar_after (to : string) (c : app_config) : bool :=
  if bool_decide ((AppContent to).1 = (AppContent (a_path c)).1) then a_collapsed c else false.

Definition app_step (e : app_event) (c : app_config) : option app_config :=
  match e with
  | ANavigate to =>
      if bool_decide (to ∈ links_on (a_path c)) then
        Some (if bool_decide (AppContent to = AppContent (a_path c))
              then AppConfig to (a_theme c) (a_collapsed c) (a_inst c) (a_page c)
                             (a_world c) (a_inflight c)
              else AppConfig to (a_theme c) (sidebar_after to c) (S (a_inst c))
                             (mount (AppContent to).2 (a_theme c)) (a_world c) (a_inflight c))
      else None
  | AToggleTheme =>
      let t := Settings.toggleTheme (a_theme c) in
      Some (AppConfig (a_path c) t (a_collapsed c) (a_inst c) (retheme t (a_page c))
                      (a_world c) (a_inflight c))
  | AToggleSidebar =>
      if isLandingPage (a_path c) then None
      else Some (AppConfig (a_path c) (a_theme c) (negb (a_collapsed c)) (a_inst c)
                           (a_page c) (a_world c) (a_inflight c))
  | AApply e =>
      match a_page c with
      | PSApply s => on_page (P := ApplyJob.page) PSApply KApply (λ _ t, t) e s c
      | _ => None
      end
  | AProfile e =>
      match a_page c with
      | PSProfile s => on_page (P := UpdateProfile.page) PSProfile KProfile (λ _ t, t) e s c
      | _ => None
      end
  | AGen e =>
      match a_page c with
      | PSGen s => on_page (P := GenerateDocuments.page) PSGen KGen (λ _ t, t) e s c
      | _ => None
      end
  | ASettings e =>
      match a_page c with
      | PSSettings s =>
          on_page (P := Settings.page) PSSettings no_cont (λ s _, Settings.theme s) e s c
      | _ => None
      end
  | ASettle n o =>
      '((i, (r, k)), rest) ← take_nth n (a_inflight c);
      let res := settle r o in
      match (if decide (i = a_inst c) then resume_mounted k res (a_page c) (a_world c) else None) with
      | Some (ps', w') => Some (with_page c ps' w' rest)
      | None => Some (with_page c (a_page c) (stale_world k res (a_world c)) rest)
      end
  end.

Fixpoint app_run (es : list app_event) (c : app_config) : option app_config :=
  match es with
  | [] => Some c
  | e :: es' => c' ← app_step e c; app_run es' c'
  end.

(** ** The invariant *)

Definition ps_loading (ps : page_state) : bool :=
  match ps with
  | PSApply s => ApplyJob.loading s
  | PSProfile s => UpdateProfile.loading s
  | PSGen s => GenerateDocuments.loading s
  | _ => false
  end.

Definition cont_guarded (k : app_cont) : bool :=
  match k with
  | KApply _ | KProfile _ | KGen GenerateDocuments.KSubmit => true
  | KGen (GenerateDocuments.KDownload _) => false
  end.

Definition cont_fits (k : app_cont) (ps : page_state) : bool :=
  match k, ps with
  | KApply _, PSApply _ | KProfile _, PSProfile _ | KGen _, PSGen _ => true
  | _, _ => false
  end.

(** The guarded awaits of the mounted instance. *)
Definition mine_guarded (c : app_config) : nat :=
  length (filter (λ x : nat * (request * app_cont), x.1 = a_inst c ∧ cont_guarded x.2.2 = true)
                 (a_inflight c)).

(** Every await was started by the mounted instance or an earlier one,
    those of the mounted one belong to its page, and single flight holds
    for the mounted instance. *)
Definition app_inv (c : app_config) : Prop :=
  (∀ x : nat * (request * app_cont), x ∈ a_inflight c →
     (x.1 ≤ a_inst c)%nat ∧ (x.1 = a_inst c → cont_fits x.2.2 (a_page c) = true)) ∧
  mine_guarded c = if ps_loading (a_page c) then 1 else 0.

(** ** Examples *)

(** Generate, leave for the dashboard and come back, generate again. *)
Definition ex_remount : list app_event :=
  List.map (λ e, AGen e) GenerateDocuments.ex_form ++
  [AGen (EFire GenerateDocuments.SubmitForm); ANavigate "/dashboard"; ANavigate "/generate"] ++
  List.map (λ e, AGen e) GenerateDocuments.ex_form ++ [AGen (EFire GenerateDocuments.SubmitForm)].

(** The inputs of [GenerateDocuments.ex_form], and the page after them. *)
Definition ex_inputs : list GenerateDocuments.input :=
  List.map (λ fv, GenerateDocuments.SetField fv.1 fv.2)
    [(GenerateDocuments.FName, "Jo"); (GenerateDocuments.FEmail, "jo@x.com");
     (GenerateDocuments.FPhone, "1"); (GenerateDocuments.FSkills, "Rocq");
     (GenerateDocuments.FExperience, "5y"); (GenerateDocuments.FEducation, "MSc");
     (GenerateDocuments.FJobDescription, "Engineer")].

Definition ex_filled : GenerateDocuments.state :=
  foldl (λ s i, GenerateDocuments.on_input i s) GenerateDocuments.initial ex_inputs.

(** From the generation page: to the dashboard and back, fill the form
    again and generate. *)
Definition ex_resubmit : list app_event :=
  [ANavigate "/dashboard"; ANavigate "/generate"] ++
  List.map (λ e, AGen e) GenerateDocuments.ex_form ++ [AGen (EFire GenerateDocuments.SubmitForm)].

Definition ex_remount_config : app_config :=
  default (app_init "/generate" Settings.Light)
          (app_run ex_remount (app_init "/generate" Settings.Light)).

(** ** Lemmas *)

(** What a continuation does to the world does not depend on the state it
    runs on: the handlers after their [await] read only the response. *)
Lemma apply_resume_world res s s' w :
  (ApplyJob.handleSubmit_resume res s w).2 = (ApplyJob.handleSubmit_resume res s' w).2.
Proof.
  unfold ApplyJob.handleSubmit_resume, ApplyJob.try_block.
  destruct (await_ res) as [v|]; simpl; [|done]. by destruct (js_get v "message").
Qed.

Lemma profile_resume_world res s s' w :
  (UpdateProfile.handleSubmit_resume res s w).2 = (UpdateProfile.handleSubmit_resume res s' w).2.
Proof.
  unfold UpdateProfile.handleSubmit_resume, UpdateProfile.try_block.
  destruct (await_ res) as [v|]; simpl; [|done].
  destruct (js_get v "profile_suggestions"); simpl; [|done]. by destruct (js_get v "message").
Qed.

Lemma gen_resume_world k res s s' w :
  (GenerateDocuments.resume k res s w).2 = (GenerateDocuments.resume k res s' w).2.
Proof.
  destruct k; simpl; [|done].
  unfold GenerateDocuments.handleSubmit_resume. by destruct (await_ res).
Qed.

Lemma resume_mounted_spec k res ps w ps' w' :
  resume_mounted k res ps w = Some (ps', w') →
  cont_fits k ps = true ∧ (∀ k', cont_fits k' ps' = cont_fits k' ps) ∧
  ps_loading ps' = (if cont_guarded k then false else ps_loading ps) ∧
  w' = stale_world k res w.
Proof.
  destruct k as [u|u|k], ps as [s|s|s|s|pg]; simpl; try discriminate.
  - destruct (ApplyJob.handleSubmit_resume res s w) as [s1 w1] eqn:E. intros [= <- <-].
    pose proof (@resume_loading _ _ _ _ _ _ ApplyJob.apply_page_laws u res s w) as L.
    simpl in L. rewrite E in L. split_and!; [done | by intros [] | exact L |].
    by rewrite <- (apply_resume_world res s), E.
  - destruct (UpdateProfile.handleSubmit_resume res s w) as [s1 w1] eqn:E. intros [= <- <-].
    pose proof (@resume_loading _ _ _ _ _ _ UpdateProfile.profile_page_laws u res s w) as L.
    simpl in L. rewrite E in L. split_and!; [done | by intros [] | exact L |].
    by rewrite <- (profile_resume_world res s), E.
  - destruct (GenerateDocuments.resume k res s w) as [s1 w1] eqn:E. intros [= <- <-].
    pose proof (@resume_loading _ _ _ _ _ _ GenerateDocuments.gd_page_laws k res s w) as L.
    simpl in L. rewrite E in L. split_and!; [done | by intros [] | by destruct k |].
    by rewrite <- (gen_resume_world k res s), E.
Qed.

Lemma resume_mounted_fits k res ps w :
  cont_fits k ps = true → ∃ ps' w', resume_mounted k res ps w = Some (ps', w').
Proof.
  destruct k, ps; simpl; try discriminate; intros _; repeat case_match; eauto.
Qed.

(** A stale continuation sends nothing and shows exactly one toast. *)
Lemma stale_world_effects k res w :
  sent (stale_world k res w) = sent w ∧ ∃ t, toasts (stale_world k res w) = toasts w ++ [t].
Proof.
  destruct k as [u|u|k]; simpl.
  - exact (@resume_world _ _ _ _ _ _ ApplyJob.apply_page_laws u res ApplyJob.initial w).
  - exact (@resume_world _ _ _ _ _ _ UpdateProfile.profile_page_laws u res UpdateProfile.initial w).
  - exact (@resume_world _ _ _ _ _ _ GenerateDocuments.gd_page_laws k res GenerateDocuments.initial w).
Qed.

Lemma ps_loading_mount pg t : ps_loading (mount pg t) = false.
Proof. by destruct pg as [[]|]. Qed.

Lemma retheme_fits t k ps : cont_fits k (retheme t ps) = cont_fits k ps.
Proof. by destruct ps, k. Qed.

Lemma retheme_loading t ps : ps_loading (retheme t ps) = ps_loading ps.
Proof. by destruct ps. Qed.

Section OnPageLemmas.
Context {St T I J K : Type} `{P : Page St T I J K} `{!PageLaws P}.

Lemma local_Some e inst s w s' w' new :
  local e inst s w = Some (s', w', new) →
  (∀ x, x ∈ new → x.1 = inst) ∧
  ((if pg_loading s then 1 else 0) + length (filter (λ x, pg_guarded x.2.2 = true) new)
   = if pg_loading s' then 1 else 0)%nat.
Proof.
  unfold local. destruct (is_settle e) eqn:Hs; [discriminate|].
  destruct (step e (mkConfig s w [])) as [c'|] eqn:Hst; [|discriminate].
  intros [= <- <- <-]. apply step_Some_inv in Hst.
  destruct e as [i|j|t|n o]; simpl in *; try discriminate.
  - subst c'. simpl. rewrite input_loading. split; [set_solver|]. destruct (pg_loading s); simpl; lia.
  - destruct Hst as [Hj ->]. apply sync_loading in Hj as [-> _]. simpl.
    split; [set_solver|]. destruct (pg_loading s); simpl; lia.
  - destruct Hst as ([r k] & Hf & ->). simpl. split; [set_solver|].
    destruct (pg_guarded k) eqn:G.
    + destruct (fire_guarded _ _ _ _ _ _ _ Hf G) as [-> ->].
      rewrite filter_cons_True by (cbn; by rewrite G). done.
    + rewrite (fire_unguarded _ _ _ _ _ _ _ Hf G), filter_cons_False by (cbn; by rewrite G).
      simpl. lia.
Qed.

Context (inj : St → page_state) (injk : K → app_cont) (th : St → Settings.theme_t → Settings.theme_t).
Hypothesis inj_loading : ∀ s, ps_loading (inj s) = pg_loading s.
Hypothesis injk_guarded : ∀ k, cont_guarded (injk k) = pg_guarded k.
Hypothesis injk_fits : ∀ k s, cont_fits (injk k) (inj s) = true.
Hypothesis inj_fits : ∀ k s s', cont_fits k (inj s) = cont_fits k (inj s').

(** An event of the mounted page preserves the invariant. *)
Lemma on_page_inv e s c c' :
  a_page c = inj s → app_inv c → on_page inj injk th e s c = Some c' → app_inv c'.
Proof.
  intros Hp [Hall Hcnt]. unfold on_page.
  destruct (local e (a_inst c) s (a_world c)) as [[[s' w'] new]|] eqn:Hl; [|discriminate].
  intros [= <-]. destruct (local_Some _ _ _ _ _ _ _ Hl) as [Hnew Hg].
  split; simpl.
  - intros x [Hx|(y & -> & Hy)%list_elem_of_fmap]%elem_of_app.
    + destruct (Hall x Hx) as [Hle Hfit]. rewrite Hp in Hfit.
      split; [done|]. intros Heq. rewrite (inj_fits _ s' s). by apply Hfit.
    + simpl. rewrite (Hnew y Hy). split; [done|]. intros _. apply injk_fits.
  - unfold mine_guarded in *. simpl. rewrite filter_app, length_app, Hcnt, Hp, !inj_loading, <- Hg.
    f_equal. apply length_filter_fmap. intros x Hx. simpl.
    rewrite injk_guarded, (Hnew x Hx). naive_solver.
Qed.
End OnPageLemmas.

#[local] Existing Instances ApplyJob.apply_page_laws UpdateProfile.profile_page_laws
  GenerateDocuments.gd_page_laws Settings.settings_page_laws.

(** Every event preserves the invariant. *)
Lemma app_step_inv e c c' : app_inv c → app_step e c = Some c' → app_inv c'.
Proof.
  intros Hinv. destruct e as [to| | |e|e|e|e|n o]; simpl.
  - case_bool_decide; [|discriminate]. intros [= <-]. case_bool_decide; [exact Hinv|].
    destruct Hinv as [Hall _]. split; simpl.
    + intros x Hx. destruct (Hall x Hx) as [Hle _]. split; [lia|]. lia.
    + rewrite ps_loading_mount. apply length_filter_none.
      intros x Hx [Heq _]. destruct (Hall x Hx) as [Hle _]. simpl in Heq. lia.
  - intros [= <-]. destruct Hinv as [Hall Hcnt]. split; simpl.
    + intros x Hx. rewrite retheme_fits. by apply Hall.
    + by rewrite retheme_loading.
  - destruct (isLandingPage (a_path c)); [discriminate|]. by intros [= <-].
  - destruct (a_page c) eqn:Hp; try discriminate.
    eapply on_page_inv; eauto; by intros [].
  - destruct (a_page c) eqn:Hp; try discriminate.
    eapply on_page_inv; eauto; by intros [].
  - destruct (a_page c) eqn:Hp; try discriminate.
    eapply on_page_inv; eauto; by intros [].
  - destruct (a_page c) eqn:Hp; try discriminate.
    eapply on_page_inv; eauto; by intros [].
  - destruct (take_nth n (a_inflight c)) as [[[i [r k]] rest]|] eqn:Ht; [|discriminate].
    simpl. apply take_nth_perm in Ht as Hperm. destruct Hinv as [Hall Hcnt].
    assert (Hrest : ∀ x, x ∈ rest → x ∈ a_inflight c) by (intros x Hx; rewrite Hperm; by right).
    unfold mine_guarded in Hcnt. rewrite (length_filter_perm _ _ _ _ Hperm) in Hcnt. simpl in Hcnt.
    destruct (decide (i = a_inst c)) as [->|Hne].
    + destruct (Hall (a_inst c, (r, k))) as [_ Hfit]; [rewrite Hperm; left|].
      specialize (Hfit eq_refl). simpl in Hfit.
      destruct (resume_mounted_fits k (settle r o) (a_page c) (a_world c) Hfit) as (ps' & w' & Hr).
      rewrite Hr. intros [= <-].
      destruct (resume_mounted_spec _ _ _ _ _ _ Hr) as (_ & Hfits & Hload & _).
      split; simpl.
      * intros x Hx. rewrite Hfits. by apply Hall, Hrest.
      * unfold mine_guarded. simpl. rewrite Hload.
        destruct (cont_guarded k), (ps_loading (a_page c)); case_decide; simpl in *; naive_solver lia.
    + intros [= <-]. split; simpl.
      * intros x Hx. by apply Hall, Hrest.
      * unfold mine_guarded. simpl. rewrite decide_False in Hcnt by naive_solver. done.
Qed.

(** An invariant of single events is an invariant of runs. *)
Lemma app_run_preserves (Inv : app_config → Prop) es c c' :
  (∀ e c1 c2, Inv c1 → app_step e c1 = Some c2 → Inv c2) →
  Inv c → app_run es c = Some c' → Inv c'.
Proof.
  intros Hstep. revert c. induction es as [|e es IH]; intros c Hc; simpl; [by intros [= <-]|].
  destruct (app_step e c) as [c1|] eqn:E; [|discriminate]. apply IH. by eapply Hstep.
Qed.

Lemma app_run_inv es c c' : app_inv c → app_run es c = Some c' → app_inv c'.
Proof. apply app_run_preserves, app_step_inv. Qed.


Lemma app_init_inv p t : app_inv (app_init p t).
Proof.
  split; [simpl; set_solver|]. unfold mine_guarded. simpl. by rewrite ps_loading_mount.
Qed.


(** A link to a page with a different element remounts it. *)
Lemma app_step_remount c to :
  to ∈ links_on (a_path c) → AppContent to ≠ AppContent (a_path c) →
  app_step (ANavigate to) c =
  Some (AppConfig to (a_theme c) (sidebar_after to c) (S (a_inst c))
                  (mount (AppContent to).2 (a_theme c)) (a_world c) (a_inflight c)).
Proof.
  intros Hl Hne. simpl. rewrite bool_decide_eq_true_2 by done.
  by rewrite bool_decide_eq_false_2 by done.
Qed.

Lemma app_step_gen_input c s i :
  a_page c = PSGen s →
  app_step (AGen (EInput i)) c = Some (with_page c (PSGen (GenerateDocuments.on_input i s)) (a_world c) (a_inflight c)).
Proof. intros Hp. simpl. rewrite Hp. unfold on_page, local. simpl. by rewrite app_nil_r. Qed.

Lemma app_run_gen_inputs ins es c s :
  a_page c = PSGen s →
  app_run (List.map (λ i, AGen (EInput i)) ins ++ es) c =
  app_run es (with_page c (PSGen (foldl (λ s i, GenerateDocuments.on_input i s) s ins))
                (a_world c) (a_inflight c)).
Proof.
  revert c s. induction ins as [|i ins IH]; intros c s Hp; cbn [List.map app app_run foldl].
  - f_equal. destruct c; simpl in *. by subst.
  - rewrite (app_step_gen_input c s i Hp). cbn [mbind option_bind].
    by rewrite (IH _ (GenerateDocuments.on_input i s)).
Qed.

Lemma app_step_gen_submit c s :
  a_page c = PSGen s → GenerateDocuments.submit_enabled s = true →
  app_step (AGen (EFire GenerateDocuments.SubmitForm)) c =
  Some (with_page c (PSGen (GenerateDocuments.set_loading s true))
          (send (Api.generateDocuments (GenerateDocuments.formData s)) (a_world c))
          (a_inflight c ++ [(a_inst c, (Api.generateDocuments (GenerateDocuments.formData s),
                                        KGen GenerateDocuments.KSubmit))])).
Proof.
  intros Hp He. simpl. rewrite Hp. unfold on_page, local. simpl.
  unfold GenerateDocuments.fire. by rewrite He.
Qed.

(** ** Properties *)

(** C12: Single flight per mounted page: in every configuration reachable
    from the start of the application, the mounted page instance has
    exactly one guarded request in flight while it shows [loading] and
    none otherwise, whatever navigation, theme changes and settlements of
    other instances happened. *)
Theorem app_single_flight es p t c :
  app_run es (app_init p t) = Some c →
  mine_guarded c = if ps_loading (a_page c) then 1 else 0.
Proof. intros H. apply (app_run_inv _ _ _ (app_init_inv p t) H). Qed.

Lemma app_single_flight_witness :
  app_run ex_remount (app_init "/generate" Settings.Light) = Some ex_remount_config ∧
  mine_guarded ex_remount_config = if ps_loading (a_page ex_remount_config) then 1 else 0.
Proof.
  split; [vm_compute; reflexivity|].
  apply (app_single_flight ex_remount "/generate" Settings.Light). vm_compute. reflexivity.
Defined.

(** C13: The single-flight guard does not survive navigation (a finding):
    while a generation is in flight, going to the dashboard and back
    remounts the page with [loading] clear, and a second generation can
    be submitted and sent while the first is still in flight. *)
Theorem app_remount_double_generation c r :
  AppContent (a_path c) = (SidebarLayout, Some PGenerate) →
  (a_inst c, (r, KGen GenerateDocuments.KSubmit)) ∈ a_inflight c →
  ∃ c' u, app_run ex_resubmit c = Some c' ∧
    (a_inst c, (r, KGen GenerateDocuments.KSubmit)) ∈ a_inflight c' ∧
    (S (S (a_inst c)), (Api.generateDocuments u, KGen GenerateDocuments.KSubmit)) ∈ a_inflight c' ∧
    sent (a_world c') = sent (a_world c) ++ [Api.generateDocuments u] ∧
    ps_loading (a_page c') = true.
Proof.
  intros Hc Hin. unfold ex_resubmit. cbn [app app_run].
  rewrite app_step_remount.
  2:{ unfold links_on. rewrite Hc. simpl. set_solver. }
  2:{ rewrite Hc. vm_compute. discriminate. }
  cbn [mbind option_bind app_run]. rewrite app_step_remount; cbn [a_path a_inst].
  2:{ apply (bool_decide_unpack _). vm_compute. reflexivity. }
  2:{ vm_compute. discriminate. }
  cbn [mbind option_bind].
  change (List.map (λ e, AGen e) GenerateDocuments.ex_form) with
    (List.map (λ i, AGen (EInput i)) ex_inputs).
  rewrite (app_run_gen_inputs _ _ _ GenerateDocuments.initial) by reflexivity. cbn [app_run].
  rewrite (app_step_gen_submit _ ex_filled) by (reflexivity || (vm_compute; reflexivity)).
  cbn [mbind option_bind app_run]. eexists _, _. split; [reflexivity|]. simpl.
  split_and!; [apply elem_of_app; by left | apply elem_of_app; right; by left | done | done].
Qed.

Lemma app_remount_double_generation_witness :
  ∃ c' u, app_run ex_resubmit ex_remount_config = Some c' ∧
    (2, (Api.generateDocuments (GenerateDocuments.formData ex_filled), KGen GenerateDocuments.KSubmit)) ∈ a_inflight ex_remount_config ∧
    (4, (Api.generateDocuments u, KGen GenerateDocuments.KSubmit)) ∈ a_inflight c'.
Proof.
  destruct (app_remount_double_generation ex_remount_config
              (Api.generateDocuments (GenerateDocuments.formData ex_filled))) as (c' & u & H1 & H2 & H3 & _).
  - vm_compute. reflexivity.
  - apply list_elem_of_In. vm_compute. right. left. reflexivity.
  - exists c', u. split_and!; [exact H1 | | exact H3].
    apply list_elem_of_In. vm_compute. right. left. reflexivity.
Defined.

End AppMachine.
